(** * Retail store back end: the sale transaction of [POST /api/sales]

    A shallow embedding of the sale endpoint of [server.js] (both variants
    of it) over the three SQLite tables it touches, followed by the
    properties of the sale transaction, and then the same for the product
    endpoints, the reads of the ledger and the chatbot.

    Modelling conventions.
    - The [products] table is a finite map from the primary key [id] to the
      remaining columns; [sales] and [sale_items] are lists of rows in
      insertion order, each with its [AUTOINCREMENT] key, together with the
      largest key handed out so far.
    - Keys, quantities and stock (the [INTEGER] columns) are integers ([Z]).
      The quantity of a line is a JavaScript number that is an integer.
      The handler reads a stock as a JavaScript number, the nearest
      binary64 number, which is the stock itself up to 2^53.
      [stock = stock - ?] is computed the way SQLite computes it: on
      integers when the driver binds the quantity as an integer, in
      binary64 otherwise, see [sqlite_minus].  Overflow to [Infinity]
      (beyond 1.8e308) is left out of the stock arithmetic.
    - Prices, costs, totals and profits (the [REAL] columns) are numbers of
      an interface [Number] with the operations the handler uses.  The
      handler is written once against the interface and read twice: with
      IEEE 754 binary64 numbers, which is what a JavaScript number is, and
      with exact integers.
    - The [created_at]/[updated_at] columns carry wall-clock time and are
      left out.
    - Every SQL statement is one atomic step on the store (SQLite autocommit);
      the handler never opens a transaction.
    - A [REAL NOT NULL] column refuses NaN: SQLite stores NaN as NULL, so
      the [INSERT] of a sale header whose total or profit is NaN fails. *)

From stdpp Require Import gmap strings list fin_maps sorting.
From Stdlib Require Import ZArith Lia.
From Stdlib Require Import PrimFloat SpecFloat FloatOps.

Open Scope Z_scope.

(** ** Numbers *)

(** The arithmetic of the handler: numeric literals and integer fields
    read as numbers, [+], [-] and [*], whether a number is NaN and
    whether it is zero ([x == 0]). *)
Class Number (A : Type) := {
  number : Z -> A;
  plus : A -> A -> A;
  minus : A -> A -> A;
  times : A -> A -> A;
  nan : A -> bool;
  is_zero : A -> bool
}.

(** Exact arithmetic. *)
#[global] Instance exact : Number Z := {|
  number := fun z => z;
  plus := Z.add;
  minus := Z.sub;
  times := Z.mul;
  nan := fun _ => false;
  is_zero := fun z => z =? 0
|}.

(** An integer as a binary64 number: the nearest one, ties to even, and
    an infinity beyond the largest. *)
Definition float_of_Z (z : Z) : float :=
  SF2Prim (binary_normalize prec emax z 0 false).

(** JavaScript arithmetic: binary64, round to nearest even. *)
#[global] Instance double : Number float := {|
  number := float_of_Z;
  plus := PrimFloat.add;
  minus := PrimFloat.sub;
  times := PrimFloat.mul;
  nan := PrimFloat.is_nan;
  is_zero := fun x => PrimFloat.eqb x PrimFloat.zero
|}.

(** ** Integers in binary64 *)

(** The distance between the binary64 numbers around [a], for [0 <= a]:
    1 up to 2^53, then 2, then 4, .. *)
Definition ulp (a : Z) : Z := 2 ^ Z.max 0 (Z.log2 a - 52).

(** The multiple of [u] nearest to [a]; of two that are equally near, the
    even multiple. *)
Definition round_to (u a : Z) : Z :=
  let m := a / u in
  let r := a mod u in
  if 2 * r <? u then m * u
  else if u <? 2 * r then (m + 1) * u
  else if Z.even m then m * u else (m + 1) * u.

(** The binary64 number nearest to an integer, as an integer: what
    becomes of an integer that is read as a JavaScript number or as a
    [REAL]. *)
Definition nearest53 (x : Z) : Z :=
  Z.sgn x * round_to (ulp (Z.abs x)) (Z.abs x).

Definition int32 (x : Z) : bool := (- 2 ^ 31 <=? x) && (x <? 2 ^ 31).

Definition int64 (x : Z) : bool := (- 2 ^ 63 <=? x) && (x <? 2 ^ 63).

(** [stock - ?] as SQLite computes it.  The driver binds a JavaScript
    number that is a 32-bit integer as an [INTEGER] and any other number
    as a [REAL].  SQLite subtracts two integers as integers, unless the
    result leaves 64 bits; in every other case it subtracts in binary64.
    (A quantity is a binary64 number already: rounding it changes
    nothing.) *)
Definition sqlite_minus (stock quantity : Z) : Z :=
  if int32 quantity && int64 stock && int64 (stock - quantity)
  then stock - quantity
  else nearest53 (nearest53 stock - nearest53 quantity).

(** ** Rows *)

Set Implicit Arguments.
Set Maximal Implicit Insertion.

Module Product.
(** A row of [products], without its key. *)
Record t (A : Type) := mk {
  name : string;
  category : string;
  barcode : option string;
  cost : A;
  price : A;
  stock : Z;
  min_stock : Z
}.
End Product.

Module Item.
(** One element of [req.body.items], as the client sent it. *)
Record t (A : Type) := mk {
  product_id : Z;
  product_name : string;
  quantity : Z;
  price : A;
  cost : A
}.
End Item.

Module Sale.
(** A row of [sales]. *)
Record t (A : Type) := mk {
  id : Z;
  total : A;
  profit : A
}.
End Sale.

Module SaleItem.
(** A row of [sale_items]. *)
Record t (A : Type) := mk {
  id : Z;
  sale_id : Z;
  product_id : Z;
  product_name : string;
  quantity : Z;
  price : A;
  cost : A
}.
End SaleItem.

(** ** The database *)

Record store (A : Type) := mkStore {
  products : gmap Z (Product.t A);
  sales : list (Sale.t A);
  sale_items : list (SaleItem.t A);
  (** largest [sales.id] ever assigned (the [sqlite_sequence] entry) *)
  sales_seq : Z;
  (** largest [sale_items.id] ever assigned *)
  sale_items_seq : Z
}.

(** The write statements the handler issues. *)
Inductive statement (A : Type) :=
  | InsertSale (total profit : A)
      (* INSERT INTO sales (total, profit) VALUES (?, ?) *)
  | InsertSaleItem (sale_id product_id : Z) (product_name : string)
                   (quantity : Z) (price cost : A)
      (* INSERT INTO sale_items (sale_id, product_id, product_name,
                                 quantity, price, cost) VALUES (...) *)
  | UpdateStock (quantity product_id : Z).
      (* UPDATE products SET stock = stock - ? WHERE id = ? *)

(** The errors the handler reports. [ProductNotFound] and
    [InsufficientStock] stand for the messages
    [Product <id> not found] and [Insufficient stock for product <id>];
    [StorageError] is the [err] SQLite passes to a callback. *)
Inductive error :=
  | NoItems
  | ProductNotFound (product_id : Z)
  | InsufficientStock (product_id : Z)
  | StorageError.

Inductive response (A : Type) :=
  | Completed (id : Z) (total profit : A)  (* res.json({ id, total, profit, .. }) *)
  | Failed (status : Z) (e : error).       (* res.status(..).json({ error }) *)

(** A request being served; see [handler_step]. *)
Inductive handler (A : Type) :=
  | Received (items : option (list (Item.t A)))   (* the request has arrived *)
  | Checked (cart : list (Item.t A))              (* every check has resolved *)
  | HeaderWritten (cart : list (Item.t A)) (saleId : Z) (total profit : A)
                                                  (* the header INSERT has run *)
  | Responded (r : response A).                   (* the response has been sent *)

Unset Maximal Implicit Insertion.
Unset Implicit Arguments.

Arguments UpdateStock {A} quantity product_id.
Arguments Failed {A} status e.

(** What happens behind a statement that fails; see [run_faulty]. *)
Inductive aftermath :=
  | Halts            (* nothing queued behind the failing statement runs *)
  | Continues        (* the failing statement is skipped, the rest runs *)
  | Dies (n : nat).  (* [n] more statements run, then the process is gone *)

Section Model.
Context {A : Type} {num : Number A}.

(** [stock = stock - ?] on one row. *)
Definition decrement (q : Z) (p : Product.t A) : Product.t A :=
  Product.mk (Product.name p) (Product.category p) (Product.barcode p)
             (Product.cost p) (Product.price p) (sqlite_minus (Product.stock p) q)
             (Product.min_stock p).

(** Executing one statement. *)
Definition run (db : store A) (s : statement A) : store A :=
  match s with
  | InsertSale total profit =>
      let id := sales_seq db + 1 in
      mkStore (products db) (sales db ++ [Sale.mk id total profit])
              (sale_items db) id (sale_items_seq db)
  | InsertSaleItem sale_id product_id product_name quantity price cost =>
      let id := sale_items_seq db + 1 in
      mkStore (products db) (sales db)
              (sale_items db ++
                 [SaleItem.mk id sale_id product_id product_name quantity price cost])
              (sales_seq db) id
  | UpdateStock quantity product_id =>
      mkStore (alter (decrement quantity) product_id (products db))
              (sales db) (sale_items db) (sales_seq db) (sale_items_seq db)
  end.

(** [SELECT stock FROM products WHERE id = ?]; [None] is the missing row. *)
Definition select_stock (db : store A) (product_id : Z) : option Z :=
  Product.stock <$> products db !! product_id.

(** ** The handler *)

(** The body of one check promise: [None] is [resolve()], [Some e] is
    [reject(new Error(..))].  [row.stock] is the stock as JavaScript reads
    it, the binary64 number nearest to the integer of the column, and
    [<] compares two JavaScript numbers. *)
Definition check (db : store A) (item : Item.t A) : option error :=
  match select_stock db (Item.product_id item) with
  | None => Some (ProductNotFound (Item.product_id item))
  | Some stock =>
      if nearest53 stock <? nearest53 (Item.quantity item)
      then Some (InsufficientStock (Item.product_id item))
      else None
  end.

(** [Promise.all]: the queries run one after the other inside
    [db.serialize], so their callbacks fire in cart order and the first
    rejection is the one that reaches [.catch]. *)
Fixpoint promise_all (outcomes : list (option error)) : option error :=
  match outcomes with
  | [] => None
  | Some e :: _ => Some e
  | None :: rest => promise_all rest
  end.

Definition validate (db : store A) (items : list (Item.t A)) : option error :=
  promise_all (map (check db) items).

(** The [items.forEach] that accumulates [total] and [totalCost], from
    given values of the two variables:
    [total += item.price * item.quantity;
     totalCost += item.cost * item.quantity]. *)
Definition totals_from (acc : A * A) (items : list (Item.t A)) : A * A :=
  foldl (fun acc item =>
           (plus acc.1 (times (Item.price item) (number (Item.quantity item))),
            plus acc.2 (times (Item.cost item) (number (Item.quantity item)))))
        acc items.

(** [let total = 0; let totalCost = 0; items.forEach(..)] *)
Definition totals (items : list (Item.t A)) : A * A :=
  totals_from (number 0, number 0) items.

(** The statements queued by the second [items.forEach], in program order. *)
Definition item_statements (saleId : Z) (items : list (Item.t A))
    : list (statement A) :=
  flat_map (fun item =>
              [InsertSaleItem saleId (Item.product_id item) (Item.product_name item)
                              (Item.quantity item) (Item.price item) (Item.cost item);
               UpdateStock (Item.quantity item) (Item.product_id item)])
           items.

(** The header [INSERT] fails when [total] or [profit] is NaN: both
    columns are [REAL NOT NULL]. *)
Definition insert_fails (total profit : A) : bool := nan total || nan profit.

(** The [.then] branch.  The header [INSERT] is the only statement whose
    error the handler looks at. *)
Definition commit (db : store A) (items : list (Item.t A)) : store A * response A :=
  let '(total, totalCost) := totals items in
  let profit := minus total totalCost in
  if insert_fails total profit
  then (db, Failed 500 StorageError)   (* if (err) { res.status(500)..; return; } *)
  else
    let db1 := run db (InsertSale total profit) in
    let saleId := sales_seq db1 in                       (* this.lastID *)
    (foldl run db1 (item_statements saleId items), Completed saleId total profit).

(** [app.post('/api/sales', ..)]; [items = None] is a body without the
    field. *)
Definition post_sales (db : store A) (items : option (list (Item.t A)))
    : store A * response A :=
  match items with
  | None | Some [] => (db, Failed 400 NoItems)
  | Some cart =>
      match validate db cart with
      | Some e => (db, Failed 400 e)
      | None => commit db cart
      end
  end.

(** ** Storage faults during the commit

    The handler looks at the error of the header [INSERT] only; the item
    statements are run without a callback.  SQLite applies every statement
    on its own (autocommit), so whatever ran before a failing statement
    stays.  A failing statement that has no callback raises an [error]
    event on the statement object, which nothing in this file listens to:
    the process may go down with it.  How many of the statements queued
    behind the failing one still run is not decided by this file, so the
    model takes every possibility: none, all, or any number of them. *)

(** The item statements when the one at position [k] fails. *)
Definition run_faulty (a : aftermath) (k : nat) (db : store A)
    (ss : list (statement A)) : store A :=
  match a with
  | Halts => foldl run db (take k ss)
  | Continues => foldl run db (take k ss ++ drop (S k) ss)
  | Dies n => foldl run db (take k ss ++ take n (drop (S k) ss))
  end.

(** The [.then] branch when write number [k] of the commit fails: write 0
    is the header [INSERT], writes 1, 2, .. are the item statements.  The
    success response is sent right after the item statements are queued,
    before any of them has run.  A header whose total or profit is NaN
    fails by itself, and then there is no later write. *)
Definition commit_faulty (a : aftermath) (k : nat) (db : store A)
    (items : list (Item.t A)) : store A * response A :=
  let '(total, totalCost) := totals items in
  let profit := minus total totalCost in
  if insert_fails total profit then (db, Failed 500 StorageError)
  else
    match k with
    | O => (db, Failed 500 StorageError) (* if (err) { res.status(500)..; return; } *)
    | S k' =>
        let db1 := run db (InsertSale total profit) in
        let saleId := sales_seq db1 in
        (run_faulty a k' db1 (item_statements saleId items),
         Completed saleId total profit)
    end.

Definition post_sales_faulty (a : aftermath) (k : nat) (db : store A)
    (items : option (list (Item.t A))) : store A * response A :=
  match items with
  | None | Some [] => (db, Failed 400 NoItems)
  | Some cart =>
      match validate db cart with
      | Some e => (db, Failed 400 e)
      | None => commit_faulty a k db cart
      end
  end.

(** ** Requests in flight

    Node runs one callback at a time. A request touches the database in
    three of them: the checks (the [SELECT] callbacks, which only read, are
    taken together), then, once [Promise.all] is fulfilled, the header
    [INSERT], then, in the callback of that [INSERT], the item statements
    and the response. Callbacks of different requests may alternate. *)
Definition handler_step (db : store A) (h : handler A) : store A * handler A :=
  match h with
  | Received None | Received (Some []) => (db, Responded (Failed 400 NoItems))
  | Received (Some cart) =>
      match validate db cart with
      | Some e => (db, Responded (Failed 400 e))
      | None => (db, Checked cart)
      end
  | Checked cart =>
      let '(total, totalCost) := totals cart in
      let profit := minus total totalCost in
      if insert_fails total profit
      then (db, Responded (Failed 500 StorageError))
      else
        let db1 := run db (InsertSale total profit) in
        (db1, HeaderWritten cart (sales_seq db1) total profit)
  | HeaderWritten cart saleId total profit =>
      (foldl run db (item_statements saleId cart),
       Responded (Completed saleId total profit))
  | Responded r => (db, h)
  end.

(** [n] callbacks of one request in a row. *)
Fixpoint handler_steps (n : nat) (db : store A) (h : handler A)
    : store A * handler A :=
  match n with
  | O => (db, h)
  | S n' => let '(db', h') := handler_step db h in handler_steps n' db' h'
  end.

(** The server: the database and the requests being served. *)
Definition server : Type := store A * list (handler A).

(** Let request number [i] run its next callback. *)
Definition schedule_step (s : server) (i : nat) : server :=
  match s.2 !! i with
  | Some h => let '(db', h') := handler_step s.1 h in (db', <[i := h']> s.2)
  | None => s
  end.

Definition run_schedule (s : server) (schedule : list nat) : server :=
  foldl schedule_step s schedule.

(** ** The earlier variant of the endpoint

    The first [app.post('/api/sales', ..)] of the file has no check at all:
    it computes the totals, with the profit summed line by line, and
    writes.  Its response carries the key of the sale as [sale_id] where
    the later variant has [id]; [Completed] stands for both. *)
Definition totals_unchecked (items : list (Item.t A)) : A * A :=
  foldl (fun acc item =>
           (plus acc.1 (times (Item.price item) (number (Item.quantity item))),
            plus acc.2 (times (minus (Item.price item) (Item.cost item))
                              (number (Item.quantity item)))))
        (number 0, number 0) items.

Definition post_sales_unchecked (db : store A) (items : option (list (Item.t A)))
    : store A * response A :=
  match items with
  | None | Some [] => (db, Failed 400 NoItems)
  | Some cart =>
      let '(total, profit) := totals_unchecked cart in
      if insert_fails total profit
      then (db, Failed 500 StorageError)  (* if (err) { return res.status(500).. } *)
      else
        let db1 := run db (InsertSale total profit) in
        let saleId := sales_seq db1 in
        (foldl run db1 (item_statements saleId cart), Completed saleId total profit)
  end.

(** ** Vocabulary of the specification *)

(** The quantity a cart asks of one product, summed over all its lines. *)
Fixpoint requested (product_id : Z) (items : list (Item.t A)) : Z :=
  match items with
  | [] => 0
  | item :: rest =>
      if decide (Item.product_id item = product_id)
      then Item.quantity item + requested product_id rest
      else requested product_id rest
  end.

(** The quantity of the lines for one product, signs left out: how far
    the stock of the product moves at most while the lines are applied. *)
Fixpoint volume (product_id : Z) (items : list (Item.t A)) : Z :=
  match items with
  | [] => 0
  | item :: rest =>
      if decide (Item.product_id item = product_id)
      then Z.abs (Item.quantity item) + volume product_id rest
      else volume product_id rest
  end.

(** The stock of a product and the quantities asked of it stay within the
    integers that binary64 holds exactly, up to 2^53. *)
Definition exact_range (product_id : Z) (items : list (Item.t A))
    (p : Product.t A) : Prop :=
  Z.abs (Product.stock p) + volume product_id items <= 2 ^ 53.

(** The products a cart refers to. *)
Definition referenced (items : list (Item.t A)) : list Z :=
  Item.product_id <$> items.

(** Σ f, accumulated in order from [acc], as a loop with [+=] does. *)
Definition sum_from {X : Type} (f : X -> A) (acc : A) (l : list X) : A :=
  foldl (fun a x => plus a (f x)) acc l.

(** price × quantity and cost × quantity of a line. *)
Definition line_amount (item : Item.t A) : A :=
  times (Item.price item) (number (Item.quantity item)).

Definition line_cost (item : Item.t A) : A :=
  times (Item.cost item) (number (Item.quantity item)).

(** (price − cost) × quantity of a line. *)
Definition line_margin (item : Item.t A) : A :=
  times (minus (Item.price item) (Item.cost item)) (number (Item.quantity item)).

(** Σ price × quantity, Σ cost × quantity and Σ (price − cost) × quantity
    over the lines of a cart. *)
Definition lines_total (items : list (Item.t A)) : A :=
  sum_from line_amount (number 0) items.

Definition lines_cost (items : list (Item.t A)) : A :=
  sum_from line_cost (number 0) items.

Definition lines_profit (items : list (Item.t A)) : A :=
  sum_from line_margin (number 0) items.

(** [total - totalCost] *)
Definition lines_net (items : list (Item.t A)) : A :=
  minus (lines_total items) (lines_cost items).

(** The total and the profit of a cart are numbers, so that the header of
    its sale can be stored: for the handler with the checks, and for the
    earlier variant. *)
Definition recordable (items : list (Item.t A)) : Prop :=
  nan (lines_total items) = false /\ nan (lines_net items) = false.

Definition recordable_unchecked (items : list (Item.t A)) : Prop :=
  nan (lines_total items) = false /\ nan (lines_profit items) = false.

(** The same sums over stored rows. *)
Definition row_amount (r : SaleItem.t A) : A :=
  times (SaleItem.price r) (number (SaleItem.quantity r)).

Definition row_cost (r : SaleItem.t A) : A :=
  times (SaleItem.cost r) (number (SaleItem.quantity r)).

Definition row_margin (r : SaleItem.t A) : A :=
  times (minus (SaleItem.price r) (SaleItem.cost r)) (number (SaleItem.quantity r)).

Definition rows_total (rows : list (SaleItem.t A)) : A :=
  sum_from row_amount (number 0) rows.

Definition rows_cost (rows : list (SaleItem.t A)) : A :=
  sum_from row_cost (number 0) rows.

Definition rows_profit (rows : list (SaleItem.t A)) : A :=
  sum_from row_margin (number 0) rows.

Definition rows_net (rows : list (SaleItem.t A)) : A :=
  minus (rows_total rows) (rows_cost rows).

(** [SELECT * FROM sale_items WHERE sale_id = ?] *)
Definition items_of_sale (db : store A) (sale_id : Z) : list (SaleItem.t A) :=
  filter (fun r => SaleItem.sale_id r = sale_id) (sale_items db).

(** The rows a cart becomes, numbered from [first]. *)
Fixpoint rows_of (sale_id first : Z) (items : list (Item.t A))
    : list (SaleItem.t A) :=
  match items with
  | [] => []
  | item :: rest =>
      SaleItem.mk first sale_id (Item.product_id item) (Item.product_name item)
                  (Item.quantity item) (Item.price item) (Item.cost item)
      :: rows_of sale_id (first + 1) rest
  end.

(** The row of a product once the stock updates of a cart have run, line
    by line. *)
Fixpoint sold (product_id : Z) (items : list (Item.t A)) (p : Product.t A)
    : Product.t A :=
  match items with
  | [] => p
  | item :: rest =>
      sold product_id rest
           (if decide (Item.product_id item = product_id)
            then decrement (Item.quantity item) p else p)
  end.

(** The store once the header and the item statements of a cart have run. *)
Definition written (db : store A) (items : list (Item.t A)) (total profit : A)
    : store A :=
  foldl run (run db (InsertSale total profit))
        (item_statements (sales_seq db + 1) items).

(** A row with another stock. *)
Definition with_stock (stock : Z) (p : Product.t A) : Product.t A :=
  Product.mk (Product.name p) (Product.category p) (Product.barcode p)
             (Product.cost p) (Product.price p) stock (Product.min_stock p).

(** No product is oversold. *)
Definition stock_nonneg (db : store A) : Prop :=
  forall product_id p, products db !! product_id = Some p -> 0 <= Product.stock p.

(** The keys in the ledger have been handed out by [AUTOINCREMENT]: no row
    carries a sale key beyond the largest one assigned. *)
Definition ledger_wf (db : store A) : Prop :=
  Forall (fun s => Sale.id s <= sales_seq db) (sales db) /\
  Forall (fun r => SaleItem.sale_id r <= sales_seq db) (sale_items db).


(** A store with an empty ledger. *)
Definition opening (catalog : gmap Z (Product.t A)) : store A :=
  mkStore catalog [] [] 0 0.

(** ** Statements of the specification, as it words them *)

(** Every line of the cart names a product of the catalogue. *)
Definition all_known (db : store A) (items : list (Item.t A)) : Prop :=
  Forall (fun item => is_Some (products db !! Item.product_id item)) items.

(** Some product is asked for more than is in stock, all lines together. *)
Definition oversubscribed (db : store A) (items : list (Item.t A)) : Prop :=
  exists product_id available,
    product_id ∈ referenced items /\
    select_stock db product_id = Some available /\
    available < requested product_id items.

(** The availability check compares the summed quantity of each product
    with its stock. *)
Definition cumulative_check (db : store A) (cart : list (Item.t A)) : Prop :=
  cart <> [] -> all_known db cart ->
  ((exists product_id,
      (post_sales db (Some cart)).2 = Failed 400 (InsufficientStock product_id))
   <-> oversubscribed db cart).


(** A cart of one line for a known product, with a quantity of zero or
    less, is committed. *)
Definition nonpositive_line_commits (db : store A) (item : Item.t A) : Prop :=
  forall p,
    products db !! Item.product_id item = Some p ->
    0 <= Product.stock p ->
    Item.quantity item <= 0 ->
    exists db' id total profit,
      post_sales db (Some [item]) = (db', Completed id total profit).

(** A failing write of the commit leaves the store as it was. *)
Definition all_or_nothing (a : aftermath) (k : nat) (db : store A)
    (cart : list (Item.t A)) : Prop :=
  cart <> [] -> validate db cart = None ->
  (k < 1 + length (item_statements 0 cart))%nat ->
  (post_sales_faulty a k db (Some cart)).1 = db.


(** The header of a completed sale carries the sums over its stored rows. *)
Definition totals_reconcile (db : store A) (items : option (list (Item.t A)))
    : Prop :=
  ledger_wf db ->
  forall db' id total profit,
    post_sales db items = (db', Completed id total profit) ->
    total = rows_total (items_of_sale db' id) /\
    profit = rows_profit (items_of_sale db' id).

(** Every request has been answered. *)
Definition all_responded (s : server) : Prop :=
  Forall (fun h => exists r, h = Responded r) s.2.

(** Of two requests, one was completed, the other was turned down for
    lack of stock, and the product is sold out. *)
Definition one_sale_wins (product_id : Z) (s : server) : Prop :=
  select_stock s.1 product_id = Some 0 /\
  ((exists id total profit,
      s.2 = [Responded (Completed id total profit);
             Responded (Failed 400 (InsufficientStock product_id))]) \/
   (exists id total profit,
      s.2 = [Responded (Failed 400 (InsufficientStock product_id));
             Responded (Completed id total profit)])).

(** Two requests for the last unit of a product, served under a given
    schedule, end as if one had been served after the other. *)
Definition last_unit_sold_once (db : store A) (item1 item2 : Item.t A)
    (schedule : list nat) : Prop :=
  select_stock db (Item.product_id item1) = Some 1 ->
  Item.product_id item2 = Item.product_id item1 ->
  Item.quantity item1 = 1 -> Item.quantity item2 = 1 ->
  let s := run_schedule (db, [Received (Some [item1]); Received (Some [item2])])
                        schedule in
  all_responded s -> one_sale_wins (Item.product_id item1) s.

(** A cart with a line for an unknown product is answered with
    [ProductNotFound] for such a product. *)
Definition unknown_product_reported (db : store A) (cart : list (Item.t A))
    : Prop :=
  (exists item, item ∈ cart /\ products db !! Item.product_id item = None) ->
  exists product_id,
    product_id ∈ referenced cart /\
    products db !! product_id = None /\
    post_sales db (Some cart) = (db, Failed 400 (ProductNotFound product_id)).

(** The stock of a product covers a line, or falls short of it: the
    comparison of the handler, [row.stock < item.quantity], on the stock
    and the quantity as binary64 numbers. *)
Definition covers (p : Product.t A) (item : Item.t A) : Prop :=
  nearest53 (Item.quantity item) <= nearest53 (Product.stock p).

Definition falls_short (p : Product.t A) (item : Item.t A) : Prop :=
  nearest53 (Product.stock p) < nearest53 (Item.quantity item).


(** The same, with the stock and the quantity of a line as binary64
    numbers, the way the handler compares them. *)
Definition fails_validation_as_read (db : store A)
    (items : option (list (Item.t A))) : Prop :=
  items = None \/ items = Some [] \/
  exists cart item,
    items = Some cart /\ item ∈ cart /\
    (products db !! Item.product_id item = None \/
     exists available,
       select_stock db (Item.product_id item) = Some available /\
       nearest53 available < nearest53 (Item.quantity item)).


(** The stocks of the catalogue and the quantities of a cart are integers
    that binary64 holds exactly, up to 2^53. *)
Definition exact_numbers (db : store A) (items : option (list (Item.t A)))
    : Prop :=
  (forall product_id p,
     products db !! product_id = Some p -> Z.abs (Product.stock p) <= 2 ^ 53) /\
  (forall cart item,
     items = Some cart -> item ∈ cart -> Z.abs (Item.quantity item) <= 2 ^ 53).

(** A statement that writes the sale header. *)
Definition is_header (s : statement A) : bool :=
  match s with
  | InsertSale _ _ => true
  | _ => false
  end.

(** ** Sample data *)

Definition rice : Product.t A :=
  Product.mk "Rice 1kg" "Groceries" (Some "RICE001") (number 40) (number 50) 10 5.

(** Ten units of rice, no sale yet. *)
Definition shop : store A := opening {[ 1 := rice ]}.


(** A stock of 2^53 units of rice, and of three more: what a return of
    three units leaves of the former. *)
Definition full_of_rice : store A := opening {[ 1 := with_stock (2 ^ 53) rice ]}.

Definition brimming : store A := opening {[ 1 := with_stock (2 ^ 53 + 3) rice ]}.

(** The last unit of rice. *)
Definition last_rice : store A := opening {[ 1 := decrement 9 rice ]}.

(** A line for product 1 at the catalogue price. *)
Definition rice_line (quantity : Z) : Item.t A :=
  Item.mk 1 "Rice 1kg" quantity (number 50) (number 40).

(** A line for product 1 at a price of the client's own. *)
Definition cheap_rice_line (quantity : Z) : Item.t A :=
  Item.mk 1 "Rice 1kg" quantity (number 1) (number 40).

(** A line for a product that is not in the catalogue. *)
Definition ghost_line : Item.t A := Item.mk 999 "Ghost" 1 (number 5) (number 4).

End Model.

(** A line of three units at a price of 0.3 and a cost of 0.1, as
    [JSON.parse] reads them: the nearest binary64 numbers. *)
Definition loose_rice_line : Item.t float :=
  Item.mk 1 "Rice loose" 3 0x1.3333333333333p-2%float 0x1.999999999999ap-4%float.

(** A line of no unit at a price of [1e999], which [JSON.parse] reads as
    [Infinity]. *)
Definition priceless_line : Item.t float :=
  Item.mk 1 "Rice 1kg" 0 infinity 40%float.

(** A line of one unit at a price of 2^1000. *)
Definition dear_line : Item.t float :=
  Item.mk 1 "Rice 1kg" 1 0x1p+1000%float 40%float.


(** * The rest of the server

    The catalogue endpoints ([/api/products]), the endpoints that read the
    ledger ([GET /api/sales/:id], [GET /api/sales], [/api/stats]) and the
    intent resolution of the chatbot ([POST /api/chatbot]), from the same
    [server.js] as the sale endpoint. *)

(** ** Truthiness *)

(** What [!x] and [x || y] look at when [x] is a number: [0], [-0] and
    [NaN] are falsy. *)
Definition falsy {A : Type} {num : Number A} (x : A) : bool :=
  is_zero x || nan x.

(** A field of a JSON body: left out, [null], or a value of the type of
    its column. *)
Inductive field (A : Type) :=
  | Undefined
  | Null
  | Value (a : A).

Arguments Undefined {A}.
Arguments Null {A}.
Arguments Value {A} a.

(** A string field that is truthy: present, not [null] and not empty. *)
Definition truthy_string (s : field string) : option string :=
  match s with
  | Value s => if decide (s = EmptyString) then None else Some s
  | _ => None
  end.

(** [min_stock || 5] *)
Definition min_stock_or_5 (m : field Z) : Z :=
  match m with
  | Value m => if m =? 0 then 5 else m
  | _ => 5
  end.

(** [COALESCE(?, column)] *)
Definition coalesce {A : Type} (bound : option A) (column : A) : A :=
  match bound with
  | Some a => a
  | None => column
  end.

Definition is_Some_b {A : Type} (x : option A) : bool :=
  match x with
  | Some _ => true
  | None => false
  end.

(** ** The catalogue *)

Set Implicit Arguments.
Set Maximal Implicit Insertion.

Module ProductBody.
(** [req.body] of the product endpoints, with fields that are left out,
    [null], or of the type of their column. *)
Record t (A : Type) := mk {
  name : field string;
  category : field string;
  barcode : field string;
  cost : field A;
  price : field A;
  stock : field Z;
  min_stock : field Z
}.
End ProductBody.

(** The tables of the sale endpoint and the key counter of [products]. *)
Record database (A : Type) := mkDatabase {
  tables : store A;
  (** largest [products.id] ever assigned (the [sqlite_sequence] entry) *)
  products_seq : Z
}.

Inductive product_error :=
  | MissingFields      (* 'Missing required fields' *)
  | ProductMissing     (* 'Product not found' *)
  | ConstraintFailed.  (* err.message of a NOT NULL column that gets NULL *)

Inductive product_response (A : Type) :=
  | ProductAdded (id : Z)              (* res.json({ id: this.lastID, .. }) *)
  | ProductFound (id : Z) (p : Product.t A)           (* res.json(row) *)
  | ProductUpdated                     (* 'Product updated successfully' *)
  | ProductDeleted                     (* 'Product deleted successfully' *)
  | ProductRefused (status : Z) (e : product_error).

(** What [GET /api/sales/:id] answers. *)
Inductive sale_lookup (A : Type) :=
  | SaleFound (s : Sale.t A) (items : list (SaleItem.t A))  (* { ...sale, items } *)
  | SaleMissing.                                            (* 404, 'Sale not found' *)

(** The requests that write, and their answers. *)
Inductive request (A : Type) :=
  | AddProduct (body : ProductBody.t A)                  (* POST /api/products *)
  | UpdateProduct (id : Z) (body : ProductBody.t A)      (* PUT /api/products/:id *)
  | DeleteProduct (id : Z)                               (* DELETE /api/products/:id *)
  | PostSale (items : option (list (Item.t A))).         (* POST /api/sales *)

Inductive reply (A : Type) :=
  | ProductReply (r : product_response A)
  | SaleReply (r : response A).

Unset Maximal Implicit Insertion.
Unset Implicit Arguments.

Arguments ProductAdded {A} id.
Arguments ProductUpdated {A}.
Arguments ProductDeleted {A}.
Arguments ProductRefused {A} status e.
Arguments SaleMissing {A}.
Arguments DeleteProduct {A} id.

Section Catalogue.
Context {A : Type} {num : Number A}.

(** A number field that is truthy: present, not [null], not 0, not NaN. *)
Definition truthy_number (x : field A) : option A :=
  match x with
  | Value x => if falsy x then None else Some x
  | _ => None
  end.

(** The tables with another [products]. *)
Definition with_products (db : store A) (rows : gmap Z (Product.t A)) : store A :=
  mkStore rows (sales db) (sale_items db) (sales_seq db) (sale_items_seq db).

(** [GET /api/products/:id] *)
Definition get_product (db : database A) (id : Z) : product_response A :=
  match products (tables db) !! id with
  | Some p => ProductFound id p
  | None => ProductRefused 404 ProductMissing
  end.

(** What the driver binds for a field: [NULL] for one that is left out
    or [null], and, for a number, [NULL] for NaN. *)
Definition bound {X : Type} (f : field X) : option X :=
  match f with
  | Value x => Some x
  | _ => None
  end.

Definition bound_number (f : field A) : option A :=
  match f with
  | Value x => if nan x then None else Some x
  | _ => None
  end.

Definition is_undefined {X : Type} (f : field X) : bool :=
  match f with
  | Undefined => true
  | _ => false
  end.

(** The [INSERT] of a product, with [barcode || null] and
    [min_stock || 5]; [cost], [price] and [stock] are what is bound for
    them.  The columns are [NOT NULL]: the statement fails when one of
    them gets [NULL]. *)
Definition insert_product (db : database A) (body : ProductBody.t A)
    (name category : string) (cost price : option A) (stock : option Z)
    : database A * product_response A :=
  match cost, price, stock with
  | Some cost, Some price, Some stock =>
      let id := products_seq db + 1 in                          (* this.lastID *)
      let row := Product.mk name category
                            (truthy_string (ProductBody.barcode body))
                            cost price stock
                            (min_stock_or_5 (ProductBody.min_stock body)) in
      (mkDatabase (with_products (tables db)
                     (<[id := row]> (products (tables db))))
                  id,
       ProductAdded id)
  | _, _, _ => (db, ProductRefused 500 ConstraintFailed)    (* res.status(500) *)
  end.

(** [POST /api/products]: the guard
    [!name || !category || !cost || !price || stock === undefined], then
    the [INSERT]. *)
Definition add_product (db : database A) (body : ProductBody.t A)
    : database A * product_response A :=
  match truthy_string (ProductBody.name body),
        truthy_string (ProductBody.category body) with
  | Some name, Some category =>
      if negb (is_Some_b (truthy_number (ProductBody.cost body)))
         || negb (is_Some_b (truthy_number (ProductBody.price body)))
         || is_undefined (ProductBody.stock body)
      then (db, ProductRefused 400 MissingFields)
      else insert_product db body name category
                          (bound_number (ProductBody.cost body))
                          (bound_number (ProductBody.price body))
                          (bound (ProductBody.stock body))
  | _, _ => (db, ProductRefused 400 MissingFields)
  end.

(** The earlier variant, with the guard
    [!name || !category || cost === undefined || price === undefined ||
     stock === undefined]. *)
Definition add_product_earlier (db : database A) (body : ProductBody.t A)
    : database A * product_response A :=
  match truthy_string (ProductBody.name body),
        truthy_string (ProductBody.category body) with
  | Some name, Some category =>
      if is_undefined (ProductBody.cost body)
         || is_undefined (ProductBody.price body)
         || is_undefined (ProductBody.stock body)
      then (db, ProductRefused 400 MissingFields)
      else insert_product db body name category
                          (bound_number (ProductBody.cost body))
                          (bound_number (ProductBody.price body))
                          (bound (ProductBody.stock body))
  | _, _ => (db, ProductRefused 400 MissingFields)
  end.

(** [SET name = COALESCE(?, name), .., min_stock = COALESCE(?, min_stock)]
    on one row. *)
Definition coalesce_row (body : ProductBody.t A) (p : Product.t A) : Product.t A :=
  Product.mk (coalesce (bound (ProductBody.name body)) (Product.name p))
             (coalesce (bound (ProductBody.category body)) (Product.category p))
             (match ProductBody.barcode body with
              | Value b => Some b
              | _ => Product.barcode p
              end)
             (coalesce (bound_number (ProductBody.cost body)) (Product.cost p))
             (coalesce (bound_number (ProductBody.price body)) (Product.price p))
             (coalesce (bound (ProductBody.stock body)) (Product.stock p))
             (coalesce (bound (ProductBody.min_stock body)) (Product.min_stock p)).

(** [PUT /api/products/:id]; [this.changes === 0] is the missing row. *)
Definition update_product (db : database A) (id : Z) (body : ProductBody.t A)
    : database A * product_response A :=
  match products (tables db) !! id with
  | Some _ =>
      (mkDatabase (with_products (tables db)
                     (alter (coalesce_row body) id (products (tables db))))
                  (products_seq db),
       ProductUpdated)
  | None => (db, ProductRefused 404 ProductMissing)
  end.

(** [DELETE /api/products/:id] *)
Definition delete_product (db : database A) (id : Z)
    : database A * product_response A :=
  match products (tables db) !! id with
  | Some _ =>
      (mkDatabase (with_products (tables db) (delete id (products (tables db))))
                  (products_seq db),
       ProductDeleted)
  | None => (db, ProductRefused 404 ProductMissing)
  end.

(** [WHERE stock <= min_stock] *)
Definition is_low (row : Z * Product.t A) : Prop :=
  Product.stock row.2 <= Product.min_stock row.2.

(** [ORDER BY stock] *)
Definition by_stock (r1 r2 : Z * Product.t A) : Prop :=
  Product.stock r1.2 <= Product.stock r2.2.

#[global] Instance is_low_dec row : Decision (is_low row) :=
  Z_le_dec (Product.stock row.2) (Product.min_stock row.2).

#[global] Instance by_stock_dec r1 r2 : Decision (by_stock r1 r2) :=
  Z_le_dec (Product.stock r1.2) (Product.stock r2.2).

(** [GET /api/products/alerts/low-stock]:
    [SELECT * FROM products WHERE stock <= min_stock ORDER BY stock].
    SQL leaves the order of rows with the same stock open; here it is the
    one of the merge sort. *)
Definition low_stock (db : store A) : list (Z * Product.t A) :=
  merge_sort by_stock (filter is_low (map_to_list (products db))).

(** ** Reading the ledger *)

(** [GET /api/sales/:id]: the header, then its rows. *)
Definition get_sale (db : store A) (id : Z) : sale_lookup A :=
  match head (filter (fun s => Sale.id s = id) (sales db)) with
  | Some s => SaleFound s (items_of_sale db id)
  | None => SaleMissing
  end.

(** The [item_count] column of [GET /api/sales]:
    [COUNT(si.id) .. LEFT JOIN sale_items si ON s.id = si.sale_id
     GROUP BY s.id]. *)
Definition item_count (db : store A) (sale_id : Z) : nat :=
  length (items_of_sale db sale_id).

(** [SELECT COUNT( * ) FROM sales], [SELECT COUNT( * ) FROM products] and
    [SELECT COUNT( * ) FROM products WHERE stock <= min_stock] of
    [GET /api/stats]. *)
Definition stats_sales_count (db : store A) : nat := length (sales db).

Definition stats_total_products (db : store A) : nat := size (products db).

Definition stats_low_stock_count (db : store A) : nat :=
  length (filter is_low (map_to_list (products db))).

(** The units of a product in the rows of [sale_items]. *)
Definition units_sold (db : store A) (product_id : Z) : Z :=
  foldr (fun r acc =>
           if decide (SaleItem.product_id r = product_id)
           then SaleItem.quantity r + acc else acc)
        0 (sale_items db).

(** ** The server as a whole *)

(** One writing request. *)
Definition serve (db : database A) (req : request A) : database A * reply A :=
  match req with
  | AddProduct body =>
      let '(db', r) := add_product db body in (db', ProductReply r)
  | UpdateProduct id body =>
      let '(db', r) := update_product db id body in (db', ProductReply r)
  | DeleteProduct id =>
      let '(db', r) := delete_product db id in (db', ProductReply r)
  | PostSale items =>
      let '(t', r) := post_sales (tables db) items in
      (mkDatabase t' (products_seq db), SaleReply r)
  end.

(** Requests served one after the other. *)
Fixpoint serve_all (db : database A) (reqs : list (request A))
    : database A * list (reply A) :=
  match reqs with
  | [] => (db, [])
  | req :: rest =>
      let '(db1, r) := serve db req in
      let '(db2, rs) := serve_all db1 rest in
      (db2, r :: rs)
  end.

(** The key counter of [products] is not behind the keys in the table. *)
Definition catalogue_wf (db : database A) : Prop :=
  forall id p, products (tables db) !! id = Some p -> id <= products_seq db.

(** The sales that were completed, among the replies. *)
Definition completed (replies : list (reply A)) : list (Z * A * A) :=
  omap (fun r => match r with
                 | SaleReply (Completed id total profit) => Some (id, total, profit)
                 | _ => None
                 end) replies.

(** A string field that is left out, [null] or empty. *)
Definition blank (s : field string) : Prop :=
  s = Undefined \/ s = Null \/ s = Value EmptyString.

(** A number field that is left out, [null], zero or NaN. *)
Definition worthless (x : field A) : Prop :=
  x = Undefined \/ x = Null \/ exists c, x = Value c /\ falsy c = true.

(** A body that the guard of [POST /api/products] turns down. *)
Definition incomplete (body : ProductBody.t A) : Prop :=
  blank (ProductBody.name body) \/ blank (ProductBody.category body) \/
  worthless (ProductBody.cost body) \/ worthless (ProductBody.price body) \/
  ProductBody.stock body = Undefined.

(** A body that the guard of the earlier variant turns down. *)
Definition incomplete_earlier (body : ProductBody.t A) : Prop :=
  blank (ProductBody.name body) \/ blank (ProductBody.category body) \/
  ProductBody.cost body = Undefined \/ ProductBody.price body = Undefined \/
  ProductBody.stock body = Undefined.

(** A number field that cannot be stored in a [NOT NULL] column: [null],
    or NaN. *)
Definition unstorable (x : field A) : Prop :=
  x = Null \/ exists c, x = Value c /\ nan c = true.

(** What a field of the body makes of a column: the value of the field,
    or the column as it was when the field is left out or [null], or, for
    a number, NaN. *)
Definition set_or_kept {X : Type} (f : field X) (old new : X) : Prop :=
  match f with
  | Value x => new = x
  | _ => new = old
  end.

Definition set_or_kept_number (f : field A) (old new : A) : Prop :=
  (forall x, f = Value x -> nan x = false -> new = x) /\
  (unstorable f \/ f = Undefined -> new = old).

(** A body without any field. *)
Definition no_fields : ProductBody.t A :=
  ProductBody.mk Undefined Undefined Undefined Undefined Undefined Undefined
                 Undefined.

(** The keys of the products that were added, and the number of products
    that were deleted, among the replies. *)
Definition added_ids (replies : list (reply A)) : list Z :=
  omap (fun r => match r with
                 | ProductReply (ProductAdded id) => Some id
                 | _ => None
                 end) replies.


Definition deleted_count (replies : list (reply A)) : nat :=
  length (omap (fun r => match r with
                         | ProductReply ProductDeleted => Some tt
                         | _ => None
                         end) replies).

End Catalogue.

(** [SELECT SUM(total) as revenue, SUM(profit) as profit FROM sales] with
    [row.revenue || 0] and [row.profit || 0], in exact arithmetic. *)
Definition stats_revenue (db : store Z) : Z :=
  foldr (fun s acc => Sale.total s + acc) 0 (sales db).

Definition stats_profit (db : store Z) : Z :=
  foldr (fun s acc => Sale.profit s + acc) 0 (sales db).

(** The totals and the profits of the sales that were completed, added up. *)
Definition completed_revenue (replies : list (reply Z)) : Z :=
  foldr (fun c acc => c.1.2 + acc) 0 (completed replies).

Definition completed_profit (replies : list (reply Z)) : Z :=
  foldr (fun c acc => c.2 + acc) 0 (completed replies).

(** A body with every field of a product. *)
Definition sugar_body : ProductBody.t float :=
  ProductBody.mk (Value "Sugar 1kg") (Value "Groceries") (Value "SUGAR001")
                 (Value 35%float) (Value 45%float) (Value 80) (Value 15).

(** The same product, given away: a cost and a price of zero, no barcode
    and a minimum of zero. *)
Definition free_body : ProductBody.t float :=
  ProductBody.mk (Value "Sugar 1kg") (Value "Groceries") Undefined
                 (Value 0%float) (Value 0%float) (Value 80) (Value 0).

(** The same product with [null] for its stock. *)
Definition null_stock_body : ProductBody.t float :=
  ProductBody.mk (Value "Sugar 1kg") (Value "Groceries") Null
                 (Value 35%float) (Value 45%float) Null Null.

(** A body that changes the price and the stock only. *)
Definition repriced_body : ProductBody.t float :=
  ProductBody.mk Undefined Undefined Null Undefined (Value 55%float)
                 (Value 25) Undefined.

(** The sample store with its key counter. *)
Definition shop_db : database float := mkDatabase shop 1.

(** ** The chatbot

    [POST /api/chatbot] looks for key words in the lower-cased message,
    in a fixed order, and answers from the first branch that applies. The
    model keeps which branch answers and with which product name; the
    queries and the wording of the answers are left out. A JavaScript
    string is the list of its UTF-16 code units; [toLowerCase] is the
    built-in and is taken as given. *)
Definition text : Type := list N.

(** A literal. *)
Definition units (s : string) : text :=
  (fun a => Ascii.N_of_ascii a) <$> String.list_ascii_of_string s.

(** [hay.startsWith(needle)] and [hay.includes(needle)] *)
Fixpoint starts_with (needle hay : text) : bool :=
  match needle, hay with
  | [], _ => true
  | _ :: _, [] => false
  | n :: needle', h :: hay' => (n =? h)%N && starts_with needle' hay'
  end.

Fixpoint includes (hay needle : text) : bool :=
  starts_with needle hay ||
  match hay with
  | [] => false
  | _ :: hay' => includes hay' needle
  end.

(** [s.split(' ')] *)
Fixpoint split_spaces (s : text) : list text :=
  match s with
  | [] => [[]]
  | c :: rest =>
      if (c =? 32)%N then [] :: split_spaces rest
      else match split_spaces rest with
           | w :: ws => (c :: w) :: ws
           | [] => [[c]]
           end
  end.

(** [words.join(' ')] *)
Fixpoint join_spaces (words : list text) : text :=
  match words with
  | [] => []
  | [w] => w
  | w :: rest => w ++ 32%N :: join_spaces rest
  end.

Definition stopWords : list text :=
  units <$> ["the"; "of"; "stock"; "price"; "cost"; "how"; "many"; "much"; "is";
             "are"; "do"; "we"; "have"; "show"; "me"; "find"; "search"; "for";
             "what"; "whats"]%string.

(** [!stopWords.includes(w) && w.length > 2] *)
Definition kept (w : text) : Prop :=
  (w ∉ stopWords) /\ (2 < length w)%nat.

(** The branches of the handler. *)
Inductive intent :=
  | StockQuery (productMatch : text)
  | PriceQuery (productMatch : text)
  | LowStockAlert
  | SalesStatistics
  | ProductSearch (productMatch : text)
  | CategoryList
  | Help
  | NotUnderstood.

Section Chatbot.
Variable toLowerCase : text -> text.

(** [extractProductName] *)
Definition extractProductName (message : text) : text :=
  let words := split_spaces (toLowerCase message) in
  let filteredWords := filter kept words in
  join_spaces filteredWords.

(** A string in an [if]: the empty one is falsy. *)
Definition truthy (s : text) : bool :=
  match s with
  | [] => false
  | _ :: _ => true
  end.

(** The handler, for a message that is not empty. *)
Definition resolve (message : text) : intent :=
  let lowerMessage := toLowerCase message in
  let productMatch := extractProductName lowerMessage in
  if (includes lowerMessage (units "stock")
      || includes lowerMessage (units "available")
      || includes lowerMessage (units "how many"))
     && truthy productMatch
  then StockQuery productMatch
  else if (includes lowerMessage (units "price")
           || includes lowerMessage (units "cost")
           || includes lowerMessage (units "how much"))
          && truthy productMatch
  then PriceQuery productMatch
  else if includes lowerMessage (units "low stock")
          || includes lowerMessage (units "restock")
          || includes lowerMessage (units "alert")
  then LowStockAlert
  else if includes lowerMessage (units "sales")
          || includes lowerMessage (units "revenue")
          || includes lowerMessage (units "profit")
  then SalesStatistics
  else if (includes lowerMessage (units "search")
           || includes lowerMessage (units "find")
           || includes lowerMessage (units "show me"))
          && truthy productMatch
  then ProductSearch productMatch
  else if includes lowerMessage (units "category")
          || includes lowerMessage (units "categories")
  then CategoryList
  else if includes lowerMessage (units "help")
          || bool_decide (lowerMessage = units "hi")
          || bool_decide (lowerMessage = units "hello")
  then Help
  else NotUnderstood.

End Chatbot.

(** A word without a space in it. *)
Definition spaceless (w : text) : Prop := Forall (fun c => c <> 32%N) w.

(** [toLowerCase] on strings of ASCII characters. *)
Definition ascii_lower (s : text) : text :=
  (fun c => if (65 <=? c)%N && (c <=? 90)%N then (c + 32)%N else c) <$> s.
(** * Properties *)

(** ** Rounding integers to binary64 *)

Lemma ulp_pos a : 0 < ulp a.
Proof. unfold ulp. apply Z.pow_pos_nonneg; lia. Qed.

Lemma round_to_cases u a :
  0 < u ->
  round_to u a = a / u * u \/ round_to u a = (a / u + 1) * u.
Proof.
  intros Hu. unfold round_to.
  destruct (2 * (a mod u) <? u); [by left|].
  destruct (u <? 2 * (a mod u)); [by right|].
  destruct (Z.even (a / u)); [by left | by right].
Qed.


(** An integer of at most 53 bits is a binary64 number. *)
Lemma round_to_1 a : round_to 1 a = a.
Proof.
  unfold round_to. rewrite Z.mod_1_r, Z.div_1_r. simpl. lia.
Qed.

Lemma ulp_small a : a < 2 ^ 53 -> ulp a = 1.
Proof.
  intros Ha. unfold ulp.
  destruct (Z.le_gt_cases a 0) as [H0|H0].
  - rewrite Z.log2_nonpos by done. reflexivity.
  - assert (Z.log2 a < 53) by (apply Z.log2_lt_pow2; lia).
    rewrite Z.max_l by lia. reflexivity.
Qed.

Lemma nearest53_exact x : - 2 ^ 53 <= x <= 2 ^ 53 -> nearest53 x = x.
Proof.
  intros Hx. unfold nearest53.
  destruct (Z.eq_dec (Z.abs x) (2 ^ 53)) as [Heq|Hne].
  - rewrite Heq. replace (round_to (ulp (2 ^ 53)) (2 ^ 53)) with (2 ^ 53)
      by (vm_compute; reflexivity).
    rewrite <- Heq. destruct (Z.abs_spec x), (Z.sgn_spec x) as [[? ->]|[[? ->]|[? ->]]]; lia.
  - rewrite ulp_small by lia. rewrite round_to_1.
    destruct (Z.abs_spec x), (Z.sgn_spec x) as [[? ->]|[[? ->]|[? ->]]]; lia.
Qed.

Lemma round_to_nonneg u a : 0 < u -> 0 <= a -> 0 <= round_to u a.
Proof.
  intros Hu Ha. pose proof (Z.div_pos a u Ha Hu).
  destruct (round_to_cases u a Hu) as [-> | ->]; nia.
Qed.

Lemma nearest53_nonneg x : 0 <= x -> 0 <= nearest53 x.
Proof.
  intros Hx. unfold nearest53.
  pose proof (round_to_nonneg (ulp (Z.abs x)) (Z.abs x) (ulp_pos _) (Z.abs_nonneg x)).
  destruct (Z.sgn_spec x) as [[? ->]|[[? ->]|[? ->]]]; lia.
Qed.

Lemma nearest53_nonpos x : x <= 0 -> nearest53 x <= 0.
Proof.
  intros Hx. unfold nearest53.
  pose proof (round_to_nonneg (ulp (Z.abs x)) (Z.abs x) (ulp_pos _) (Z.abs_nonneg x)).
  destruct (Z.sgn_spec x) as [[? ->]|[[? ->]|[? ->]]]; lia.
Qed.






(** Within the integers that binary64 holds exactly, [stock - ?] is the
    difference, whichever way it is computed. *)
Lemma sqlite_minus_exact s q :
  - 2 ^ 53 <= s <= 2 ^ 53 -> - 2 ^ 53 <= q <= 2 ^ 53 ->
  - 2 ^ 53 <= s - q <= 2 ^ 53 ->
  sqlite_minus s q = s - q.
Proof.
  intros Hs Hq Hd. unfold sqlite_minus.
  destruct (int32 q && int64 s && int64 (s - q)); [done|].
  by rewrite (nearest53_exact s), (nearest53_exact q), nearest53_exact.
Qed.


Section Properties.
Context {A : Type} {num : Number A}.
Implicit Types (db : store A) (item : Item.t A) (p : Product.t A).
Implicit Types (items cart rest pre post c : list (Item.t A)).

(** ** Statements and the tables they touch *)

(** The stock updates of a cart touch the stock column only. *)
Lemma sold_columns product_id items : forall p,
  Product.name (sold product_id items p) = Product.name p /\
  Product.category (sold product_id items p) = Product.category p /\
  Product.barcode (sold product_id items p) = Product.barcode p /\
  Product.cost (sold product_id items p) = Product.cost p /\
  Product.price (sold product_id items p) = Product.price p /\
  Product.min_stock (sold product_id items p) = Product.min_stock p.
Proof.
  induction items as [|item rest IH]; intros p; [done|].
  cbn [sold]. destruct (decide (Item.product_id item = product_id)); [|apply IH].
  destruct (IH (decrement (Item.quantity item) p)) as (-> & -> & -> & -> & -> & ->).
  done.
Qed.



(** Within the integers that binary64 holds exactly, the stock updates of
    a cart add up to the quantity asked of the product. *)
Lemma sold_stock_exact product_id items : forall p,
  exact_range product_id items p ->
  Product.stock (sold product_id items p) =
  Product.stock p - requested product_id items.
Proof.
  unfold exact_range.
  induction items as [|item rest IH]; intros p Hp; cbn [sold requested volume] in *.
  - lia.
  - destruct (decide (Item.product_id item = product_id)); [|by apply IH].
    pose proof (Z.abs_nonneg (Item.quantity item)).
    pose proof (Z.abs_nonneg (Product.stock p)).
    assert (Hvol : 0 <= volume product_id rest).
    { clear. induction rest as [|x rest IH]; simpl; [done|].
      destruct (decide (Item.product_id x = product_id)); lia. }
    assert (Hstep : Product.stock (decrement (Item.quantity item) p) =
                    Product.stock p - Item.quantity item).
    { apply sqlite_minus_exact; lia. }
    rewrite IH; [rewrite Hstep; lia|]. rewrite Hstep. lia.
Qed.

Lemma item_statements_cons saleId item rest :
  item_statements saleId (item :: rest) =
  InsertSaleItem saleId (Item.product_id item) (Item.product_name item)
                 (Item.quantity item) (Item.price item) (Item.cost item)
  :: UpdateStock (Item.quantity item) (Item.product_id item)
  :: item_statements saleId rest.
Proof. reflexivity. Qed.

Lemma length_item_statements saleId items :
  length (item_statements saleId items) = (2 * length items)%nat.
Proof. induction items as [|item rest IH]; simpl in *; lia. Qed.

(** The stock updates of a cart, product by product. *)
Lemma run_items_products saleId items : forall db product_id,
  products (foldl run db (item_statements saleId items)) !! product_id =
  sold product_id items <$> products db !! product_id.
Proof.
  induction items as [|item rest IH]; intros db pid.
  - simpl. by destruct (products db !! pid).
  - rewrite item_statements_cons. simpl foldl. rewrite IH. simpl products.
    rewrite lookup_alter. cbn [sold].
    destruct (decide (Item.product_id item = pid)) as [->|Hne].
    + by destruct (products db !! pid).
    + done.
Qed.

Lemma run_items_sales saleId items : forall db,
  sales (foldl run db (item_statements saleId items)) = sales db /\
  sales_seq (foldl run db (item_statements saleId items)) = sales_seq db.
Proof.
  induction items as [|item rest IH]; intros db; [done|].
  rewrite item_statements_cons. cbn [foldl].
  destruct (IH (run (run db (InsertSaleItem saleId (Item.product_id item)
    (Item.product_name item) (Item.quantity item) (Item.price item)
    (Item.cost item))) (UpdateStock (Item.quantity item) (Item.product_id item))))
    as [-> ->].
  done.
Qed.

Lemma run_items_rows saleId items : forall db,
  sale_items (foldl run db (item_statements saleId items)) =
  sale_items db ++ rows_of saleId (sale_items_seq db + 1) items.
Proof.
  induction items as [|item rest IH]; intros db.
  - simpl. by rewrite app_nil_r.
  - rewrite item_statements_cons. simpl foldl. rewrite IH. simpl.
    by rewrite <- app_assoc.
Qed.

(** ** The totals *)

(** The loop with two accumulators computes the two sums. *)
Lemma totals_from_sums items : forall a b,
  totals_from (a, b) items =
  (sum_from line_amount a items, sum_from line_cost b items).
Proof.
  induction items as [|item rest IH]; intros a b; [done|].
  unfold totals_from, sum_from, line_amount, line_cost in *.
  cbn [foldl fst snd]. by rewrite IH.
Qed.

Lemma recordable_insert items :
  recordable items <-> insert_fails (lines_total items) (lines_net items) = false.
Proof. unfold recordable, insert_fails. by rewrite orb_false_iff. Qed.

Lemma recordable_unchecked_insert items :
  recordable_unchecked items <->
  insert_fails (lines_total items) (lines_profit items) = false.
Proof. unfold recordable_unchecked, insert_fails. by rewrite orb_false_iff. Qed.

Lemma totals_lines items : totals items = (lines_total items, lines_cost items).
Proof. apply totals_from_sums. Qed.

(** The stored rows carry the prices, costs and quantities of the lines. *)
Lemma rows_of_amounts saleId items : forall first a,
  sum_from row_amount a (rows_of saleId first items) = sum_from line_amount a items.
Proof.
  induction items as [|item rest IH]; intros first a; [done|].
  unfold sum_from in *. cbn [rows_of foldl]. by rewrite IH.
Qed.

Lemma rows_of_costs saleId items : forall first a,
  sum_from row_cost a (rows_of saleId first items) = sum_from line_cost a items.
Proof.
  induction items as [|item rest IH]; intros first a; [done|].
  unfold sum_from in *. cbn [rows_of foldl]. by rewrite IH.
Qed.

Lemma rows_of_margins saleId items : forall first a,
  sum_from row_margin a (rows_of saleId first items) = sum_from line_margin a items.
Proof.
  induction items as [|item rest IH]; intros first a; [done|].
  unfold sum_from in *. cbn [rows_of foldl]. by rewrite IH.
Qed.

Lemma rows_of_sale_id saleId items : forall first,
  Forall (fun r => SaleItem.sale_id r = saleId) (rows_of saleId first items).
Proof.
  induction items as [|item rest IH]; intros first; simpl; constructor; auto.
Qed.

(** ** The commit, statement by statement *)

Lemma written_products db items (total profit : A) product_id :
  products (written db items total profit) !! product_id =
  sold product_id items <$> products db !! product_id.
Proof. unfold written. by rewrite run_items_products. Qed.

Lemma written_sales db items (total profit : A) :
  sales (written db items total profit) =
  sales db ++ [Sale.mk (sales_seq db + 1) total profit].
Proof. unfold written. by rewrite (proj1 (run_items_sales _ items _)). Qed.

Lemma written_sales_seq db items (total profit : A) :
  sales_seq (written db items total profit) = sales_seq db + 1.
Proof. unfold written. by rewrite (proj2 (run_items_sales _ items _)). Qed.

Lemma written_sale_items db items (total profit : A) :
  sale_items (written db items total profit) =
  sale_items db ++ rows_of (sales_seq db + 1) (sale_items_seq db + 1) items.
Proof. unfold written. by rewrite run_items_rows. Qed.

(** The header of a sale whose totals are numbers is stored, and the
    sale is completed. *)
Lemma commit_recorded db items :
  recordable items ->
  commit db items =
  (written db items (lines_total items) (lines_net items),
   Completed (sales_seq db + 1) (lines_total items) (lines_net items)).
Proof.
  intros H%recordable_insert. unfold commit. rewrite totals_lines.
  fold (lines_net items). by rewrite H.
Qed.

(** The header of any other sale is refused by the database. *)
Lemma commit_refused db items :
  ~ recordable items -> commit db items = (db, Failed 500 StorageError).
Proof.
  rewrite recordable_insert. intros H%not_false_is_true.
  unfold commit. rewrite totals_lines. fold (lines_net items). by rewrite H.
Qed.

Lemma recordable_dec items : recordable items \/ ~ recordable items.
Proof.
  rewrite recordable_insert.
  destruct (insert_fails (lines_total items) (lines_net items)); [by right | by left].
Qed.

(** ** The checks *)

Lemma check_None db item :
  check db item = None <->
  exists available,
    select_stock db (Item.product_id item) = Some available /\
    nearest53 (Item.quantity item) <= nearest53 available.
Proof.
  unfold check. destruct (select_stock db (Item.product_id item)) as [st|].
  - destruct (Z.ltb_spec (nearest53 st) (nearest53 (Item.quantity item))); split.
    + done.
    + intros (a & [= <-] & ?). lia.
    + intros _. exists st. split; [done | lia].
    + done.
  - split; [done | by intros (? & ? & ?)].
Qed.

Lemma check_not_found db item product_id :
  check db item = Some (ProductNotFound product_id) <->
  product_id = Item.product_id item /\ products db !! product_id = None.
Proof.
  unfold check, select_stock.
  destruct (products db !! Item.product_id item) as [p|] eqn:E; simpl.
  - destruct (nearest53 (Product.stock p) <? nearest53 (Item.quantity item));
      split; try done; intros [-> ?]; congruence.
  - split; [by intros [= <-] | by intros [-> _]].
Qed.

Lemma check_insufficient db item product_id :
  check db item = Some (InsufficientStock product_id) <->
  product_id = Item.product_id item /\
  exists available,
    select_stock db product_id = Some available /\
    nearest53 available < nearest53 (Item.quantity item).
Proof.
  unfold check. destruct (select_stock db (Item.product_id item)) as [st|] eqn:E.
  - destruct (Z.ltb_spec (nearest53 st) (nearest53 (Item.quantity item))); split.
    + intros [= <-]. split; [done|]. exists st. by rewrite E.
    + by intros [-> _].
    + done.
    + intros [-> (a & Ha & ?)]. rewrite E in Ha. injection Ha as <-. lia.
  - split; [done|]. intros [-> (a & Ha & _)]. by rewrite E in Ha.
Qed.

(** A check rejects with one of its two errors only. *)
Lemma check_error db item e :
  check db item = Some e ->
  e = ProductNotFound (Item.product_id item) \/
  e = InsufficientStock (Item.product_id item).
Proof.
  unfold check. destruct (select_stock db (Item.product_id item)) as [st|].
  - destruct (nearest53 st <? nearest53 (Item.quantity item)); [|done].
    intros [= <-]. by right.
  - intros [= <-]. by left.
Qed.

Lemma validate_cons db item rest :
  validate db (item :: rest) =
  match check db item with
  | Some e => Some e
  | None => validate db rest
  end.
Proof. reflexivity. Qed.

Lemma validate_None db items :
  validate db items = None <-> Forall (fun item => check db item = None) items.
Proof.
  induction items as [|item rest IH]; [by split|].
  rewrite validate_cons, Forall_cons.
  destruct (check db item); [split; [done | by intros [? _]]|].
  rewrite IH. tauto.
Qed.

(** [Promise.all] rejects with the rejection of the first line that fails. *)
Lemma validate_Some db items e :
  validate db items = Some e <->
  exists pre item post,
    items = pre ++ item :: post /\
    Forall (fun item => check db item = None) pre /\
    check db item = Some e.
Proof.
  induction items as [|item rest IH].
  - split; [done|]. intros (pre & ? & ? & H & _). by destruct pre.
  - rewrite validate_cons. destruct (check db item) as [e'|] eqn:E.
    + split.
      * intros [= <-]. by exists [], item, rest.
      * intros ([|x pre] & it & post & H & Hpre & Hit); simpl in H;
          injection H as <- ->.
        -- congruence.
        -- apply Forall_cons in Hpre as [? _]. congruence.
    + rewrite IH. split.
      * intros (pre & it & post & -> & Hpre & Hit).
        exists (item :: pre), it, post. split; [done|]. split; [by constructor | done].
      * intros ([|x pre] & it & post & H & Hpre & Hit); simpl in H;
          injection H as <- ->.
        -- congruence.
        -- apply Forall_cons in Hpre as [_ ?]. by exists pre, it, post.
Qed.

Lemma validate_app_passed db pre post :
  Forall (fun item => check db item = None) pre ->
  validate db (pre ++ post) = validate db post.
Proof.
  induction 1 as [|item pre H _ IH]; [done|].
  simpl app. by rewrite validate_cons, H.
Qed.

(** ** The handler, case by case *)

Lemma post_sales_passed db cart :
  cart <> [] -> validate db cart = None ->
  post_sales db (Some cart) = commit db cart.
Proof. intros Hne Hv. destruct cart; [done|]. unfold post_sales. by rewrite Hv. Qed.

Lemma post_sales_rejected db cart e :
  validate db cart = Some e ->
  post_sales db (Some cart) = (db, Failed 400 e).
Proof. intros Hv. destruct cart; [done|]. unfold post_sales. by rewrite Hv. Qed.

(** A cart that passes the checks is completed when its totals are
    numbers, and refused by the database otherwise. *)
Lemma post_sales_recorded db cart :
  cart <> [] -> validate db cart = None -> recordable cart ->
  post_sales db (Some cart) =
  (written db cart (lines_total cart) (lines_net cart),
   Completed (sales_seq db + 1) (lines_total cart) (lines_net cart)).
Proof. intros Hne Hv Hr. rewrite post_sales_passed by done. by apply commit_recorded. Qed.

Lemma post_sales_refused db cart :
  cart <> [] -> validate db cart = None -> ~ recordable cart ->
  post_sales db (Some cart) = (db, Failed 500 StorageError).
Proof. intros Hne Hv Hr. rewrite post_sales_passed by done. by apply commit_refused. Qed.

Lemma post_sales_completed db (items : option (list (Item.t A))) db' id total profit :
  post_sales db items = (db', Completed id total profit) ->
  exists cart,
    items = Some cart /\ cart <> [] /\ validate db cart = None /\
    db' = written db cart total profit /\
    id = sales_seq db + 1 /\ total = lines_total cart /\
    profit = lines_net cart /\ recordable cart.
Proof.
  destruct items as [[|item rest]|]; [done| |done].
  unfold post_sales. destruct (validate db (item :: rest)) eqn:Hv; [done|].
  destruct (recordable_dec (item :: rest)) as [Hr|Hr].
  - rewrite commit_recorded by done. intros [= <- <- <- <-].
    by exists (item :: rest).
  - by rewrite commit_refused.
Qed.

Lemma post_sales_failed db (items : option (list (Item.t A))) db' status e :
  post_sales db items = (db', Failed status e) ->
  db' = db /\
  (status = 400 /\ fails_validation_as_read db items \/
   status = 500 /\ e = StorageError /\
   exists cart, items = Some cart /\ cart <> [] /\
                validate db cart = None /\ ~ recordable cart).
Proof.
  destruct items as [[|item rest]|].
  - intros [= <- <- <-]. split; [done|]. left. split; [done|]. right. by left.
  - unfold post_sales. destruct (validate db (item :: rest)) as [e'|] eqn:Hv.
    + intros [= <- <- <-]. split; [done|]. left. split; [done|]. right. right.
      apply validate_Some in Hv as (pre & it & post & Hc & _ & Hit).
      exists (item :: rest), it. split; [done|]. split.
      { rewrite Hc. apply elem_of_app. right. by left. }
      destruct (check_error _ _ _ Hit) as [-> | ->].
      * left. by apply check_not_found in Hit as [_ ?].
      * right. by apply check_insufficient in Hit as [_ ?].
    + destruct (recordable_dec (item :: rest)) as [Hr|Hr].
      * by rewrite commit_recorded.
      * rewrite commit_refused by done. intros [= <- <- <-].
        split; [done|]. right. split_and!; [done | done|].
        by exists (item :: rest).
  - intros [= <- <- <-]. split; [done|]. left. split; [done|]. by left.
Qed.

(** A request that is answered with an error leaves the store alone. *)
Lemma post_sales_failed_store db (items : option (list (Item.t A))) db' status e :
  post_sales db items = (db', Failed status e) -> db' = db.
Proof. by intros [-> _]%post_sales_failed. Qed.

Lemma post_sales_response_failed db cart e :
  cart <> [] ->
  (post_sales db (Some cart)).2 = Failed 400 e ->
  validate db cart = Some e.
Proof.
  intros Hne. destruct cart as [|item rest]; [done|]. unfold post_sales.
  destruct (validate db (item :: rest)) as [e'|].
  - by intros [= ->].
  - destruct (recordable_dec (item :: rest)) as [Hr|Hr].
    + by rewrite commit_recorded.
    + by rewrite commit_refused.
Qed.

(** ** Quantities per product *)

Lemma requested_not_referenced product_id items :
  product_id ∉ referenced items -> requested product_id items = 0.
Proof.
  induction items as [|item rest IH]; [done|].
  unfold referenced. rewrite fmap_cons, not_elem_of_cons. intros [Hne Hrest].
  simpl. destruct (decide (Item.product_id item = product_id)); [congruence|].
  by apply IH.
Qed.

(** With one line per product, the summed quantity is the quantity of
    the line. *)
Lemma requested_distinct items item :
  NoDup (referenced items) -> item ∈ items ->
  requested (Item.product_id item) items = Item.quantity item.
Proof.
  induction items as [|x rest IH]; [by intros _ ?%elem_of_nil|].
  unfold referenced. rewrite fmap_cons, NoDup_cons. intros [Hx Hnd].
  rewrite elem_of_cons. simpl. intros [->|Hin].
  - rewrite decide_True by done.
    rewrite requested_not_referenced by done. lia.
  - rewrite decide_False; [by apply IH|].
    intros Heq. apply Hx. rewrite Heq. by apply list_elem_of_fmap_2.
Qed.

Lemma requested_nonneg product_id items :
  Forall (fun item => 0 < Item.quantity item) items ->
  0 <= requested product_id items.
Proof.
  induction 1 as [|item rest Hq _ IH]; simpl; [done|].
  destruct (decide (Item.product_id item = product_id)); lia.
Qed.

(** With positive quantities, a product is asked for at least as much as
    any one of its lines asks. *)
Lemma requested_at_least items item :
  Forall (fun item => 0 < Item.quantity item) items -> item ∈ items ->
  Item.quantity item <= requested (Item.product_id item) items.
Proof.
  induction 1 as [|x rest Hq Hrest IH]; [by intros ?%elem_of_nil|].
  rewrite elem_of_cons. simpl. intros [->|Hin].
  - rewrite decide_True by done.
    pose proof (requested_nonneg (Item.product_id x) rest Hrest). lia.
  - specialize (IH Hin).
    destruct (decide (Item.product_id x = Item.product_id item)); lia.
Qed.

Lemma requested_app product_id pre post :
  requested product_id (pre ++ post) =
  requested product_id pre + requested product_id post.
Proof.
  induction pre as [|x pre IH]; simpl; [done|].
  destruct (decide (Item.product_id x = product_id)); lia.
Qed.

(** ** The ledger keys *)

Lemma filter_sale_id_none sale_id (rows : list (SaleItem.t A)) :
  Forall (fun r => SaleItem.sale_id r < sale_id) rows ->
  filter (fun r => SaleItem.sale_id r = sale_id) rows = [].
Proof.
  induction 1 as [|r rows Hr _ IH]; [done|].
  rewrite filter_cons. rewrite decide_False by lia. done.
Qed.

Lemma filter_sale_id_all sale_id (rows : list (SaleItem.t A)) :
  Forall (fun r => SaleItem.sale_id r = sale_id) rows ->
  filter (fun r => SaleItem.sale_id r = sale_id) rows = rows.
Proof.
  induction 1 as [|r rows Hr _ IH]; [done|].
  rewrite filter_cons. rewrite decide_True by done. by rewrite IH.
Qed.

(** The rows of a sale that was just committed are the rows of its cart. *)
Lemma items_of_committed_sale db cart (total profit : A) :
  ledger_wf db ->
  items_of_sale (written db cart total profit) (sales_seq db + 1) =
  rows_of (sales_seq db + 1) (sale_items_seq db + 1) cart.
Proof.
  intros [_ Hrows]. unfold items_of_sale.
  rewrite written_sale_items, filter_app.
  rewrite filter_sale_id_none, filter_sale_id_all; [done | | ].
  - apply rows_of_sale_id.
  - eapply Forall_impl; [exact Hrows|]. simpl. intros; lia.
Qed.

Lemma opening_ledger_wf (catalog : gmap Z (Product.t A)) :
  ledger_wf (opening catalog).
Proof. split; constructor. Qed.

(** Every sale keeps the ledger keys in range. *)
Lemma post_sales_ledger_wf db (items : option (list (Item.t A))) :
  ledger_wf db -> ledger_wf (post_sales db items).1.
Proof.
  intros Hwf. destruct (post_sales db items) as [db' [id total profit|st e]] eqn:E.
  - apply post_sales_completed in E as (cart & _ & _ & _ & -> & _).
    destruct Hwf as [Hs Hr]. unfold ledger_wf. cbn [fst]. split.
    + rewrite written_sales, written_sales_seq. apply Forall_app. split.
      * eapply Forall_impl; [exact Hs|]. simpl. intros; lia.
      * constructor; [simpl; lia | constructor].
    + rewrite written_sale_items, written_sales_seq. apply Forall_app. split.
      * eapply Forall_impl; [exact Hr|]. simpl. intros; lia.
      * eapply Forall_impl; [apply rows_of_sale_id|]. simpl. intros; lia.
  - by apply post_sales_failed_store in E as ->.
Qed.

(** ** C7, C8: what a sale leaves behind *)




(** ** Stock that stays at zero or above *)


(** ** C9: unknown products *)

(** Up to 2^53 a stock covers a line when it is at least the quantity,
    and falls short of it when it is less. *)
Lemma covers_exact p item :
  Z.abs (Product.stock p) <= 2 ^ 53 -> Z.abs (Item.quantity item) <= 2 ^ 53 ->
  (covers p item <-> Item.quantity item <= Product.stock p) /\
  (falls_short p item <-> Product.stock p < Item.quantity item).
Proof.
  intros Hs Hq. unfold covers, falls_short.
  by rewrite !nearest53_exact by lia.
Qed.

(** A line passes its check when its product is known and has the stock. *)
Lemma check_passes db item :
  check db item = None <->
  exists p, products db !! Item.product_id item = Some p /\ covers p item.
Proof.
  rewrite check_None. unfold select_stock, covers. split.
  - intros (st & Hst & Hle).
    destruct (products db !! Item.product_id item) as [p|]; [|done].
    injection Hst as <-. by exists p.
  - intros (p & -> & Hle). by exists (Product.stock p).
Qed.

(** A line fails its check when its product is not known, or has not the
    stock. *)
Lemma check_fails db item e :
  check db item = Some e <->
  (products db !! Item.product_id item = None /\
   e = ProductNotFound (Item.product_id item)) \/
  (exists p, products db !! Item.product_id item = Some p /\
             falls_short p item /\
             e = InsufficientStock (Item.product_id item)).
Proof.
  unfold check, select_stock, falls_short.
  destruct (products db !! Item.product_id item) as [p|]; simpl.
  - destruct (Z.ltb_spec (nearest53 (Product.stock p))
                         (nearest53 (Item.quantity item))); split.
    + intros [= <-]. right. by exists p.
    + intros [[? _] | (q & [= <-] & _ & ->)]; done.
    + done.
    + intros [[? _] | (q & [= <-] & ? & _)]; [done | lia].
  - split.
    + intros [= <-]. by left.
    + intros [[_ ->] | (q & ? & _)]; done.
Qed.

(** The earlier variant, case by case. *)
Lemma totals_unchecked_lines cart :
  totals_unchecked cart = (lines_total cart, lines_profit cart).
Proof.
  unfold totals_unchecked, lines_total, lines_profit.
  generalize (number 0) at 1 3. generalize (number 0).
  induction cart as [|item rest IH]; intros a b; [done|].
  unfold sum_from, line_amount, line_margin in *. cbn [foldl fst snd].
  by rewrite IH.
Qed.

Lemma post_sales_unchecked_recorded db cart :
  cart <> [] -> recordable_unchecked cart ->
  post_sales_unchecked db (Some cart) =
  (written db cart (lines_total cart) (lines_profit cart),
   Completed (sales_seq db + 1) (lines_total cart) (lines_profit cart)).
Proof.
  intros Hne H%recordable_unchecked_insert. destruct cart as [|item rest]; [done|].
  unfold post_sales_unchecked. by rewrite totals_unchecked_lines, H.
Qed.

Lemma post_sales_unchecked_refused db cart :
  cart <> [] -> ~ recordable_unchecked cart ->
  post_sales_unchecked db (Some cart) = (db, Failed 500 StorageError).
Proof.
  intros Hne. rewrite recordable_unchecked_insert. intros H%not_false_is_true.
  destruct cart as [|item rest]; [done|].
  unfold post_sales_unchecked. by rewrite totals_unchecked_lines, H.
Qed.

Lemma recordable_unchecked_dec cart :
  recordable_unchecked cart \/ ~ recordable_unchecked cart.
Proof.
  rewrite recordable_unchecked_insert.
  destruct (insert_fails (lines_total cart) (lines_profit cart));
    [by right | by left].
Qed.

Lemma post_sales_unchecked_completed db cart db' id total profit :
  post_sales_unchecked db (Some cart) = (db', Completed id total profit) ->
  cart <> [] /\ recordable_unchecked cart /\
  db' = written db cart total profit /\
  id = sales_seq db + 1 /\ total = lines_total cart /\
  profit = lines_profit cart.
Proof.
  intros H. assert (Hne : cart <> []) by (intros ->; discriminate H).
  destruct (recordable_unchecked_dec cart) as [Hr|Hr].
  - rewrite post_sales_unchecked_recorded in H by done.
    by injection H as <- <- <- <-.
  - by rewrite post_sales_unchecked_refused in H.
Qed.

(** C9: a cart with a line for a product that is not in the catalogue is
    answered with status 400 and nothing is written. The error is that of
    the first line, in cart order, that fails its check: every line before
    it names a known product with the stock for it, and the line itself
    names a product that is not in the catalogue, which gives
    [ProductNotFound] for that product, or a known product with less stock
    than the line asks, which gives the stock error for that product
    (stock and quantity compared as the handler reads them). The
    earlier variant of the handler looks nothing up: it never answers with
    status 400 for such a cart, and when the totals are numbers it
    completes the sale and stores a row for every line. *)
Theorem unknown_product_rejected db cart :
  (exists item, item ∈ cart /\ products db !! Item.product_id item = None) ->
  (exists pre item post e,
      cart = pre ++ item :: post /\
      Forall (fun x => exists p, products db !! Item.product_id x = Some p /\
                                 covers p x) pre /\
      (products db !! Item.product_id item = None /\
       e = ProductNotFound (Item.product_id item) \/
       exists p, products db !! Item.product_id item = Some p /\
                 falls_short p item /\
                 e = InsufficientStock (Item.product_id item)) /\
      post_sales db (Some cart) = (db, Failed 400 e)) /\
  (forall e, (post_sales_unchecked db (Some cart)).2 <> Failed 400 e) /\
  (recordable_unchecked cart ->
   exists db',
     post_sales_unchecked db (Some cart) =
       (db', Completed (sales_seq db + 1) (lines_total cart) (lines_profit cart)) /\
     sale_items db' =
       sale_items db ++ rows_of (sales_seq db + 1) (sale_items_seq db + 1) cart).
Proof.
  intros (bad & Hin & Hbad).
  assert (Hne : cart <> []) by (intros ->; by apply elem_of_nil in Hin).
  split_and!.
  - destruct (validate db cart) as [e|] eqn:Hv.
    + pose proof Hv as (pre & it & post & -> & Hpre & Hit)%validate_Some.
      exists pre, it, post, e. split_and!; [done | | | ].
      * eapply Forall_impl; [exact Hpre|]. intros x Hx. by apply check_passes.
      * by apply check_fails.
      * by apply post_sales_rejected.
    + exfalso. rewrite validate_None, Forall_forall in Hv.
      apply Hv, check_passes in Hin as (p & Hp & _). congruence.
  - intros e. destruct (recordable_unchecked_dec cart) as [Hr|Hr].
    + by rewrite post_sales_unchecked_recorded.
    + by rewrite post_sales_unchecked_refused.
  - intros Hr. eexists. split; [by apply post_sales_unchecked_recorded|].
    apply written_sale_items.
Qed.

(** ** C1: the availability check *)

(** What the check does guarantee, for a cart that is not empty and
    names known products only, with stocks and quantities up to 2^53:
    when the quantities are positive and the sale is refused for lack of
    stock, the product named in the error is asked for more than its
    stock, all lines together, and the store is unchanged; when the cart
    has one line per product, the sale is refused for lack of stock
    exactly when some product is asked for more than its stock. *)
Lemma per_line_check_distinct db cart :
  cart <> [] -> all_known db cart -> exact_numbers db (Some cart) ->
  (Forall (fun item => 0 < Item.quantity item) cart \/ NoDup (referenced cart) ->
   forall product_id,
     (post_sales db (Some cart)).2 = Failed 400 (InsufficientStock product_id) ->
     (post_sales db (Some cart)).1 = db /\
     product_id ∈ referenced cart /\
     exists available,
       select_stock db product_id = Some available /\
       available < requested product_id cart) /\
  (NoDup (referenced cart) ->
   ((exists product_id,
        (post_sales db (Some cart)).2 = Failed 400 (InsufficientStock product_id))
    <-> oversubscribed db cart)).
Proof.
  intros Hne Hknown [Hs Hq].
  assert (Hex : forall item st,
    item ∈ cart -> select_stock db (Item.product_id item) = Some st ->
    nearest53 st = st /\ nearest53 (Item.quantity item) = Item.quantity item).
  { intros item st Hitem Hst. unfold select_stock in Hst.
    destruct (products db !! Item.product_id item) as [p|] eqn:Hp; [|done].
    injection Hst as <-.
    pose proof (Hs _ _ Hp). pose proof (Hq _ _ eq_refl Hitem).
    split; apply nearest53_exact; lia. }
  assert (Hfwd :
    Forall (fun item => 0 < Item.quantity item) cart \/ NoDup (referenced cart) ->
    forall pid,
    (post_sales db (Some cart)).2 = Failed 400 (InsufficientStock pid) ->
    (post_sales db (Some cart)).1 = db /\
    pid ∈ referenced cart /\
    exists available,
      select_stock db pid = Some available /\ available < requested pid cart).
  { intros Hshape pid Hres.
    pose proof (post_sales_response_failed _ _ _ Hne Hres) as Hv.
    rewrite (post_sales_rejected _ _ _ Hv). split; [done|].
    apply validate_Some in Hv as (pre & it & post & Hcart & _ & Hit).
    apply check_insufficient in Hit as [-> (st & Hst & Hlt)].
    assert (Hmem : it ∈ cart).
    { rewrite Hcart. apply elem_of_app. right. by left. }
    destruct (Hex it st Hmem Hst) as [E1 E2]. rewrite E1, E2 in Hlt.
    split; [by apply list_elem_of_fmap_2|].
    exists st. split; [done|]. destruct Hshape as [Hpos | Hnd].
    - pose proof (requested_at_least cart it Hpos Hmem). lia.
    - by rewrite requested_distinct. }
  split; [exact Hfwd|]. intros Hnd. split.
  - intros [pid Hres].
    destruct (Hfwd (or_intror Hnd) pid Hres) as (_ & Hin & st & Hst & Hlt).
    by exists pid, st.
  - intros (pid & st & Hin & Hst & Hlt).
    apply list_elem_of_fmap in Hin as (item & -> & Hitem).
    rewrite requested_distinct in Hlt by done.
    destruct (validate db cart) as [e|] eqn:Hv.
    + rewrite (post_sales_rejected _ _ _ Hv). cbn [snd].
      apply validate_Some in Hv as (pre & it & post & Hcart & _ & Hit).
      destruct (check_error _ _ _ Hit) as [-> | ->].
      * apply check_not_found in Hit as [_ Hnone].
        unfold all_known in Hknown. rewrite Forall_forall in Hknown.
        assert (Hmem : it ∈ cart).
        { rewrite Hcart. apply elem_of_app. right. by left. }
        apply Hknown in Hmem as [p Hp]. congruence.
      * by exists (Item.product_id it).
    + exfalso. rewrite validate_None, Forall_forall in Hv.
      pose proof Hitem as (st' & Hst' & Hle)%Hv%check_None.
      rewrite Hst in Hst'. injection Hst' as <-.
      destruct (Hex item st Hitem Hst) as [E1 E2]. rewrite E1, E2 in Hle. lia.
Qed.

(** Lines that each fit the stock pass the checks, whatever they add
    up to. *)
Lemma fitting_lines_pass db cart :
  Forall (fun item => exists p, products db !! Item.product_id item = Some p /\
                                covers p item) cart ->
  validate db cart = None.
Proof.
  intros H. apply validate_None. eapply Forall_impl; [exact H|].
  intros item Hitem. by apply check_passes.
Qed.

(** ** C4: whose prices *)




(** ** C3: a write that fails *)

Lemma item_statements_no_header saleId items :
  Forall (fun s => is_header s = false) (item_statements saleId items).
Proof.
  induction items as [|item rest IH]; [constructor|].
  rewrite item_statements_cons. by repeat constructor.
Qed.

(** Statements other than the header [INSERT] leave [sales] alone. *)
Lemma run_keeps_sales (ss : list (statement A)) : forall db,
  Forall (fun s => is_header s = false) ss ->
  sales (foldl run db ss) = sales db.
Proof.
  induction ss as [|s ss IH]; intros db Hss; [done|].
  apply Forall_cons in Hss as [Hs Hss]. cbn [foldl]. rewrite IH by done.
  by destruct s.
Qed.

Lemma run_faulty_keeps_sales a k db saleId items :
  sales (run_faulty a k db (item_statements saleId items)) = sales db.
Proof.
  pose proof (item_statements_no_header saleId items) as H.
  destruct a; unfold run_faulty; apply run_keeps_sales.
  - by apply Forall_take.
  - apply Forall_app. split; [by apply Forall_take | by apply Forall_drop].
  - apply Forall_app. split; [by apply Forall_take|].
    by apply Forall_take, Forall_drop.
Qed.

(** A fault position beyond the last statement is no fault. *)
Lemma run_faulty_beyond a k db (ss : list (statement A)) :
  (length ss <= k)%nat -> run_faulty a k db ss = foldl run db ss.
Proof.
  intros Hk. destruct a; unfold run_faulty.
  - by rewrite take_ge.
  - rewrite take_ge by done. rewrite drop_ge by lia. by rewrite app_nil_r.
  - rewrite take_ge by done. rewrite drop_ge by lia.
    rewrite take_nil. by rewrite app_nil_r.
Qed.

(** C3: for a cart that passed the checks, a failure of the first write,
    the sale header, leaves the store as it was and is answered with
    status 500. A failure of a later write is not undone: the header stays
    in [sales] and the request has been answered as completed, however
    many of the statements behind the failing one still run. A fault
    behind the last write is no fault. The header of a cart whose total
    or profit is not a number fails by itself: such a request is answered
    with status 500 and nothing is written, whichever write was to
    fail. *)
Theorem commit_fault_not_rolled_back a db cart :
  cart <> [] -> validate db cart = None ->
  post_sales_faulty a 0 db (Some cart) = (db, Failed 500 StorageError) /\
  (recordable cart ->
   forall k,
     (post_sales_faulty a (S k) db (Some cart)).2 =
       Completed (sales_seq db + 1) (lines_total cart) (lines_net cart) /\
     sales (post_sales_faulty a (S k) db (Some cart)).1 =
       sales db ++
       [Sale.mk (sales_seq db + 1) (lines_total cart) (lines_net cart)]) /\
  (forall k,
      (length (item_statements 0 cart) <= k)%nat ->
      post_sales_faulty a (S k) db (Some cart) = post_sales db (Some cart)) /\
  (~ recordable cart ->
   forall k,
     post_sales_faulty a k db (Some cart) = (db, Failed 500 StorageError)).
Proof.
  intros Hne Hv. destruct cart as [|item rest]; [done|].
  unfold post_sales_faulty, post_sales. rewrite Hv.
  unfold commit_faulty, commit. rewrite totals_lines.
  fold (lines_net (item :: rest)). split_and!.
  - by destruct (insert_fails _ _).
  - intros ->%recordable_insert k. cbn [fst snd].
    by rewrite run_faulty_keeps_sales.
  - intros k Hk. destruct (insert_fails _ _); [done|].
    rewrite run_faulty_beyond; [done|].
    rewrite length_item_statements in *. done.
  - rewrite recordable_insert. intros ->%not_false_is_true. done.
Qed.

(** ** C6: two requests for the last unit *)

(** The three callbacks of a request, run back to back, are [post_sales]. *)
Lemma handler_served db (items : option (list (Item.t A))) :
  handler_steps 3 db (Received items) =
  ((post_sales db items).1, Responded (post_sales db items).2).
Proof.
  destruct items as [[|item rest]|]; [done| |done].
  unfold post_sales, commit. cbn [handler_steps handler_step].
  destruct (validate db (item :: rest)); [done|].
  unfold handler_step.
  destruct (totals (item :: rest)) as [total totalCost].
  by destruct (insert_fails total (minus total totalCost)).
Qed.

(** A schedule that lets one request run [n] callbacks in a row. *)
Lemma schedule_replicate n i : forall db (hs : list (handler A)) h,
  hs !! i = Some h ->
  run_schedule (db, hs) (replicate n i) =
  ((handler_steps n db h).1, <[i := (handler_steps n db h).2]> hs).
Proof.
  induction n as [|n IH]; intros db hs h Hi.
  - cbn. by rewrite list_insert_id.
  - cbn [replicate handler_steps]. unfold run_schedule in *. cbn [foldl].
    unfold schedule_step at 2. cbn [fst snd]. rewrite Hi.
    destruct (handler_step db h) as [db' h'].
    rewrite (IH db' (<[i := h']> hs) h').
    + by rewrite list_insert_insert_eq.
    + apply list_lookup_insert_eq. by eapply lookup_lt_Some.
Qed.

Lemma run_schedule_app (s : server) l1 l2 :
  run_schedule s (l1 ++ l2) = run_schedule (run_schedule s l1) l2.
Proof. apply foldl_app. Qed.

(** Serving the first request to its end, then the second. *)
Lemma served_in_turn db (items1 items2 : option (list (Item.t A))) :
  run_schedule (db, [Received items1; Received items2])
               [0; 0; 0; 1; 1; 1]%nat =
  ((post_sales (post_sales db items1).1 items2).1,
   [Responded (post_sales db items1).2;
    Responded (post_sales (post_sales db items1).1 items2).2]).
Proof.
  change [0; 0; 0; 1; 1; 1]%nat with (replicate 3 0 ++ replicate 3 1)%nat.
  rewrite run_schedule_app.
  rewrite (schedule_replicate 3 0 db _ (Received items1)) by done.
  rewrite handler_served. cbn [fst snd insert list_insert].
  rewrite (schedule_replicate 3 1 _ _ (Received items2)) by done.
  by rewrite handler_served.
Qed.

(** Serving the second request to its end, then the first. *)
Lemma served_in_reverse_turn db (items1 items2 : option (list (Item.t A))) :
  run_schedule (db, [Received items1; Received items2])
               [1; 1; 1; 0; 0; 0]%nat =
  ((post_sales (post_sales db items2).1 items1).1,
   [Responded (post_sales (post_sales db items2).1 items1).2;
    Responded (post_sales db items2).2]).
Proof.
  change [1; 1; 1; 0; 0; 0]%nat with (replicate 3 1 ++ replicate 3 0)%nat.
  rewrite run_schedule_app.
  rewrite (schedule_replicate 3 1 db _ (Received items2)) by done.
  rewrite handler_served. cbn [fst snd insert list_insert].
  rewrite (schedule_replicate 3 0 _ _ (Received items1)) by done.
  by rewrite handler_served.
Qed.

(** Selling the last unit. *)
Lemma last_unit_sold db item :
  select_stock db (Item.product_id item) = Some 1 ->
  Item.quantity item = 1 ->
  recordable [item] ->
  (post_sales db (Some [item])).2 =
    Completed (sales_seq db + 1) (lines_total [item]) (lines_net [item]) /\
  select_stock (post_sales db (Some [item])).1 (Item.product_id item) = Some 0.
Proof.
  intros Hst Hq Hr.
  assert (Hv : validate db [item] = None).
  { rewrite validate_cons.
    rewrite (proj2 (check_None db item)); [done|].
    exists 1. split; [done | rewrite Hq; lia]. }
  rewrite post_sales_recorded by done. split; [done|].
  unfold select_stock in *. cbn [fst]. rewrite written_products.
  destruct (products db !! Item.product_id item) as [p|]; [|done].
  cbn [fmap option_fmap option_map sold] in *. rewrite decide_True by done.
  injection Hst as Hst. cbn [decrement Product.stock]. by rewrite Hst, Hq.
Qed.

(** Asking for a unit of a product that is sold out. *)
Lemma sold_out_refused db item :
  select_stock db (Item.product_id item) = Some 0 ->
  Item.quantity item = 1 ->
  post_sales db (Some [item]) =
    (db, Failed 400 (InsufficientStock (Item.product_id item))).
Proof.
  intros Hst Hq. apply post_sales_rejected. rewrite validate_cons.
  rewrite (proj2 (check_insufficient db item (Item.product_id item))); [done|].
  split; [done|]. exists 0. split; [done | rewrite Hq; by vm_compute].
Qed.

(** C6: when the two requests for the last unit are served one after
    the other, in either order, and the totals of the request served
    first are numbers, exactly one sale is completed, the other request
    is refused for lack of stock, and the stock ends at 0. A request
    whose total or profit is not a number is answered with status 500
    and writes nothing, so that the request behind it is served as if
    it were alone. *)
Theorem last_unit_sold_once_in_turn db item1 item2 :
  select_stock db (Item.product_id item1) = Some 1 ->
  Item.product_id item2 = Item.product_id item1 ->
  Item.quantity item1 = 1 -> Item.quantity item2 = 1 ->
  (recordable [item1] ->
   one_sale_wins (Item.product_id item1)
     (run_schedule (db, [Received (Some [item1]); Received (Some [item2])])
                   [0; 0; 0; 1; 1; 1]%nat)) /\
  (recordable [item2] ->
   one_sale_wins (Item.product_id item1)
     (run_schedule (db, [Received (Some [item1]); Received (Some [item2])])
                   [1; 1; 1; 0; 0; 0]%nat)) /\
  (~ recordable [item1] ->
   run_schedule (db, [Received (Some [item1]); Received (Some [item2])])
                [0; 0; 0; 1; 1; 1]%nat =
   ((post_sales db (Some [item2])).1,
    [Responded (Failed 500 StorageError);
     Responded (post_sales db (Some [item2])).2])).
Proof.
  intros Hst Hid Hq1 Hq2. split_and!.
  - intros Hr. rewrite served_in_turn.
    destruct (last_unit_sold db item1 Hst Hq1 Hr) as [Hres Hs].
    assert (Hs2 : select_stock (post_sales db (Some [item1])).1
                    (Item.product_id item2) = Some 0) by by rewrite Hid.
    rewrite (sold_out_refused _ item2 Hs2 Hq2), Hres, Hid.
    split; [done|]. left. by eexists _, _, _.
  - intros Hr. rewrite served_in_reverse_turn. rewrite <- Hid in Hst.
    destruct (last_unit_sold db item2 Hst Hq2 Hr) as [Hres Hs].
    assert (Hs1 : select_stock (post_sales db (Some [item2])).1
                    (Item.product_id item1) = Some 0) by by rewrite <- Hid.
    rewrite (sold_out_refused _ item1 Hs1 Hq1), Hres.
    split; [by rewrite <- Hid|]. right. by eexists _, _, _.
  - intros Hr. rewrite served_in_turn.
    assert (Hv : validate db [item1] = None).
    { rewrite validate_cons.
      rewrite (proj2 (check_None db item1)); [done|].
      exists 1. split; [done | rewrite Hq1; lia]. }
    by rewrite (post_sales_refused db [item1]).
Qed.

End Properties.

(** ** Exact arithmetic *)

Lemma sum_from_exact {X : Type} (f : X -> Z) (l : list X) : forall a,
  sum_from f a l = a + sum_from f 0 l.
Proof.
  induction l as [|x l IH]; intros a; unfold sum_from in *; cbn [foldl].
  - lia.
  - rewrite IH, (IH (plus 0 (f x))). simpl. lia.
Qed.

Lemma sum_from_app_exact {X : Type} (f : X -> Z) (l1 l2 : list X) :
  sum_from f 0 (l1 ++ l2) = sum_from f 0 l1 + sum_from f 0 l2.
Proof.
  unfold sum_from at 1. rewrite foldl_app. fold (sum_from f 0 l1).
  apply sum_from_exact.
Qed.

(** Without rounding, a difference of sums is the sum of the differences. *)
Lemma sum_from_diff_exact {X : Type} (f g h : X -> Z) (l : list X) :
  (forall x, f x - g x = h x) ->
  sum_from f 0 l - sum_from g 0 l = sum_from h 0 l.
Proof.
  intros Hfg. induction l as [|x l IH]; [done|].
  change (x :: l) with ([x] ++ l). rewrite !sum_from_app_exact.
  unfold sum_from at 1 3 5. simpl. specialize (Hfg x). lia.
Qed.

Lemma lines_net_exact (items : list (Item.t Z)) :
  lines_net items = lines_profit items.
Proof.
  apply sum_from_diff_exact. intros item.
  unfold line_amount, line_cost, line_margin. simpl. lia.
Qed.

Lemma rows_net_exact (rows : list (SaleItem.t Z)) :
  rows_net rows = rows_profit rows.
Proof.
  apply sum_from_diff_exact. intros r.
  unfold row_amount, row_cost, row_margin. simpl. lia.
Qed.

(** ** Binary64 arithmetic *)

(** Two numbers that [==] tells apart are different. *)
Lemma double_differ (x y : float) :
  PrimFloat.eqb x x = true -> PrimFloat.eqb x y = false -> x <> y.
Proof. intros Hx Hxy ->. congruence. Qed.

(** ** C5: the header of a sale and its rows *)

(** C5, as the specification words it, fails in JavaScript arithmetic for
    a sale of three units at a price of 0.3 and a cost of 0.1: the handler
    stores the profit 0.3 × 3 − 0.1 × 3 = 0.5999999999999999, and the sum
    of (price − cost) × quantity over the stored row is 0.6. *)
Lemma profit_rounded_twice :
  ~ totals_reconcile (shop : store float) (Some [loose_rice_line]).
Proof.
  intros H.
  edestruct H as [_ Hprofit];
    [apply opening_ledger_wf | vm_compute; reflexivity |].
  revert Hprofit. apply double_differ; vm_compute; reflexivity.
Qed.

(** C5: after a completed sale the stored header is the only one with
    its key; its total is the sum of price × quantity over the stored rows
    of the sale, and its profit is that total less the sum of
    cost × quantity over them. In exact arithmetic the profit is also the
    sum of (price − cost) × quantity over those rows. *)
Theorem sale_totals_reconcile :
  (forall (A : Type) (num : Number A) (db : store A) items db' id total profit,
      ledger_wf db ->
      post_sales db items = (db', Completed id total profit) ->
      Sale.mk id total profit ∈ sales db' /\
      (forall s, s ∈ sales db' -> Sale.id s = id -> s = Sale.mk id total profit) /\
      total = rows_total (items_of_sale db' id) /\
      profit = rows_net (items_of_sale db' id)) /\
  (forall (db : store Z) items, totals_reconcile db items).
Proof.
  assert (Hgen : forall (A : Type) (num : Number A) (db : store A) items
                        db' id total profit,
    ledger_wf db ->
    post_sales db items = (db', Completed id total profit) ->
    Sale.mk id total profit ∈ sales db' /\
    (forall s, s ∈ sales db' -> Sale.id s = id -> s = Sale.mk id total profit) /\
    total = rows_total (items_of_sale db' id) /\
    profit = rows_net (items_of_sale db' id)).
  { intros A num db items db' id total profit Hwf.
    intros (cart & -> & _ & _ & -> & -> & -> & -> & _)%post_sales_completed.
    rewrite written_sales, items_of_committed_sale by done.
    unfold rows_net, rows_total, rows_cost.
    rewrite rows_of_amounts, rows_of_costs.
    split_and!; [ | | done | done].
    - apply elem_of_app. right. by left.
    - intros s [Hold | Hnew%list_elem_of_singleton]%elem_of_app Hid; [|done].
      destruct Hwf as [Hs _]. rewrite Forall_forall in Hs.
      apply Hs in Hold. lia. }
  split; [exact Hgen|].
  intros db items Hwf db' id total profit Hres.
  destruct (Hgen _ _ _ _ _ _ _ _ Hwf Hres) as (_ & _ & Ht & Hp).
  split; [done|]. by rewrite <- rows_net_exact.
Qed.

Lemma sale_totals_reconcile_witness :
  ledger_wf (shop : store float) /\
  Sale.mk 1 150%float 30%float
    ∈ sales (post_sales (shop : store float) (Some [rice_line 3])).1 /\
  150%float =
    rows_total (items_of_sale (post_sales (shop : store float)
                                          (Some [rice_line 3])).1 1) /\
  30%float =
    rows_net (items_of_sale (post_sales (shop : store float)
                                        (Some [rice_line 3])).1 1).
Proof.
  assert (Hwf : ledger_wf (shop : store float)) by apply opening_ledger_wf.
  split; [exact Hwf|].
  assert (Hres : post_sales (shop : store float) (Some [rice_line 3]) =
                 ((post_sales (shop : store float) (Some [rice_line 3])).1,
                  Completed 1 150%float 30%float)).
  { vm_compute. reflexivity. }
  destruct (proj1 sale_totals_reconcile float double shop (Some [rice_line 3])
              _ 1 150%float 30%float Hwf Hres)
    as (H1 & _ & H3 & H4).
  by repeat split.
Defined.

(** ** C10: lines with a quantity of zero or less *)

(** C10: a line for a known product whose stock is not negative and
    whose quantity is zero or less passes its check, so it never makes
    the handler refuse a cart: a cart with such a line is refused by the
    checks exactly when it is without the line, and then for a line other
    than this one. When the other lines pass and the total and the profit
    of the cart are numbers, the sale is completed with the totals of the
    whole cart, its header and its rows are stored, the row of the line
    with its quantity among them, and the stock of the product of the line
    is lowered by the quantity, that is, raised when the quantity is
    negative, as long as stock and quantities stay within the integers
    that binary64 holds exactly. When the total or the profit is not a
    number, the request is answered with status 500 and nothing is
    written. In exact arithmetic the line adds price × quantity to the
    total and (price − cost) × quantity to the profit, both below zero for
    a negative quantity, a price above zero and a price above the cost. *)
Theorem nonpositive_quantity_accepted :
  (forall (A : Type) (num : Number A) (db : store A) (item : Item.t A) p,
      products db !! Item.product_id item = Some p ->
      0 <= Product.stock p ->
      Item.quantity item <= 0 ->
      (forall pre post,
          validate db (pre ++ item :: post) = validate db (pre ++ post)) /\
      (forall pre post e,
          post_sales db (Some (pre ++ item :: post)) = (db, Failed 400 e) ->
          exists other,
            other ∈ pre ++ post /\
            (products db !! Item.product_id other = None \/
             exists q, products db !! Item.product_id other = Some q /\
                       falls_short q other)) /\
      (forall pre post,
          validate db (pre ++ post) = None ->
          (recordable (pre ++ item :: post) ->
           exists db' p',
             post_sales db (Some (pre ++ item :: post)) =
               (db', Completed (sales_seq db + 1)
                       (lines_total (pre ++ item :: post))
                       (lines_net (pre ++ item :: post))) /\
             sales db' =
               sales db ++
               [Sale.mk (sales_seq db + 1)
                        (lines_total (pre ++ item :: post))
                        (lines_net (pre ++ item :: post))] /\
             sale_items db' =
               sale_items db ++
               rows_of (sales_seq db + 1) (sale_items_seq db + 1)
                       (pre ++ item :: post) /\
             products db' !! Item.product_id item = Some p' /\
             (exact_range (Item.product_id item) (pre ++ item :: post) p ->
              Product.stock p' =
                Product.stock p
                - requested (Item.product_id item) (pre ++ post)
                - Item.quantity item)) /\
          (~ recordable (pre ++ item :: post) ->
           post_sales db (Some (pre ++ item :: post)) =
             (db, Failed 500 StorageError)))) /\
  (forall (item : Item.t Z) pre post,
      lines_total (pre ++ item :: post) =
        lines_total (pre ++ post) + Item.price item * Item.quantity item /\
      lines_net (pre ++ item :: post) =
        lines_net (pre ++ post)
        + (Item.price item - Item.cost item) * Item.quantity item /\
      (Item.quantity item < 0 ->
       (0 < Item.price item -> Item.price item * Item.quantity item < 0) /\
       (Item.cost item < Item.price item ->
        (Item.price item - Item.cost item) * Item.quantity item < 0))).
Proof.
  split.
  - intros A num db item p Hp Hstock Hq.
    assert (Hcheck : check db item = None).
    { apply check_passes. exists p. split; [done|]. unfold covers.
      pose proof (nearest53_nonpos _ Hq). pose proof (nearest53_nonneg _ Hstock).
      lia. }
    assert (Hskip : forall pre post,
      validate db (pre ++ item :: post) = validate db (pre ++ post)).
    { induction pre as [|x pre IH]; intros post; simpl app.
      - by rewrite validate_cons, Hcheck.
      - rewrite !validate_cons. by rewrite IH. }
    assert (Hne : forall pre post, pre ++ item :: post <> []).
    { intros pre post. by destruct pre. }
    split_and!; [done | | ].
    + intros pre post e Hres.
      pose proof (post_sales_response_failed db _ e (Hne pre post)
                    ltac:(by rewrite Hres)) as Hv.
      rewrite Hskip in Hv.
      apply validate_Some in Hv as (pre' & other & post' & Hc & _ & Hit).
      exists other. split.
      { rewrite Hc. apply elem_of_app. right. by left. }
      apply check_fails in Hit as [[? _] | (q & ? & ? & _)];
        [by left | right; by exists q].
    + intros pre post Hv. rewrite <- Hskip in Hv. split.
      * intros Hr. eexists _, (sold (Item.product_id item) (pre ++ item :: post) p).
        split; [by apply post_sales_recorded|].
        split_and!; [apply written_sales | apply written_sale_items | | ].
        -- by rewrite written_products, Hp.
        -- intros Hrange. rewrite sold_stock_exact by done.
           rewrite !requested_app. simpl. rewrite decide_True by done. lia.
      * intros Hr. by apply post_sales_refused.
  - intros item pre post.
    assert (Ht : lines_total (pre ++ item :: post) =
                 lines_total (pre ++ post) + Item.price item * Item.quantity item).
    { unfold lines_total. change (item :: post) with ([item] ++ post).
      rewrite !sum_from_app_exact. unfold sum_from at 2. simpl.
      unfold line_amount. simpl. lia. }
    split_and!; [done | | intros Hneg; split; nia].
    rewrite !lines_net_exact. unfold lines_profit.
    change (item :: post) with ([item] ++ post).
    rewrite !sum_from_app_exact. unfold sum_from at 2. simpl.
    unfold line_margin. simpl. lia.
Qed.

Lemma nonpositive_quantity_accepted_witness :
  (products (shop : store float) !! Item.product_id (rice_line (-2)) = Some rice /\
   0 <= Product.stock (rice : Product.t float) /\
   Item.quantity (rice_line (-2) : Item.t float) <= 0 /\
   validate (shop : store float) ([] ++ []) = None /\
   recordable ([] ++ [rice_line (-2) : Item.t float]) /\
   exact_range 1 ([] ++ [rice_line (-2) : Item.t float]) rice) /\
  exists db' p',
    post_sales (shop : store float) (Some [rice_line (-2)]) =
      (db', Completed 1 (lines_total [rice_line (-2)])
                        (lines_net [rice_line (-2)])) /\
    lines_total [rice_line (-2) : Item.t float] = (-100)%float /\
    lines_net [rice_line (-2) : Item.t float] = (-20)%float /\
    sale_items db' = rows_of 1 1 [rice_line (-2)] /\
    products db' !! 1 = Some p' /\
    Product.stock p' = 12.
Proof.
  assert (H1 : products (shop : store float) !! Item.product_id (rice_line (-2))
               = Some rice) by reflexivity.
  assert (H2 : 0 <= Product.stock (rice : Product.t float)) by (simpl; lia).
  assert (H3 : Item.quantity (rice_line (-2) : Item.t float) <= 0) by (simpl; lia).
  assert (H4 : validate (shop : store float) ([] ++ []) = None) by reflexivity.
  assert (H5 : recordable ([] ++ [rice_line (-2) : Item.t float])).
  { split; vm_compute; reflexivity. }
  assert (H6 : exact_range 1 ([] ++ [rice_line (-2) : Item.t float]) rice).
  { vm_compute. discriminate. }
  split; [by split_and!|].
  destruct (proj1 (proj2 (proj2 (proj1 nonpositive_quantity_accepted float double
              shop (rice_line (-2)) rice H1 H2 H3)) [] [] H4) H5)
    as (db' & p' & Hres & _ & Hrows & Hp' & Hstock).
  exists db', p'. split_and!; [exact Hres | | | exact Hrows | exact Hp' | ].
  - vm_compute. reflexivity.
  - vm_compute. reflexivity.
  - rewrite (Hstock H6). reflexivity.
Defined.

(** ** C2: stock below zero *)

Lemma shop_stock_nonneg : stock_nonneg (shop : store float).
Proof.
  intros pid p H. unfold shop, opening in H. simpl in H.
  apply lookup_singleton_Some in H as [_ <-]. simpl. lia.
Qed.

(** C2: the store with ten units of rice and the cart with two lines of
    six units each. Each line passes the check on its own, the sale is
    completed, and the stock of rice ends at −2. *)
Theorem duplicate_lines_oversell :
  stock_nonneg (shop : store float) /\
  validate (shop : store float) [rice_line 6; rice_line 6] = None /\
  (post_sales (shop : store float) (Some [rice_line 6; rice_line 6])).2 =
    Completed 1 600%float 120%float /\
  select_stock
    (post_sales (shop : store float) (Some [rice_line 6; rice_line 6])).1 1 =
    Some (-2) /\
  ~ stock_nonneg
      (post_sales (shop : store float) (Some [rice_line 6; rice_line 6])).1.
Proof.
  split_and!; [apply shop_stock_nonneg | reflexivity | reflexivity | reflexivity |].
  intros H.
  assert (Hrow : products (post_sales (shop : store float)
                             (Some [rice_line 6; rice_line 6])).1 !! 1 =
                 Some (with_stock (-2) rice)) by (vm_compute; reflexivity).
  apply H in Hrow. simpl in Hrow. lia.
Qed.

(** ** The properties on the sample store, in JavaScript arithmetic *)



Lemma unknown_product_rejected_witness :
  (exists item, item ∈ [rice_line 3; ghost_line; rice_line 11] /\
                products (shop : store float) !! Item.product_id item = None) /\
  (exists pre item post e,
      [rice_line 3; ghost_line; rice_line 11] = pre ++ item :: post /\
      Forall (fun x => exists p,
                  products (shop : store float) !! Item.product_id x = Some p /\
                  covers p x) pre /\
      (products (shop : store float) !! Item.product_id item = None /\
       e = ProductNotFound (Item.product_id item) \/
       exists p, products (shop : store float) !! Item.product_id item = Some p /\
                 falls_short p item /\
                 e = InsufficientStock (Item.product_id item)) /\
      post_sales (shop : store float) (Some [rice_line 3; ghost_line; rice_line 11]) =
        (shop, Failed 400 e)) /\
  post_sales (shop : store float) (Some [rice_line 3; ghost_line; rice_line 11]) =
    (shop, Failed 400 (ProductNotFound 999)).
Proof.
  assert (H : exists item : Item.t float,
             item ∈ [rice_line 3; ghost_line; rice_line 11] /\
             products (shop : store float) !! Item.product_id item = None).
  { exists ghost_line. split; [right; left | reflexivity]. }
  split; [exact H|].
  split; [exact (proj1 (unknown_product_rejected shop _ H))|].
  reflexivity.
Defined.


Lemma commit_fault_not_rolled_back_witness :
  ([rice_line 3 : Item.t float] <> [] /\
   validate (shop : store float) [rice_line 3] = None /\
   recordable [rice_line 3 : Item.t float]) /\
  post_sales_faulty Halts 0 (shop : store float) (Some [rice_line 3]) =
    (shop, Failed 500 StorageError) /\
  (post_sales_faulty (Dies 1) 1 (shop : store float) (Some [rice_line 3])).2 =
    Completed 1 (lines_total [rice_line 3]) (lines_net [rice_line 3]) /\
  sales (post_sales_faulty (Dies 1) 1 (shop : store float) (Some [rice_line 3])).1 =
    [Sale.mk 1 (lines_total [rice_line 3]) (lines_net [rice_line 3])].
Proof.
  assert (H1 : [rice_line 3 : Item.t float] <> []) by discriminate.
  assert (H2 : validate (shop : store float) [rice_line 3] = None) by reflexivity.
  assert (H3 : recordable [rice_line 3 : Item.t float]).
  { split; vm_compute; reflexivity. }
  split; [by split_and!|].
  split; [exact (proj1 (commit_fault_not_rolled_back Halts shop [rice_line 3] H1 H2))|].
  exact (proj1 (proj2 (commit_fault_not_rolled_back (Dies 1) shop [rice_line 3]
                         H1 H2)) H3 0%nat).
Defined.

Lemma last_unit_sold_once_in_turn_witness :
  (select_stock (last_rice : store float) (Item.product_id (rice_line 1 : Item.t float))
     = Some 1 /\
   Item.product_id (cheap_rice_line 1 : Item.t float)
     = Item.product_id (rice_line 1 : Item.t float) /\
   Item.quantity (rice_line 1 : Item.t float) = 1 /\
   Item.quantity (cheap_rice_line 1 : Item.t float) = 1 /\
   recordable [rice_line 1 : Item.t float]) /\
  one_sale_wins 1
    (run_schedule ((last_rice : store float),
                   [Received (Some [rice_line 1]);
                    Received (Some [cheap_rice_line 1])])
                  [0; 0; 0; 1; 1; 1]%nat).
Proof.
  assert (Hr : recordable [rice_line 1 : Item.t float]).
  { split; vm_compute; reflexivity. }
  split; [by split_and!|].
  exact (proj1 (last_unit_sold_once_in_turn (last_rice : store float)
                  (rice_line 1) (cheap_rice_line 1)
                  eq_refl eq_refl eq_refl eq_refl) Hr).
Defined.

(** ** Where the code parts from the specification *)

(** C1: the store with ten units of rice and the cart with two lines of
    six units each. Both lines name a known product; together they ask
    for twelve units of rice, more than the ten in stock; each line by
    itself passes the check, and the sale is not refused for lack of
    stock but completed. The check of the handler, which is there to
    look at the stock first, misses the lines that share a product. *)
Theorem combined_quantity_accepted :
  all_known (shop : store float) [rice_line 6; rice_line 6] /\
  oversubscribed (shop : store float) [rice_line 6; rice_line 6] /\
  requested 1 [rice_line 6 : Item.t float; rice_line 6] = 12 /\
  select_stock (shop : store float) 1 = Some 10 /\
  (post_sales (shop : store float) (Some [rice_line 6; rice_line 6])).2 =
    Completed 1 600%float 120%float /\
  ~ cumulative_check (shop : store float) [rice_line 6; rice_line 6].
Proof.
  assert (Hknown : all_known (shop : store float) [rice_line 6; rice_line 6]).
  { repeat constructor; by exists rice. }
  assert (Hover : oversubscribed (shop : store float) [rice_line 6; rice_line 6]).
  { exists 1, 10. split; [left | split; [reflexivity | simpl; lia]]. }
  split_and!; [done | done | reflexivity | reflexivity | reflexivity |].
  intros H. destruct H as [_ Hback]; [done | done |].
  destruct (Hback Hover) as [pid Hpid].
  vm_compute in Hpid. discriminate Hpid.
Qed.

(** C3, as the specification words it, fails when the first item
    [INSERT] fails: the sale header written just before stays in [sales],
    whether the statements behind the failing one run or not. *)
Lemma failed_item_write_leaves_header :
  ~ all_or_nothing Halts 1 (shop : store float) [rice_line 3] /\
  ~ all_or_nothing Continues 1 (shop : store float) [rice_line 3].
Proof.
  split; intros H; unfold all_or_nothing in H;
    (assert (Hne : [rice_line 3 : Item.t float] <> []) by discriminate);
    specialize (H Hne eq_refl); simpl in H;
    (assert (Hk : (1 < 3)%nat) by lia); specialize (H Hk);
    apply (f_equal sales) in H; vm_compute in H; discriminate H.
Qed.


(** Both requests run their checks, then each writes. *)
Lemma interleaved_checks_outcome :
  (run_schedule ((last_rice : store float),
                 [Received (Some [rice_line 1]); Received (Some [rice_line 1])])
                [0; 1; 0; 0; 1; 1]%nat).2 =
    [Responded (Completed 1 50%float 10%float);
     Responded (Completed 2 50%float 10%float)] /\
  select_stock
    (run_schedule ((last_rice : store float),
                   [Received (Some [rice_line 1]); Received (Some [rice_line 1])])
                  [0; 1; 0; 0; 1; 1]%nat).1 1 = Some (-1).
Proof. split; reflexivity. Qed.

(** C6, as the specification words it, fails under the schedule in which
    both requests run their checks before either writes: both see one unit
    in stock, both sales are completed, and the stock ends at −1. *)
Lemma last_unit_sold_twice :
  ~ last_unit_sold_once (last_rice : store float) (rice_line 1) (rice_line 1)
      [0; 1; 0; 0; 1; 1]%nat.
Proof.
  intros H. unfold last_unit_sold_once in H.
  specialize (H eq_refl eq_refl eq_refl eq_refl). cbv zeta in H.
  destruct H as [Hstock _].
  - unfold all_responded. vm_compute.
    constructor; [by eexists|]. constructor; [by eexists|]. constructor.
  - vm_compute in Hstock. discriminate Hstock.
Qed.

(** C9, as the specification words it, fails for the cart whose first line
    asks for eleven units of rice (ten in stock) and whose second line names
    product 999: the answer is the stock error for product 1. *)
Lemma unknown_product_not_reported :
  ~ unknown_product_reported (shop : store float) [rice_line 11; ghost_line].
Proof.
  intros H. destruct H as (pid & _ & _ & Hres).
  - exists ghost_line. split; [right; left | reflexivity].
  - vm_compute in Hres. discriminate Hres.
Qed.

(** ** The earlier variant *)

(** The variant without checks completes a sale of a product that is not
    in the catalogue. *)
Lemma unchecked_variant_sells_unknown_product :
  (post_sales_unchecked (shop : store float) (Some [ghost_line])).2 =
    Completed 1 5%float 1%float.
Proof. reflexivity. Qed.

(** ** Numbers beyond the exact integers *)

(** The rounding of integers agrees with the binary64 arithmetic of the
    processor where the stock of eleven meets a quantity of −2^53. *)
Lemma rounded_difference_is_binary64 :
  PrimFloat.eqb (float_of_Z (sqlite_minus 11 (- 2 ^ 53)))
                (PrimFloat.sub (float_of_Z 11) (float_of_Z (- 2 ^ 53))) = true /\
  sqlite_minus 11 (- 2 ^ 53) = 9007199254741004.
Proof. split; vm_compute; reflexivity. Qed.


(** A return of three units takes a stock of 2^53 to 2^53 + 3: the
    quantity is bound as an integer and the [UPDATE] is exact. *)
Lemma brimming_reached :
  (post_sales (full_of_rice : store float) (Some [rice_line (-3)])).2 =
    Completed 1 (-150)%float (-30)%float /\
  products (post_sales (full_of_rice : store float) (Some [rice_line (-3)])).1 =
    products (brimming : store float).
Proof. split; vm_compute; reflexivity. Qed.


(** C10, as the specification words it, fails for a line of no unit at a
    price of [Infinity]: 0 × Infinity is NaN, the header is refused by
    the database, and the request is answered with status 500. *)
Lemma priceless_line_not_committed :
  ~ nonpositive_line_commits (shop : store float) priceless_line.
Proof.
  intros H. destruct (H rice) as (db' & id & total & profit & Hres).
  - reflexivity.
  - simpl. lia.
  - simpl. lia.
  - vm_compute in Hres. discriminate Hres.
Qed.

(** In binary64 a line with a negative quantity need not lower the total:
    next to a line at 2^1000, the −50 of a returned unit of rice is lost
    in the rounding. *)
Lemma negative_line_absorbed :
  PrimFloat.eqb (lines_total [dear_line; rice_line (-1)])
                (lines_total [dear_line]) = true /\
  PrimFloat.ltb (line_amount (rice_line (-1))) 0 = true.
Proof. split; vm_compute; reflexivity. Qed.

(** * Properties of the rest of the server *)

Section More.
Context {A : Type} {num : Number A}.
Implicit Types (db : store A) (item : Item.t A) (p : Product.t A).
Implicit Types (items cart rest pre post c : list (Item.t A)).

(** ** Reading the ledger *)

Lemma rows_of_fields saleId items : forall first,
  (fun r => (SaleItem.product_id r, SaleItem.product_name r, SaleItem.quantity r,
             SaleItem.price r, SaleItem.cost r)) <$> rows_of saleId first items =
  (fun item => (Item.product_id item, Item.product_name item, Item.quantity item,
                Item.price item, Item.cost item)) <$> items.
Proof.
  induction items as [|item rest IH]; intros first; [done|].
  cbn [rows_of]. rewrite !fmap_cons. by rewrite IH.
Qed.

Lemma length_rows_of saleId items : forall first,
  length (rows_of saleId first items) = length items.
Proof. induction items as [|item rest IH]; intros first; simpl; [done|]. by rewrite IH. Qed.

Lemma filter_sale_id_other sale_id other (rows : list (SaleItem.t A)) :
  other <> sale_id ->
  Forall (fun r => SaleItem.sale_id r = sale_id) rows ->
  filter (fun r => SaleItem.sale_id r = other) rows = [].
Proof.
  intros Hne. induction 1 as [|r rows Hr _ IH]; [done|].
  rewrite filter_cons. rewrite decide_False by congruence. done.
Qed.

(** The rows of the other sales are not touched by a commit. *)
Lemma items_of_other_sale db cart (total profit : A) other :
  other <> sales_seq db + 1 ->
  items_of_sale (written db cart total profit) other = items_of_sale db other.
Proof.
  intros Hne. unfold items_of_sale. rewrite written_sale_items, filter_app.
  rewrite (filter_sale_id_other (sales_seq db + 1) other (rows_of _ _ _));
    [by rewrite app_nil_r|done|].
  apply rows_of_sale_id.
Qed.

Lemma filter_header_none id (rows : list (Sale.t A)) :
  Forall (fun s => Sale.id s < id) rows ->
  filter (fun s => Sale.id s = id) rows = [].
Proof.
  induction 1 as [|s rows Hs _ IH]; [done|].
  rewrite filter_cons. rewrite decide_False by lia. done.
Qed.

Lemma get_sale_committed db cart (total profit : A) :
  ledger_wf db ->
  get_sale (written db cart total profit) (sales_seq db + 1) =
  SaleFound (Sale.mk (sales_seq db + 1) total profit)
            (rows_of (sales_seq db + 1) (sale_items_seq db + 1) cart).
Proof.
  intros Hwf. unfold get_sale.
  rewrite written_sales, filter_app, items_of_committed_sale by done.
  rewrite filter_header_none.
  - rewrite filter_cons, decide_True by done. done.
  - destruct Hwf as [Hs _]. eapply Forall_impl; [exact Hs|]. simpl. intros; lia.
Qed.

Lemma get_sale_other db cart (total profit : A) other :
  other <> sales_seq db + 1 ->
  get_sale (written db cart total profit) other = get_sale db other.
Proof.
  intros Hne. unfold get_sale.
  rewrite written_sales, filter_app, items_of_other_sale by done.
  rewrite (filter_cons _ (Sale.mk _ _ _)), decide_False by (simpl; congruence).
  rewrite filter_nil. by rewrite app_nil_r.
Qed.

(** X1: a sale that was completed can be read back under the key of the
    response: the header with the total and the profit of the response,
    and one row per line of the cart, in the order of the cart, with the
    product, the name, the quantity, the price and the cost of the line.
    What is read under any other key is what was read before. *)
Theorem sale_read_back db (items : option (list (Item.t A))) db' id total profit :
  ledger_wf db ->
  post_sales db items = (db', Completed id total profit) ->
  (exists cart rows,
      items = Some cart /\
      get_sale db' id = SaleFound (Sale.mk id total profit) rows /\
      Forall (fun r => SaleItem.sale_id r = id) rows /\
      (fun r => (SaleItem.product_id r, SaleItem.product_name r,
                 SaleItem.quantity r, SaleItem.price r, SaleItem.cost r)) <$> rows =
      (fun item => (Item.product_id item, Item.product_name item,
                    Item.quantity item, Item.price item, Item.cost item)) <$> cart) /\
  (forall other, other <> id -> get_sale db' other = get_sale db other).
Proof.
  intros Hwf (cart & -> & _ & _ & -> & -> & _)%post_sales_completed.
  split.
  - exists cart, (rows_of (sales_seq db + 1) (sale_items_seq db + 1) cart).
    split_and!; [done | | apply rows_of_sale_id | apply rows_of_fields].
    by apply get_sale_committed.
  - intros other Hne. by apply get_sale_other.
Qed.

(** X2: in the list of sales, the sale that was just completed counts as
    many items as its cart has lines, and the counts of the other sales
    are as before. *)
Theorem sale_item_count db (items : option (list (Item.t A))) db' id total profit :
  ledger_wf db ->
  post_sales db items = (db', Completed id total profit) ->
  (exists cart, items = Some cart /\ item_count db' id = length cart) /\
  (forall other, other <> id -> item_count db' other = item_count db other).
Proof.
  intros Hwf (cart & -> & _ & _ & -> & -> & _)%post_sales_completed.
  unfold item_count. split.
  - exists cart. split; [done|].
    by rewrite items_of_committed_sale, length_rows_of.
  - intros other Hne. by rewrite items_of_other_sale.
Qed.

(** ** Units in stock and units sold *)

Lemma units_sold_rows product_id (old new : list (SaleItem.t A)) :
  foldr (fun r acc =>
           if decide (SaleItem.product_id r = product_id)
           then SaleItem.quantity r + acc else acc) 0 (old ++ new) =
  foldr (fun r acc =>
           if decide (SaleItem.product_id r = product_id)
           then SaleItem.quantity r + acc else acc) 0 old +
  foldr (fun r acc =>
           if decide (SaleItem.product_id r = product_id)
           then SaleItem.quantity r + acc else acc) 0 new.
Proof.
  induction old as [|r old IH]; simpl; [lia|].
  destruct (decide (SaleItem.product_id r = product_id)); lia.
Qed.

Lemma units_sold_rows_of product_id saleId items : forall first,
  foldr (fun r acc =>
           if decide (SaleItem.product_id r = product_id)
           then SaleItem.quantity r + acc else acc) 0 (rows_of saleId first items) =
  requested product_id items.
Proof.
  induction items as [|item rest IH]; intros first; [done|].
  cbn [rows_of foldr requested SaleItem.product_id SaleItem.quantity].
  rewrite IH. by destruct (decide (Item.product_id item = product_id)).
Qed.

(** X3: whatever a sale request is answered, a product of the catalogue
    stays in the catalogue, and its stock plus the units of it in
    [sale_items] is what it was before the request, as long as the stock
    and the quantities asked of the product stay within the integers that
    binary64 holds exactly. *)
Theorem stock_and_sold_conserved db (items : option (list (Item.t A))) product_id p :
  products db !! product_id = Some p ->
  (forall cart, items = Some cart -> exact_range product_id cart p) ->
  exists p',
    products (post_sales db items).1 !! product_id = Some p' /\
    Product.stock p' + units_sold (post_sales db items).1 product_id =
    Product.stock p + units_sold db product_id.
Proof.
  intros Hp Hrange.
  destruct (post_sales db items) as [db' [id total profit|st e]] eqn:E.
  - apply post_sales_completed in E as (cart & -> & _ & _ & -> & _).
    exists (sold product_id cart p). cbn [fst]. split.
    + by rewrite written_products, Hp.
    + unfold units_sold. rewrite written_sale_items, units_sold_rows.
      rewrite units_sold_rows_of, sold_stock_exact by by apply Hrange. lia.
  - apply post_sales_failed_store in E as ->. by exists p.
Qed.

(** ** The low-stock alert *)

#[local] Instance by_stock_total : Total (by_stock (A:=A)).
Proof. intros r1 r2. unfold by_stock. lia. Qed.

#[local] Instance by_stock_trans : Transitive (by_stock (A:=A)).
Proof. intros r1 r2 r3. unfold by_stock. lia. Qed.

(** The alert list holds the products at or below their minimum. *)
Lemma elem_of_low_stock db id p :
  (id, p) ∈ low_stock db <->
  products db !! id = Some p /\ Product.stock p <= Product.min_stock p.
Proof.
  unfold low_stock. rewrite merge_sort_Permutation, list_elem_of_filter.
  rewrite elem_of_map_to_list. unfold is_low. simpl. tauto.
Qed.

(** X4: the alert list holds exactly the products whose stock is at or
    below their minimum, each once, in ascending order of stock, and the
    low-stock count of the statistics is its length. *)
Theorem low_stock_alerts db :
  (forall id p,
      (id, p) ∈ low_stock db <->
      products db !! id = Some p /\ Product.stock p <= Product.min_stock p) /\
  NoDup (low_stock db).*1 /\
  StronglySorted Z.le ((fun row => Product.stock row.2) <$> low_stock db) /\
  stats_low_stock_count db = length (low_stock db).
Proof.
  split_and!; [apply elem_of_low_stock | unfold low_stock .. ].
  - rewrite merge_sort_Permutation.
    eapply NoDup_fmap_fst.
    + intros id p1 p2 [_ H1]%list_elem_of_filter [_ H2]%list_elem_of_filter.
      apply elem_of_map_to_list in H1, H2. congruence.
    + apply NoDup_filter, NoDup_map_to_list.
  - pose proof (StronglySorted_merge_sort by_stock
                  (filter is_low (map_to_list (products db)))) as Hs.
    induction Hs as [|row rows _ IH Hall]; [constructor|].
    rewrite fmap_cons. constructor; [done|].
    rewrite Forall_fmap. eapply Forall_impl; [exact Hall|]. done.
  - unfold stats_low_stock_count. by rewrite merge_sort_Permutation.
Qed.

(** X5: after a completed sale a product is on the alert list exactly
    when its stock before the sale, less the quantity the cart asked of
    it, is at or below its minimum; it is listed with that stock and with
    its other columns as before. This is for stocks and quantities within
    the integers that binary64 holds exactly. *)
Theorem low_stock_after_sale db cart db' id total profit :
  post_sales db (Some cart) = (db', Completed id total profit) ->
  (forall product_id p,
      products db !! product_id = Some p -> exact_range product_id cart p) ->
  forall product_id p',
    (product_id, p') ∈ low_stock db' <->
    exists p,
      products db !! product_id = Some p /\
      p' = with_stock (Product.stock p - requested product_id cart) p /\
      Product.stock p - requested product_id cart <= Product.min_stock p.
Proof.
  intros (c & [= <-] & _ & _ & -> & _)%post_sales_completed Hrange pid p'.
  rewrite elem_of_low_stock, written_products.
  assert (Hrow : forall p, products db !! pid = Some p ->
            sold pid cart p = with_stock (Product.stock p - requested pid cart) p).
  { intros p Hp. pose proof (sold_stock_exact pid cart p (Hrange pid p Hp)) as Hst.
    destruct (sold_columns pid cart p) as (H1 & H2 & H3 & H4 & H5 & H6).
    unfold with_stock. rewrite <- Hst, <- H1, <- H2, <- H3, <- H4, <- H5, <- H6.
    by destruct (sold pid cart p). }
  split.
  - intros [Hp Hlow]. destruct (products db !! pid) as [p|] eqn:E; [|done].
    injection Hp as <-. exists p. split; [done|].
    rewrite (Hrow p eq_refl) in Hlow |- *. done.
  - intros (p & Hp & -> & Hlow). rewrite Hp. cbn [fmap option_fmap option_map].
    by rewrite (Hrow p Hp).
Qed.

(** ** The earlier variant of the sale endpoint *)

(** X6: the earlier variant refuses no cart with at least one line for
    what it asks: when the total and the profit of the cart are numbers,
    the sale is completed, every product of the catalogue stays, with its
    stock lowered by the quantity asked of it, also below zero (for stocks
    and quantities within the integers that binary64 holds exactly), and a
    line for a product that is not in the catalogue is stored as a row all
    the same. When the total or the profit is not a number, the request is
    answered with status 500 and nothing is written. *)
Theorem unchecked_variant_sells_anything db cart :
  cart <> [] ->
  (recordable_unchecked cart ->
   exists db',
     post_sales_unchecked db (Some cart) =
       (db', Completed (sales_seq db + 1) (lines_total cart) (lines_profit cart)) /\
     (forall product_id,
         is_Some (products db' !! product_id) <->
         is_Some (products db !! product_id)) /\
     (forall product_id p,
         products db !! product_id = Some p ->
         exact_range product_id cart p ->
         products db' !! product_id =
           Some (with_stock (Product.stock p - requested product_id cart) p)) /\
     sales db' =
       sales db ++ [Sale.mk (sales_seq db + 1) (lines_total cart) (lines_profit cart)] /\
     sale_items db' =
       sale_items db ++ rows_of (sales_seq db + 1) (sale_items_seq db + 1) cart) /\
  (~ recordable_unchecked cart ->
   post_sales_unchecked db (Some cart) = (db, Failed 500 StorageError)).
Proof.
  intros Hne. split; [|by apply post_sales_unchecked_refused].
  intros Hr. eexists. split; [by apply post_sales_unchecked_recorded|].
  split_and!.
  - intros pid. rewrite written_products. by rewrite fmap_is_Some.
  - intros pid p Hp Hrange. rewrite written_products, Hp.
    cbn [fmap option_fmap option_map]. f_equal.
    pose proof (sold_stock_exact pid cart p Hrange) as Hst.
    destruct (sold_columns pid cart p) as (H1 & H2 & H3 & H4 & H5 & H6).
    unfold with_stock. rewrite <- Hst, <- H1, <- H2, <- H3, <- H4, <- H5, <- H6.
    by destruct (sold pid cart p).
  - apply written_sales.
  - apply written_sale_items.
Qed.

(** X7: in the earlier variant the stored profit is the sum of
    (price − cost) × quantity over the stored rows of the sale, and the
    stored total the sum of price × quantity, in whatever arithmetic:
    there the profit is summed line by line. *)
Theorem unchecked_variant_reconciles db cart db' id total profit :
  ledger_wf db ->
  post_sales_unchecked db (Some cart) = (db', Completed id total profit) ->
  Sale.mk id total profit ∈ sales db' /\
  total = rows_total (items_of_sale db' id) /\
  profit = rows_profit (items_of_sale db' id).
Proof.
  intros Hwf (_ & _ & -> & -> & -> & ->)%post_sales_unchecked_completed.
  rewrite items_of_committed_sale by done. split_and!.
  - rewrite written_sales. apply elem_of_app. right. by left.
  - unfold rows_total. by rewrite rows_of_amounts.
  - unfold rows_profit. by rewrite rows_of_margins.
Qed.

(** X8: on a cart that both variants complete, the two write the same
    products table and the same rows and answer with the same key and the
    same total; they differ in the profit only, which the earlier one sums
    line by line and the later one takes as total less total cost. *)
Theorem variants_write_alike db cart db1 db2 id1 id2 total1 total2 profit1 profit2 :
  post_sales db (Some cart) = (db1, Completed id1 total1 profit1) ->
  post_sales_unchecked db (Some cart) = (db2, Completed id2 total2 profit2) ->
  products db1 = products db2 /\
  sale_items db1 = sale_items db2 /\
  id1 = id2 /\ total1 = total2 /\
  profit1 = minus (lines_total cart) (lines_cost cart) /\
  profit2 = lines_profit cart.
Proof.
  intros (c & [= <-] & _ & _ & -> & -> & -> & -> & _)%post_sales_completed.
  intros (_ & _ & -> & -> & -> & ->)%post_sales_unchecked_completed.
  split_and!; try done.
  - apply map_eq. intros pid. by rewrite !written_products.
  - by rewrite !written_sale_items.
Qed.

End More.

(** ** The catalogue *)

Section MoreCatalogue.
Context {A : Type} {num : Number A}.
Implicit Types (db : database A) (body : ProductBody.t A) (p : Product.t A).

(** Finding the case of a disjunction that holds. *)
Ltac pick :=
  solve [ done | left; pick | right; pick
        | eexists; split; [reflexivity | done] ].

Lemma truthy_string_Some s v :
  truthy_string s = Some v <-> s = Value v /\ v <> EmptyString.
Proof.
  unfold truthy_string. destruct s as [| |s]; [by split; [|intros [? _]].. |].
  destruct (decide (s = EmptyString)) as [->|Hne]; split.
  - done.
  - by intros [[= <-] ?].
  - by intros [= <-].
  - by intros [[= <-] _].
Qed.

Lemma truthy_string_None s : truthy_string s = None <-> blank s.
Proof.
  unfold truthy_string, blank. destruct s as [| |s].
  - split; [by left | done].
  - split; [by right; left | done].
  - destruct (decide (s = EmptyString)) as [->|Hne].
    + split; [by right; right | done].
    + split; [done | by intros [?|[?|[= ?]]]].
Qed.

Lemma truthy_number_Some (x : field A) v :
  truthy_number x = Some v <-> x = Value v /\ falsy v = false.
Proof.
  unfold truthy_number. destruct x as [| |x]; [by split; [|intros [? _]].. |].
  destruct (falsy x) eqn:E; split.
  - done.
  - intros [[= <-] ?]. congruence.
  - by intros [= <-].
  - by intros [[= <-] _].
Qed.

Lemma truthy_number_None (x : field A) : truthy_number x = None <-> worthless x.
Proof.
  unfold truthy_number, worthless. destruct x as [| |x].
  - split; [by left | done].
  - split; [by right; left | done].
  - destruct (falsy x) eqn:E.
    + split; [right; right; by exists x | done].
    + split; [done | intros [?|[?|(c & [= <-] & ?)]]; congruence].
Qed.

(** A number that is truthy is not NaN. *)
Lemma truthy_not_nan (v : A) : falsy v = false -> nan v = false.
Proof. unfold falsy. by intros [_ ?]%orb_false_iff. Qed.

(** What the guard of [POST /api/products] lets through. *)
Lemma complete_body body :
  ~ incomplete body <->
  exists name category cost price,
    truthy_string (ProductBody.name body) = Some name /\
    truthy_string (ProductBody.category body) = Some category /\
    truthy_number (ProductBody.cost body) = Some cost /\
    truthy_number (ProductBody.price body) = Some price /\
    ProductBody.stock body <> Undefined.
Proof.
  unfold incomplete.
  rewrite <- !truthy_string_None, <- !truthy_number_None. split.
  - intros H.
    destruct (truthy_string (ProductBody.name body)) as [n|]; [|tauto].
    destruct (truthy_string (ProductBody.category body)) as [c|]; [|tauto].
    destruct (truthy_number (ProductBody.cost body)) as [co|]; [|tauto].
    destruct (truthy_number (ProductBody.price body)) as [pr|]; [|tauto].
    exists n, c, co, pr. split_and!; try done. tauto.
  - intros (n & c & co & pr & -> & -> & -> & -> & Hst). intros [?|[?|[?|[?|?]]]]; done.
Qed.

(** The row that a body becomes. *)
Lemma add_product_added db body db' id :
  add_product db body = (db', ProductAdded id) ->
  exists name category cost price stock,
    ProductBody.name body = Value name /\ name <> EmptyString /\
    ProductBody.category body = Value category /\ category <> EmptyString /\
    ProductBody.cost body = Value cost /\ falsy cost = false /\
    ProductBody.price body = Value price /\ falsy price = false /\
    ProductBody.stock body = Value stock /\
    id = products_seq db + 1 /\
    db' = mkDatabase
            (with_products (tables db)
               (<[id := Product.mk name category
                          (truthy_string (ProductBody.barcode body))
                          cost price stock
                          (min_stock_or_5 (ProductBody.min_stock body))]>
                  (products (tables db))))
            id.
Proof.
  unfold add_product, insert_product, bound_number.
  destruct (truthy_string (ProductBody.name body)) as [name|] eqn:Hn; [|done].
  destruct (truthy_string (ProductBody.category body)) as [category|] eqn:Hc;
    [|done].
  destruct (truthy_number (ProductBody.cost body)) as [cost|] eqn:Hco; [|done].
  destruct (truthy_number (ProductBody.price body)) as [price|] eqn:Hpr; [|done].
  apply truthy_string_Some in Hn as [Hn Hn'], Hc as [Hc Hc'].
  apply truthy_number_Some in Hco as [Hco Hco'], Hpr as [Hpr Hpr'].
  rewrite Hco, Hpr, (truthy_not_nan _ Hco'), (truthy_not_nan _ Hpr').
  destruct (ProductBody.stock body) as [| |stock]; [done | done|].
  cbn. intros [= <- <-].
  by exists name, category, cost, price, stock.
Qed.

(** [POST /api/products], case by case. *)
Lemma add_product_cases db body :
  (incomplete body /\
   add_product db body = (db, ProductRefused 400 MissingFields)) \/
  (~ incomplete body /\ ProductBody.stock body = Null /\
   add_product db body = (db, ProductRefused 500 ConstraintFailed)) \/
  (~ incomplete body /\ ProductBody.stock body <> Null /\
   exists name category cost price stock,
     ProductBody.stock body = Value stock /\
     add_product db body =
       (mkDatabase
          (with_products (tables db)
             (<[products_seq db + 1 :=
                  Product.mk name category
                             (truthy_string (ProductBody.barcode body))
                             cost price stock
                             (min_stock_or_5 (ProductBody.min_stock body))]>
                (products (tables db))))
          (products_seq db + 1),
        ProductAdded (products_seq db + 1))).
Proof.
  unfold incomplete.
  rewrite <- !truthy_string_None, <- !truthy_number_None.
  unfold add_product, insert_product, bound_number.
  destruct (truthy_string (ProductBody.name body)) as [n|];
    [|left; split; [by left | done]].
  destruct (truthy_string (ProductBody.category body)) as [c|];
    [|left; split; [by right; left | done]].
  destruct (truthy_number (ProductBody.cost body)) as [co|] eqn:Hco;
    [|left; split; [by right; right; left | done]].
  destruct (truthy_number (ProductBody.price body)) as [pr|] eqn:Hpr;
    [|left; split; [by right; right; right; left | done]].
  apply truthy_number_Some in Hco as [-> Hco], Hpr as [-> Hpr].
  rewrite (truthy_not_nan _ Hco), (truthy_not_nan _ Hpr).
  destruct (ProductBody.stock body) as [| |st]; cbn.
  - left. split; [by do 4 right | done].
  - right; left. split_and!; [intros [?|[?|[?|[?|?]]]]; done | done | done].
  - right; right.
    split_and!; [intros [?|[?|[?|[?|?]]]]; done | done |].
    by exists n, c, co, pr, st.
Qed.

(** X10: [POST /api/products], for a body whose fields are left out,
    [null] or of the type of their column. The body is turned down with
    status 400, without a write, when the name or the category is left
    out, [null] or empty, when the cost or the price is left out, [null],
    zero or NaN, or when the stock is left out. Any other body with
    [null] for its stock is answered with status 500, without a write.
    Every other body is added under the next key. A stock of zero, a
    barcode or a minimum that is left out or [null] are no reason to
    refuse. *)
Theorem product_guard db body :
  (incomplete body ->
   add_product db body = (db, ProductRefused 400 MissingFields)) /\
  (~ incomplete body -> ProductBody.stock body = Null ->
   add_product db body = (db, ProductRefused 500 ConstraintFailed)) /\
  (~ incomplete body -> ProductBody.stock body <> Null ->
   exists db', add_product db body = (db', ProductAdded (products_seq db + 1))).
Proof.
  destruct (add_product_cases db body)
    as [[Hi H] | [(Hi & Hst & H) | (Hi & Hst & H)]]; split_and!; try done.
  intros _ _. destruct H as (n & c & co & pr & st & _ & H). rewrite H. by eexists.
Qed.

(** X11: a product that was added can be read back under the key of the
    response, which no product had before, with the name, category, cost,
    price and stock of the body; with the barcode of the body, or none
    when that is left out, [null] or empty; and with the minimum of the
    body, or 5 when that is left out, [null] or zero. The other products
    and the ledger are as before. *)
Theorem product_added_read_back db body db' id :
  catalogue_wf db ->
  add_product db body = (db', ProductAdded id) ->
  products (tables db) !! id = None /\
  (exists p,
      get_product db' id = ProductFound id p /\
      ProductBody.name body = Value (Product.name p) /\
      ProductBody.category body = Value (Product.category p) /\
      ProductBody.cost body = Value (Product.cost p) /\
      ProductBody.price body = Value (Product.price p) /\
      ProductBody.stock body = Value (Product.stock p) /\
      Product.barcode p =
        match ProductBody.barcode body with
        | Value b => if decide (b = EmptyString) then None else Some b
        | _ => None
        end /\
      Product.min_stock p =
        match ProductBody.min_stock body with
        | Value m => if decide (m = 0) then 5 else m
        | _ => 5
        end) /\
  (forall other, other <> id -> get_product db' other = get_product db other) /\
  sales (tables db') = sales (tables db) /\
  sale_items (tables db') = sale_items (tables db).
Proof.
  intros Hwf (n & c & co & pr & st & Hn & _ & Hc & _ & Hco & _ & Hpr & _ & Hst
              & -> & ->)%add_product_added.
  split_and!.
  - destruct (products (tables db) !! (products_seq db + 1)) as [p|] eqn:E; [|done].
    apply Hwf in E. lia.
  - eexists. unfold get_product. cbn [tables products with_products].
    rewrite lookup_insert_eq. split_and!; try done.
    cbn [Product.min_stock]. unfold min_stock_or_5.
    destruct (ProductBody.min_stock body) as [| |m]; [done | done|].
    by destruct (Z.eqb_spec m 0), (decide (m = 0)).
  - intros other Hne. unfold get_product. cbn [tables products with_products].
    by rewrite lookup_insert_ne.
  - done.
  - done.
Qed.

(** What the guard of the earlier variant lets through. *)
Lemma add_product_earlier_cases db body :
  (incomplete_earlier body /\
   add_product_earlier db body = (db, ProductRefused 400 MissingFields)) \/
  (~ incomplete_earlier body /\
   (unstorable (ProductBody.cost body) \/ unstorable (ProductBody.price body) \/
    ProductBody.stock body = Null) /\
   add_product_earlier db body = (db, ProductRefused 500 ConstraintFailed)) \/
  (~ incomplete_earlier body /\
   ~ (unstorable (ProductBody.cost body) \/ unstorable (ProductBody.price body) \/
      ProductBody.stock body = Null) /\
   exists name category cost price stock,
     truthy_string (ProductBody.name body) = Some name /\
     truthy_string (ProductBody.category body) = Some category /\
     ProductBody.cost body = Value cost /\
     ProductBody.price body = Value price /\
     ProductBody.stock body = Value stock /\
     add_product_earlier db body =
       (mkDatabase
          (with_products (tables db)
             (<[products_seq db + 1 :=
                  Product.mk name category
                             (truthy_string (ProductBody.barcode body))
                             cost price stock
                             (min_stock_or_5 (ProductBody.min_stock body))]>
                (products (tables db))))
          (products_seq db + 1),
        ProductAdded (products_seq db + 1))).
Proof.
  unfold incomplete_earlier, unstorable, add_product_earlier, insert_product,
    bound_number.
  rewrite <- !truthy_string_None.
  destruct (truthy_string (ProductBody.name body)) as [n|],
           (truthy_string (ProductBody.category body)) as [c|],
           (ProductBody.cost body) as [| |co],
           (ProductBody.price body) as [| |pr],
           (ProductBody.stock body) as [| |st]; cbn;
    try (left; split; [pick | done]);
    try (right; left; split_and!;
         [intros [?|[?|[?|[?|?]]]]; done | pick | by repeat case_match]).
  destruct (nan co) eqn:Eco; [|destruct (nan pr) eqn:Epr].
  - right; left. split_and!; [intros [?|[?|[?|[?|?]]]]; done | pick | done].
  - right; left. split_and!; [intros [?|[?|[?|[?|?]]]]; done | pick | done].
  - right; right. split_and!.
    + intros [?|[?|[?|[?|?]]]]; done.
    + intros [[?|(x & [= <-] & ?)]|[[?|(x & [= <-] & ?)]|?]]; congruence.
    + by exists n, c, co, pr, st.
Qed.

(** X12: the earlier variant of [POST /api/products] answers as the
    later one does wherever the later one does not answer with status
    400. Where the two differ, the later one turns the body down with
    status 400 for a cost or a price that is [null], zero or NaN, and the
    earlier one lets it pass its guard: it is then answered with status
    500, without a write, when the cost or the price is [null] or NaN or
    the stock is [null], and the product is added under the next key
    otherwise, that is, with a cost or a price of zero. *)
Theorem earlier_guard_accepts_zero db body :
  ((add_product db body).2 <> ProductRefused 400 MissingFields ->
   add_product_earlier db body = add_product db body) /\
  (add_product_earlier db body <> add_product db body ->
   add_product db body = (db, ProductRefused 400 MissingFields) /\
   ~ incomplete_earlier body /\
   (worthless (ProductBody.cost body) \/ worthless (ProductBody.price body)) /\
   (unstorable (ProductBody.cost body) \/ unstorable (ProductBody.price body) \/
    ProductBody.stock body = Null ->
    add_product_earlier db body = (db, ProductRefused 500 ConstraintFailed)) /\
   (~ (unstorable (ProductBody.cost body) \/ unstorable (ProductBody.price body) \/
       ProductBody.stock body = Null) ->
    exists db',
      add_product_earlier db body = (db', ProductAdded (products_seq db + 1)))).
Proof.
  assert (Hsame :
    (add_product db body).2 <> ProductRefused 400 MissingFields ->
    add_product_earlier db body = add_product db body).
  { unfold add_product, add_product_earlier, truthy_number.
    destruct (truthy_string (ProductBody.name body)) as [n|]; [|done].
    destruct (truthy_string (ProductBody.category body)) as [c|]; [|done].
    destruct (ProductBody.cost body) as [| |co]; [done | done|].
    destruct (falsy co); [done|].
    destruct (ProductBody.price body) as [| |pr]; [done | done|].
    destruct (falsy pr); [done|].
    by destruct (ProductBody.stock body). }
  split; [exact Hsame|]. intros Hdiff.
  assert (H400 : incomplete body /\
                 add_product db body = (db, ProductRefused 400 MissingFields)).
  { destruct (add_product_cases db body)
      as [H | [(_ & _ & H) | (_ & _ & n & c & co & pr & st & _ & H)]]; [done | |].
    - exfalso. apply Hdiff, Hsame. by rewrite H.
    - exfalso. apply Hdiff, Hsame. by rewrite H. }
  destruct H400 as [Hinc H400].
  destruct (add_product_earlier_cases db body)
    as [[He H] | [(He & Hbad & H) | (He & Hgood & n & c & co & pr & st & _ & _ & _ & _ & _ & H)]].
  - exfalso. apply Hdiff. by rewrite H, H400.
  - split_and!; [done | done | | done | done].
    unfold incomplete in Hinc. unfold incomplete_earlier in He. tauto.
  - split_and!; [done | done | | done | intros _; by eexists].
    unfold incomplete in Hinc. unfold incomplete_earlier in He. tauto.
Qed.

(** ** Updating and deleting *)

Lemma coalesce_row_twice body p :
  coalesce_row body (coalesce_row body p) = coalesce_row body p.
Proof.
  unfold coalesce_row. destruct body as [n c b co pr st ms]; simpl.
  f_equal;
    [by destruct n | by destruct c | by destruct b
    | by destruct (bound_number co) | by destruct (bound_number pr)
    | by destruct st | by destruct ms].
Qed.

(** A number field sets its column unless it is left out, [null] or NaN. *)
Lemma coalesce_number (f : field A) (old : A) :
  set_or_kept_number f old (coalesce (bound_number f) old).
Proof.
  unfold set_or_kept_number, unstorable, bound_number. split.
  - intros x -> Hx. by rewrite Hx.
  - intros [[-> | (x & -> & Hx)] | ->]; [done | by rewrite Hx | done].
Qed.

Lemma coalesce_row_no_fields p : coalesce_row no_fields p = p.
Proof. by destruct p. Qed.

(** X13: [PUT /api/products/:id] on a key that is not in the catalogue
    answers 404 and writes nothing. On a product of the catalogue it
    answers as updated; each column of the product then holds the value
    of its field in the body, or what it held before when the field is
    left out or [null] or, for the cost and the price, NaN; the other
    products, the ledger and the key counter are as before; repeating the
    request changes nothing more; and with a body without fields the
    product is as before. *)
Theorem product_update db id body :
  (products (tables db) !! id = None ->
   update_product db id body = (db, ProductRefused 404 ProductMissing)) /\
  (forall p,
      products (tables db) !! id = Some p ->
      (update_product db id body).2 = ProductUpdated /\
      (exists p',
          get_product (update_product db id body).1 id = ProductFound id p' /\
          set_or_kept (ProductBody.name body) (Product.name p) (Product.name p') /\
          set_or_kept (ProductBody.category body) (Product.category p)
                      (Product.category p') /\
          set_or_kept_number (ProductBody.cost body) (Product.cost p)
                             (Product.cost p') /\
          set_or_kept_number (ProductBody.price body) (Product.price p)
                             (Product.price p') /\
          set_or_kept (ProductBody.stock body) (Product.stock p)
                      (Product.stock p') /\
          set_or_kept (ProductBody.min_stock body) (Product.min_stock p)
                      (Product.min_stock p') /\
          match ProductBody.barcode body with
          | Value b => Product.barcode p' = Some b
          | _ => Product.barcode p' = Product.barcode p
          end) /\
      (forall other,
          other <> id ->
          get_product (update_product db id body).1 other =
            get_product db other) /\
      sales (tables (update_product db id body).1) = sales (tables db) /\
      sale_items (tables (update_product db id body).1) = sale_items (tables db) /\
      products_seq (update_product db id body).1 = products_seq db /\
      update_product (update_product db id body).1 id body =
        update_product db id body /\
      get_product (update_product db id no_fields).1 id = ProductFound id p).
Proof.
  split.
  - intros Hnone. unfold update_product. by rewrite Hnone.
  - intros p Hp. unfold update_product at 1 2 3 4 5 6 8 9. rewrite Hp.
    cbn [fst snd tables products products_seq with_products sales sale_items].
    unfold get_product. cbn [tables products with_products].
    split_and!; try done.
    + exists (coalesce_row body p). rewrite lookup_alter_eq, Hp.
      split; [done|]. unfold coalesce_row, set_or_kept. simpl.
      split_and!;
        [by destruct (ProductBody.name body)
        | by destruct (ProductBody.category body)
        | apply coalesce_number | apply coalesce_number
        | by destruct (ProductBody.stock body)
        | by destruct (ProductBody.min_stock body)
        | by destruct (ProductBody.barcode body)].
    + intros other Hne. by rewrite lookup_alter_ne.
    + unfold update_product. cbn [tables products with_products].
      rewrite lookup_alter_eq, Hp. simpl. f_equal. f_equal.
      unfold with_products. cbn [sales sale_items sales_seq sale_items_seq].
      f_equal. apply map_eq. intros k. rewrite !lookup_alter.
      destruct (decide (id = k)) as [->|]; [|done].
      rewrite Hp, decide_True by done.
      change (Some (coalesce_row body (coalesce_row body p)) =
              Some (coalesce_row body p)).
      by rewrite coalesce_row_twice.
    + unfold update_product. rewrite Hp.
      cbn [fst tables products with_products].
      rewrite lookup_alter_eq, Hp.
      change (ProductFound id (coalesce_row no_fields p) = ProductFound id p).
      by rewrite coalesce_row_no_fields.
Qed.

(** X14: [DELETE /api/products/:id] on a key that is not in the catalogue
    answers 404 and writes nothing. On a product of the catalogue it
    removes the product and nothing else: reading it answers 404, the
    other products and the ledger are as before, the key counter stays,
    and a sale with a line for the product is now refused. *)
Theorem product_delete db id :
  (products (tables db) !! id = None ->
   delete_product db id = (db, ProductRefused 404 ProductMissing)) /\
  (is_Some (products (tables db) !! id) ->
   (delete_product db id).2 = ProductDeleted /\
   get_product (delete_product db id).1 id = ProductRefused 404 ProductMissing /\
   (forall other,
       other <> id ->
       get_product (delete_product db id).1 other = get_product db other) /\
   sales (tables (delete_product db id).1) = sales (tables db) /\
   sale_items (tables (delete_product db id).1) = sale_items (tables db) /\
   products_seq (delete_product db id).1 = products_seq db /\
   (forall cart item,
       item ∈ cart -> Item.product_id item = id ->
       exists e,
         post_sales (tables (delete_product db id).1) (Some cart) =
           (tables (delete_product db id).1, Failed 400 e))).
Proof.
  split.
  - intros Hnone. unfold delete_product. by rewrite Hnone.
  - intros [p Hp]. unfold delete_product. rewrite Hp.
    cbn [fst snd tables products products_seq with_products sales sale_items].
    unfold get_product. cbn [tables products with_products].
    split_and!; try done.
    + by rewrite lookup_delete_eq.
    + intros other Hne. by rewrite lookup_delete_ne.
    + intros cart item Hin Hid.
      set (t := with_products (tables db) (delete id (products (tables db)))).
      destruct (validate t cart) as [e|] eqn:Hv.
      * exists e. by apply post_sales_rejected.
      * exfalso. rewrite validate_None, Forall_forall in Hv.
        apply Hv, check_None in Hin as (st & Hst & _).
        unfold select_stock, t in Hst. cbn [products with_products] in Hst.
        by rewrite Hid, lookup_delete_eq in Hst.
Qed.

End MoreCatalogue.

(** ** Requests one after the other *)

Section MoreServer.
Context {A : Type} {num : Number A}.
Implicit Types (db : database A) (body : ProductBody.t A) (p : Product.t A).
Implicit Types (req : request A) (reqs : list (request A)).

Lemma serve_all_cons db req reqs :
  serve_all db (req :: reqs) =
  ((serve_all (serve db req).1 reqs).1,
   (serve db req).2 :: (serve_all (serve db req).1 reqs).2).
Proof.
  cbn [serve_all]. destruct (serve db req) as [db1 r]. cbn [fst snd].
  by destruct (serve_all db1 reqs) as [db2 rs].
Qed.

(** What one request does to the database, case by case: nothing, a
    product more, a product changed, a product less, or a sale. *)
Lemma serve_cases db req :
  ((serve db req).1 = db /\
   added_ids [(serve db req).2] = [] /\
   completed [(serve db req).2] = [] /\
   deleted_count [(serve db req).2] = 0%nat) \/
  (exists row,
      (serve db req).1 =
        mkDatabase (with_products (tables db)
                      (<[products_seq db + 1 := row]> (products (tables db))))
                   (products_seq db + 1) /\
      (serve db req).2 = ProductReply (ProductAdded (products_seq db + 1))) \/
  (exists id p body,
      products (tables db) !! id = Some p /\
      (serve db req).1 =
        mkDatabase (with_products (tables db)
                      (alter (coalesce_row body) id (products (tables db))))
                   (products_seq db) /\
      (serve db req).2 = ProductReply ProductUpdated) \/
  (exists id p,
      products (tables db) !! id = Some p /\
      (serve db req).1 =
        mkDatabase (with_products (tables db) (delete id (products (tables db))))
                   (products_seq db) /\
      (serve db req).2 = ProductReply ProductDeleted) \/
  (exists cart,
      cart <> [] /\ validate (tables db) cart = None /\
      (serve db req).1 =
        mkDatabase (written (tables db) cart (lines_total cart) (lines_net cart))
                   (products_seq db) /\
      (serve db req).2 =
        SaleReply (Completed (sales_seq (tables db) + 1)
                             (lines_total cart) (lines_net cart))).
Proof.
  destruct req as [body | id body | id | items]; cbn [serve].
  - destruct (add_product_cases db body)
      as [[_ ->] | [(_ & _ & ->) | (_ & _ & n & c & co & pr & st & _ & ->)]];
      [by left | by left |].
    right; left. by eexists.
  - unfold update_product.
    destruct (products (tables db) !! id) as [p|] eqn:Hp; [|by left].
    right; right; left. by exists id, p, body.
  - unfold delete_product.
    destruct (products (tables db) !! id) as [p|] eqn:Hp; [|by left].
    right; right; right; left. by exists id, p.
  - destruct (post_sales (tables db) items) as [t' [sid total profit|st e]] eqn:E.
    + apply post_sales_completed
        in E as (cart & -> & Hne & Hv & -> & -> & -> & -> & _).
      do 4 right. by exists cart.
    + apply post_sales_failed_store in E as ->. left. by destruct db.
Qed.

(** A commit keeps the keys of the catalogue. *)
Lemma commit_keeps_keys (t : store A) cart (total profit : A) id :
  is_Some (products (written t cart total profit) !! id) <->
  is_Some (products t !! id).
Proof. rewrite written_products. by rewrite fmap_is_Some. Qed.

Lemma serve_catalogue_wf db req :
  catalogue_wf db ->
  catalogue_wf (serve db req).1 /\
  products_seq db <= products_seq (serve db req).1 /\
  Forall (fun id => products_seq db < id <= products_seq (serve db req).1)
         (added_ids [(serve db req).2]).
Proof.
  intros Hwf.
  destruct (serve_cases db req)
    as [(-> & -> & _) | [(row & -> & ->) | [(id & p & body & Hp & -> & ->)
       | [(id & p & Hp & -> & ->) | (cart & _ & _ & -> & ->)]]]];
    cbn [added_ids omap option_bind products_seq]; unfold catalogue_wf;
    cbn [tables products products_seq with_products].
  - split_and!; [done | lia | constructor].
  - split_and!; [| lia | repeat constructor; lia].
    intros k q [[-> _] | [_ Hk]]%lookup_insert_Some; [lia|].
    apply Hwf in Hk. lia.
  - split_and!; [| lia | constructor].
    intros k q Hk. assert (is_Some (products (tables db) !! k)) as [q' Hq'].
    { rewrite lookup_alter in Hk. destruct (decide (id = k)) as [->|]; [|by eexists].
      by rewrite Hp. }
    by apply Hwf in Hq'.
  - split_and!; [| lia | constructor].
    intros k q [_ Hk]%lookup_delete_Some. by apply Hwf in Hk.
  - split_and!; [| lia | constructor].
    intros k q Hk. assert (is_Some (products (tables db) !! k)) as [q' Hq'].
    { apply (commit_keeps_keys _ cart (lines_total cart) (lines_net cart)).
      by eexists. }
    by apply Hwf in Hq'.
Qed.

(** X15: whatever requests are served, in whatever order, a product that
    is added gets a key above every key handed out before, so that no key
    is used twice, also not the key of a product that was deleted in
    between. *)
Theorem product_keys_never_reused db reqs :
  catalogue_wf db ->
  catalogue_wf (serve_all db reqs).1 /\
  products_seq db <= products_seq (serve_all db reqs).1 /\
  Forall (fun id => products_seq db < id <= products_seq (serve_all db reqs).1)
         (added_ids (serve_all db reqs).2) /\
  StronglySorted Z.lt (added_ids (serve_all db reqs).2).
Proof.
  revert db. induction reqs as [|req reqs IH]; intros db Hwf.
  - cbn. split_and!; [done | lia | constructor | constructor].
  - rewrite serve_all_cons. cbn [fst snd].
    destruct (serve_catalogue_wf db req Hwf) as (Hwf1 & Hle1 & Hnew).
    destruct (IH _ Hwf1) as (Hwf2 & Hle2 & Hall & Hsorted).
    change ((serve db req).2 :: (serve_all (serve db req).1 reqs).2)
      with ([(serve db req).2] ++ (serve_all (serve db req).1 reqs).2).
    unfold added_ids in *. rewrite omap_app.
    split_and!; [done | lia | |].
    + apply Forall_app. split.
      * eapply Forall_impl; [exact Hnew|]. simpl. intros; lia.
      * eapply Forall_impl; [exact Hall|]. simpl. intros; lia.
    + destruct (omap _ [(serve db req).2]) as [|id [|]] eqn:E.
      * done.
      * simpl. constructor; [done|].
        apply Forall_cons in Hnew as [Hid _].
        eapply Forall_impl; [exact Hall|]. simpl. intros; lia.
      * exfalso. cbn in E. by destruct ((serve db req).2) as [[]|[]].
Qed.

(** ** The ledger under every request *)

Lemma get_sale_ext (t1 t2 : store A) id :
  sales t1 = sales t2 -> sale_items t1 = sale_items t2 ->
  get_sale t1 id = get_sale t2 id.
Proof. intros Hs Hi. unfold get_sale, items_of_sale. by rewrite Hs, Hi. Qed.

Lemma serve_ledger db req :
  sales (tables db) `prefix_of` sales (tables (serve db req).1) /\
  sale_items (tables db) `prefix_of` sale_items (tables (serve db req).1) /\
  (ledger_wf (tables db) ->
   ledger_wf (tables (serve db req).1) /\
   sales_seq (tables db) <= sales_seq (tables (serve db req).1) /\
   forall id,
     id <= sales_seq (tables db) ->
     get_sale (tables (serve db req).1) id = get_sale (tables db) id).
Proof.
  destruct (serve_cases db req)
    as [(-> & _) | [(row & -> & _) | [(id & p & body & _ & -> & _)
       | [(id & p & _ & -> & _) | (cart & Hne & Hv & -> & _)]]]];
    cbn [tables with_products sales sale_items].
  - split_and!; [done | done |]. intros Hwf. split_and!; [done | lia | done].
  - split_and!; [done | done |]. intros Hwf. split_and!; [done | simpl; lia |].
    intros k _. by apply get_sale_ext.
  - split_and!; [done | done |]. intros Hwf. split_and!; [done | simpl; lia |].
    intros k _. by apply get_sale_ext.
  - split_and!; [done | done |]. intros Hwf. split_and!; [done | simpl; lia |].
    intros k _. by apply get_sale_ext.
  - split_and!.
    + rewrite written_sales. by apply prefix_app_r.
    + rewrite written_sale_items. by apply prefix_app_r.
    + intros [Hs Hr]. split_and!.
      * unfold ledger_wf. rewrite written_sales, written_sale_items, written_sales_seq.
        split; apply Forall_app; split.
        -- eapply Forall_impl; [exact Hs|]. simpl. intros; lia.
        -- constructor; [simpl; lia | constructor].
        -- eapply Forall_impl; [exact Hr|]. simpl. intros; lia.
        -- eapply Forall_impl; [apply rows_of_sale_id|]. simpl. intros; lia.
      * rewrite written_sales_seq. lia.
      * intros k Hk. apply get_sale_other. lia.
Qed.

(** X16: no request takes anything out of the ledger or changes a row of
    it: after any requests, the headers and the rows that were there are
    still there, in front of the new ones, and every sale that could be
    read can be read with the same header and the same rows, whatever has
    been done to the products since. *)
Theorem ledger_append_only db reqs :
  sales (tables db) `prefix_of` sales (tables (serve_all db reqs).1) /\
  sale_items (tables db) `prefix_of` sale_items (tables (serve_all db reqs).1) /\
  (ledger_wf (tables db) ->
   ledger_wf (tables (serve_all db reqs).1) /\
   forall id,
     id <= sales_seq (tables db) ->
     get_sale (tables (serve_all db reqs).1) id = get_sale (tables db) id).
Proof.
  revert db. induction reqs as [|req reqs IH]; intros db.
  - cbn. split_and!; [done | done |]. by intros Hwf.
  - rewrite serve_all_cons. cbn [fst].
    destruct (serve_ledger db req) as (Hs1 & Hi1 & Hwf1).
    destruct (IH (serve db req).1) as (Hs2 & Hi2 & Hwf2).
    split_and!; [by etrans | by etrans |].
    intros Hwf. destruct (Hwf1 Hwf) as (Hwf' & Hle & Hget1).
    destruct (Hwf2 Hwf') as (Hwf'' & Hget2).
    split; [done|]. intros id Hid. rewrite Hget2 by lia. by apply Hget1.
Qed.

(** ** The stock under every request *)



(** ** The statistics *)

Lemma size_with_same_keys (m1 m2 : gmap Z (Product.t A)) :
  (forall k, is_Some (m1 !! k) <-> is_Some (m2 !! k)) -> size m1 = size m2.
Proof.
  intros Hk. rewrite <- !size_dom. f_equal. apply set_eq. intros k.
  by rewrite !elem_of_dom.
Qed.

Lemma serve_counts db req :
  catalogue_wf db ->
  stats_sales_count (tables (serve db req).1) =
    (stats_sales_count (tables db) + length (completed [(serve db req).2]))%nat /\
  (stats_total_products (tables (serve db req).1)
   + deleted_count [(serve db req).2])%nat =
    (stats_total_products (tables db) + length (added_ids [(serve db req).2]))%nat.
Proof.
  intros Hwf. unfold stats_sales_count, stats_total_products.
  destruct (serve_cases db req)
    as [(-> & -> & -> & ->) | [(row & -> & ->) | [(id & p & body & Hp & -> & ->)
       | [(id & p & Hp & -> & ->) | (cart & _ & _ & -> & ->)]]]];
    unfold completed, added_ids, deleted_count;
    cbn [tables with_products sales products omap list_omap length].
  - lia.
  - rewrite map_size_insert_None; [lia|].
    destruct (products (tables db) !! (products_seq db + 1)) as [q|] eqn:E; [|done].
    apply Hwf in E. lia.
  - split; [lia|]. rewrite (size_with_same_keys _ (products (tables db))); [lia|].
    intros k. rewrite lookup_alter. destruct (decide (id = k)) as [->|]; [|done].
    by rewrite fmap_is_Some.
  - split; [lia|]. rewrite map_size_delete_Some by done.
    assert (size (products (tables db)) <> 0%nat); [|lia].
    intros H0. apply map_size_empty_inv in H0. by rewrite H0 in Hp.
  - rewrite written_sales, length_app. split; [simpl; lia|].
    rewrite (size_with_same_keys _ (products (tables db))); [lia|].
    intros k. apply commit_keeps_keys.
Qed.

(** X18: after any requests the statistics count one sale more for every
    sale that was completed and none for a sale that was refused, and
    the number of products is the number before, plus the products that
    were added, less the products that were deleted. *)
Theorem stats_counts db reqs :
  catalogue_wf db ->
  stats_sales_count (tables (serve_all db reqs).1) =
    (stats_sales_count (tables db)
     + length (completed (serve_all db reqs).2))%nat /\
  (stats_total_products (tables (serve_all db reqs).1)
   + deleted_count (serve_all db reqs).2)%nat =
    (stats_total_products (tables db)
     + length (added_ids (serve_all db reqs).2))%nat.
Proof.
  revert db. induction reqs as [|req reqs IH]; intros db Hwf.
  - cbn. lia.
  - rewrite serve_all_cons. cbn [fst snd].
    destruct (serve_catalogue_wf db req Hwf) as (Hwf1 & _).
    destruct (serve_counts db req Hwf) as [Hs1 Hp1].
    destruct (IH _ Hwf1) as [Hs2 Hp2].
    change ((serve db req).2 :: (serve_all (serve db req).1 reqs).2)
      with ([(serve db req).2] ++ (serve_all (serve db req).1 reqs).2).
    unfold completed, added_ids, deleted_count in *.
    rewrite !omap_app, !length_app. lia.
Qed.

End MoreServer.

Lemma completed_totals_cons (r : reply Z) (rs : list (reply Z)) :
  completed_revenue (r :: rs) = completed_revenue [r] + completed_revenue rs /\
  completed_profit (r :: rs) = completed_profit [r] + completed_profit rs.
Proof.
  unfold completed_revenue, completed_profit, completed.
  change (r :: rs) with ([r] ++ rs). rewrite omap_app.
  destruct r as [r|[id total profit|st e]];
    cbn [omap list_omap app foldr fst snd]; lia.
Qed.

Lemma serve_revenue (db : database Z) (req : request Z) :
  stats_revenue (tables (serve db req).1) =
    stats_revenue (tables db) + completed_revenue [(serve db req).2] /\
  stats_profit (tables (serve db req).1) =
    stats_profit (tables db) + completed_profit [(serve db req).2].
Proof.
  assert (Happ : forall (f : Sale.t Z -> Z) (l1 l2 : list (Sale.t Z)),
    foldr (fun s acc => f s + acc) 0 (l1 ++ l2) =
    foldr (fun s acc => f s + acc) 0 l1 + foldr (fun s acc => f s + acc) 0 l2).
  { intros f l1 l2. induction l1 as [|s l1 IH]; simpl; lia. }
  unfold completed_revenue, completed_profit, stats_revenue, stats_profit.
  destruct (serve_cases db req)
    as [(-> & _ & -> & _) | [(row & -> & ->) | [(id & p & body & _ & -> & ->)
       | [(id & p & _ & -> & ->) | (cart & _ & _ & -> & ->)]]]];
    unfold completed;
    cbn [tables with_products sales omap list_omap foldr]; try lia.
  rewrite written_sales, !Happ. simpl. lia.
Qed.

(** X19: in exact arithmetic the revenue and the profit of the statistics
    are, after any requests, what they were before plus the totals and
    the profits that the completed sales were answered with. *)
Theorem stats_revenue_adds_up (db : database Z) (reqs : list (request Z)) :
  stats_revenue (tables (serve_all db reqs).1) =
    stats_revenue (tables db) + completed_revenue (serve_all db reqs).2 /\
  stats_profit (tables (serve_all db reqs).1) =
    stats_profit (tables db) + completed_profit (serve_all db reqs).2.
Proof.
  revert db. induction reqs as [|req reqs IH]; intros db.
  - cbn. lia.
  - rewrite serve_all_cons. cbn [fst snd].
    destruct (IH (serve db req).1) as [Hr Hp]. rewrite Hr, Hp.
    destruct (serve_revenue db req) as [-> ->].
    destruct (completed_totals_cons (serve db req).2
                (serve_all (serve db req).1 reqs).2) as [-> ->].
    lia.
Qed.

(** ** The chatbot *)

Lemma starts_with_spec needle : forall hay,
  starts_with needle hay = true <-> exists post, hay = needle ++ post.
Proof.
  induction needle as [|n needle IH]; intros hay.
  - split; [by exists hay | done].
  - destruct hay as [|h hay]; cbn [starts_with].
    + split; [done | by intros [post H]].
    + rewrite andb_true_iff, N.eqb_eq, IH. split.
      * intros [-> [post ->]]. by exists post.
      * intros [post [= -> ->]]. split; [done | by exists post].
Qed.

Lemma includes_spec needle : forall hay,
  includes hay needle = true <-> exists pre post, hay = pre ++ needle ++ post.
Proof.
  induction hay as [|h hay IH]; cbn [includes].
  - rewrite orb_false_r, starts_with_spec. split.
    + intros [post H]. by exists [], post.
    + intros ([|x pre] & post & H); [by exists post | done].
  - rewrite orb_true_iff, starts_with_spec, IH. split.
    + intros [[post H] | (pre & post & ->)].
      * by exists [], post.
      * by exists (h :: pre), post.
    + intros ([|x pre] & post & H).
      * left. by exists post.
      * right. injection H as -> ->. by exists pre, post.
Qed.

(** A message that includes a phrase includes every part of the phrase. *)
Lemma includes_part hay a b c :
  includes hay (a ++ b ++ c) = true -> includes hay b = true.
Proof.
  rewrite !includes_spec. intros (pre & post & ->).
  exists (pre ++ a), (c ++ post). by rewrite <- !app_assoc.
Qed.

Lemma split_spaces_spaceless w : spaceless w -> split_spaces w = [w].
Proof.
  induction 1 as [|c w Hc _ IH]; [done|].
  cbn [split_spaces]. rewrite (proj2 (N.eqb_neq c 32)) by done. by rewrite IH.
Qed.

Lemma split_spaces_not_nil s : split_spaces s <> [].
Proof.
  destruct s as [|c s]; [done|]. cbn [split_spaces].
  destruct (c =? 32)%N; [done|]. by destruct (split_spaces s).
Qed.

(** Splitting at a space splits the words. *)
Lemma split_spaces_space a b :
  split_spaces (a ++ 32%N :: b) = split_spaces a ++ split_spaces b.
Proof.
  induction a as [|c a IH]; [done|].
  cbn [app split_spaces]. destruct (c =? 32)%N; [by rewrite IH|].
  rewrite IH. pose proof (split_spaces_not_nil a).
  by destruct (split_spaces a).
Qed.

(** The last word of a text that ends in a word. *)
Lemma split_spaces_last pre w :
  spaceless w -> exists ws u, split_spaces (pre ++ w) = ws ++ [u ++ w].
Proof.
  intros Hw. induction pre as [|c pre (ws & u & IH)].
  - exists [], []. by apply split_spaces_spaceless.
  - cbn [app split_spaces]. rewrite IH. destruct (c =? 32)%N.
    + by exists ([] :: ws), u.
    + destruct ws as [|x ws].
      * by exists [], (c :: u).
      * by exists ((c :: x) :: ws), u.
Qed.

(** A text begins with a word, which ends at the first space or at the
    end of the text. *)
Lemma first_word (s : text) :
  exists v tail,
    s = v ++ tail /\ spaceless v /\ (tail = [] \/ exists b, tail = 32%N :: b).
Proof.
  induction s as [|c s (v & tail & -> & Hv & Htail)].
  - exists [], []. split_and!; [done | constructor | by left].
  - destruct (N.eq_dec c 32) as [->|Hc].
    + exists [], (32%N :: v ++ tail). split_and!; [done | constructor |].
      right. by eexists.
    + exists (c :: v), tail. split_and!; [done | by constructor | done].
Qed.

(** A phrase without a space lies within one word of the message. *)
Lemma word_around pre w post :
  spaceless w ->
  exists u v,
    (u ++ w ++ v) ∈ split_spaces (pre ++ w ++ post) /\
    ((exists b, post = 32%N :: b) -> v = []).
Proof.
  intros Hw. destruct (first_word post) as (v & tail & -> & Hv & Htail).
  assert (Hwv : spaceless (w ++ v)) by by apply Forall_app.
  destruct (split_spaces_last pre (w ++ v) Hwv) as (ws & u & Hlast).
  exists u, v. split.
  - destruct Htail as [-> | [b ->]].
    + rewrite app_nil_r, Hlast. apply elem_of_app. right. by left.
    + replace (pre ++ w ++ v ++ 32%N :: b) with ((pre ++ w ++ v) ++ 32%N :: b)
        by by rewrite <- !app_assoc.
      rewrite split_spaces_space, Hlast.
      apply elem_of_app. left. apply elem_of_app. right. by left.
  - intros [b Hb]. destruct v as [|c v]; [done|].
    apply Forall_cons in Hv as [Hc _]. by injection Hb as -> _.
Qed.

Lemma join_spaces_not_nil (ws : list text) w :
  w ∈ ws -> w <> [] -> join_spaces ws <> [].
Proof.
  intros Hin Hw. destruct ws as [|x [|y ws]].
  - by apply elem_of_nil in Hin.
  - apply list_elem_of_singleton in Hin as ->. done.
  - cbn [join_spaces]. by destruct x.
Qed.

Lemma split_spaces_words s : Forall spaceless (split_spaces s).
Proof.
  induction s as [|c s IH]; [by repeat constructor|].
  cbn [split_spaces]. destruct (N.eqb_spec c 32) as [->|Hc].
  - constructor; [constructor | done].
  - destruct (split_spaces s) as [|w ws]; [by repeat constructor|].
    apply Forall_cons in IH as [Hw Hws]. constructor; [by constructor | done].
Qed.

(** Joining words with spaces and splitting at the spaces gives the
    words back. *)
Lemma split_join (ws : list text) :
  ws <> [] -> Forall spaceless ws -> split_spaces (join_spaces ws) = ws.
Proof.
  intros Hne Hws. induction Hws as [|w ws Hw Hws IH]; [done|].
  destruct ws as [|x ws].
  - by apply split_spaces_spaceless.
  - change (join_spaces (w :: x :: ws))
      with (w ++ 32%N :: join_spaces (x :: ws)).
    rewrite split_spaces_space, IH by done.
    by rewrite split_spaces_spaceless.
Qed.

(** No stop word ends in [low], and none has more than six letters. *)
Lemma stop_words_shape :
  Forall (fun sw => starts_with (reverse (units "low")) (reverse sw) = false /\
                    (length sw <= 6)%nat) stopWords.
Proof. repeat constructor. Qed.

Lemma ends_in_low_kept u : kept (u ++ units "low").
Proof.
  split.
  - intros Hin. pose proof stop_words_shape as Hshape.
    rewrite Forall_forall in Hshape. apply Hshape in Hin as [Hends _].
    rewrite reverse_app in Hends.
    assert (starts_with (reverse (units "low"))
              (reverse (units "low") ++ reverse u) = true) as Htrue
      by (apply starts_with_spec; by eexists).
    congruence.
  - rewrite length_app. simpl. lia.
Qed.

Lemma around_restock_kept u v : kept (u ++ units "restock" ++ v).
Proof.
  split.
  - intros Hin. pose proof stop_words_shape as Hshape.
    rewrite Forall_forall in Hshape. apply Hshape in Hin as [_ Hlen].
    rewrite !length_app in Hlen. simpl in Hlen. lia.
  - rewrite !length_app. simpl. lia.
Qed.

Section MoreChatbot.
Variable toLowerCase : text -> text.

(** The name that is extracted is not empty when a word is kept. *)
Lemma extract_truthy message w :
  w ∈ split_spaces (toLowerCase message) -> kept w ->
  truthy (extractProductName toLowerCase message) = true.
Proof.
  intros Hin Hkept.
  assert (Hne : extractProductName toLowerCase message <> []).
  { unfold extractProductName. apply (join_spaces_not_nil _ w).
    - by apply list_elem_of_filter.
    - destruct Hkept as [_ Hlen]. destruct w; [simpl in Hlen; lia | done]. }
  by destruct (extractProductName toLowerCase message).
Qed.

(** X20: [extractProductName] returns the words of the lower-cased message
    that are longer than two letters and are no stop words, in their
    order, with one space between two of them and none before or after:
    splitting the result at the spaces gives these words back. When no word
    is kept, the result is the empty string. *)
Theorem extracted_words message :
  (filter kept (split_spaces (toLowerCase message)) <> [] ->
   split_spaces (extractProductName toLowerCase message) =
     filter kept (split_spaces (toLowerCase message))) /\
  (filter kept (split_spaces (toLowerCase message)) = [] ->
   extractProductName toLowerCase message = []).
Proof.
  unfold extractProductName. split.
  - intros Hne. apply split_join; [done|].
    apply Forall_forall. intros w [_ Hin]%list_elem_of_filter.
    pose proof (split_spaces_words (toLowerCase message)) as Hall.
    rewrite Forall_forall in Hall. by apply Hall.
  - by intros ->.
Qed.

(** X21: a message that says [low stock] or [restock] is not answered with
    the low-stock alert: the stock branch comes first, catches the word
    [stock] and asks for the stock of a product named after the rest of
    the message. The low-stock alert answers only a message that says
    [alert]. This is for a message whose lower-cased form is left as it
    is by lower-casing it again. *)
Theorem low_stock_phrase_asks_for_a_product message :
  toLowerCase (toLowerCase message) = toLowerCase message ->
  (includes (toLowerCase message) (units "low stock") = true \/
   includes (toLowerCase message) (units "restock") = true ->
   exists productMatch,
     resolve toLowerCase message = StockQuery productMatch /\
     productMatch <> []) /\
  (resolve toLowerCase message = LowStockAlert ->
   includes (toLowerCase message) (units "alert") = true).
Proof.
  intros Hidem.
  assert (Hcatch :
    includes (toLowerCase message) (units "low stock") = true \/
    includes (toLowerCase message) (units "restock") = true ->
    includes (toLowerCase message) (units "stock") = true /\
    truthy (extractProductName toLowerCase (toLowerCase message)) = true).
  { intros [Hlow | Hre].
    - split; [by apply (includes_part _ (units "low ") _ [])|].
      apply includes_spec in Hlow as (pre & post & Hm).
      destruct (word_around pre (units "low") (32%N :: units "stock" ++ post))
        as (u & v & Hin & Hv); [by repeat constructor|].
      rewrite (Hv ltac:(by eexists)) in Hin.
      apply (extract_truthy _ (u ++ units "low")).
      + rewrite Hidem, Hm. by rewrite app_nil_r in Hin.
      + apply ends_in_low_kept.
    - split; [by apply (includes_part _ (units "re") _ [])|].
      apply includes_spec in Hre as (pre & post & Hm).
      destruct (word_around pre (units "restock") post)
        as (u & v & Hin & _); [by repeat constructor|].
      apply (extract_truthy _ (u ++ units "restock" ++ v)).
      + by rewrite Hidem, Hm.
      + apply around_restock_kept. }
  split.
  - intros Hsays. destruct (Hcatch Hsays) as [Hstock Htruthy].
    exists (extractProductName toLowerCase (toLowerCase message)).
    unfold resolve. cbv zeta. rewrite Hstock, Htruthy. split; [done|].
    by destruct (extractProductName toLowerCase (toLowerCase message)).
  - unfold resolve. cbv zeta.
    destruct (includes (toLowerCase message) (units "low stock")) eqn:Hlow.
    { destruct (Hcatch (or_introl eq_refl)) as [-> ->]. done. }
    destruct (includes (toLowerCase message) (units "restock")) eqn:Hre.
    { destruct (Hcatch (or_intror eq_refl)) as [-> ->]. done. }
    destruct (includes (toLowerCase message) (units "alert")); [done|].
    cbn [orb].
    repeat (match goal with
            | |- context [if ?b then _ else _] => destruct b
            end; try done).
Qed.

End MoreChatbot.

(** ** The properties of the rest of the server on the sample store *)

Lemma shop_db_wf : catalogue_wf shop_db.
Proof.
  intros id p H. unfold shop_db, shop, opening in H. simpl in H.
  apply lookup_singleton_Some in H as [<- _]. done.
Qed.

Lemma shop_sells_three :
  post_sales (shop : store float) (Some [rice_line 3]) =
  ((post_sales (shop : store float) (Some [rice_line 3])).1,
   Completed 1 150%float 30%float).
Proof. vm_compute. reflexivity. Qed.

Lemma sale_read_back_witness :
  ledger_wf (shop : store float) /\
  (exists cart rows,
      Some [rice_line 3] = Some cart /\
      get_sale (post_sales (shop : store float) (Some [rice_line 3])).1 1 =
        SaleFound (Sale.mk 1 150%float 30%float) rows /\
      Forall (fun r => SaleItem.sale_id r = 1) rows /\
      (fun r => (SaleItem.product_id r, SaleItem.product_name r,
                 SaleItem.quantity r, SaleItem.price r, SaleItem.cost r)) <$> rows =
      (fun item => (Item.product_id item, Item.product_name item,
                    Item.quantity item, Item.price item, Item.cost item)) <$> cart) /\
  (forall other,
      other <> 1 ->
      get_sale (post_sales (shop : store float) (Some [rice_line 3])).1 other =
      get_sale (shop : store float) other).
Proof.
  assert (Hwf : ledger_wf (shop : store float)) by apply opening_ledger_wf.
  split; [exact Hwf|].
  exact (sale_read_back (shop : store float) (Some [rice_line 3]) _ 1
           150%float 30%float Hwf shop_sells_three).
Defined.

Lemma sale_item_count_witness :
  ledger_wf (shop : store float) /\
  (exists cart,
      Some [rice_line 3] = Some cart /\
      item_count (post_sales (shop : store float) (Some [rice_line 3])).1 1 =
        length cart) /\
  (forall other,
      other <> 1 ->
      item_count (post_sales (shop : store float) (Some [rice_line 3])).1 other =
      item_count (shop : store float) other).
Proof.
  assert (Hwf : ledger_wf (shop : store float)) by apply opening_ledger_wf.
  split; [exact Hwf|].
  exact (sale_item_count (shop : store float) (Some [rice_line 3]) _ 1
           150%float 30%float Hwf shop_sells_three).
Defined.

Lemma stock_and_sold_conserved_witness :
  products (shop : store float) !! 1 = Some rice /\
  (forall cart, Some [rice_line 3 : Item.t float] = Some cart ->
                exact_range 1 cart rice) /\
  exists p',
    products (post_sales (shop : store float) (Some [rice_line 3])).1 !! 1 =
      Some p' /\
    Product.stock p'
    + units_sold (post_sales (shop : store float) (Some [rice_line 3])).1 1 =
    Product.stock (rice : Product.t float) + units_sold (shop : store float) 1.
Proof.
  assert (H : products (shop : store float) !! 1 = Some rice) by reflexivity.
  assert (Hrange : forall cart, Some [rice_line 3 : Item.t float] = Some cart ->
                                exact_range 1 cart rice).
  { intros cart [= <-]. vm_compute. discriminate. }
  split; [exact H|]. split; [exact Hrange|].
  exact (stock_and_sold_conserved (shop : store float) (Some [rice_line 3]) 1 rice
           H Hrange).
Defined.

Lemma low_stock_after_sale_witness :
  post_sales (shop : store float) (Some [rice_line 5]) =
    ((post_sales (shop : store float) (Some [rice_line 5])).1,
     Completed 1 250%float 50%float) /\
  (forall product_id p,
      products (shop : store float) !! product_id = Some p ->
      exact_range product_id [rice_line 5 : Item.t float] p) /\
  (1, with_stock 5 rice)
    ∈ low_stock (post_sales (shop : store float) (Some [rice_line 5])).1.
Proof.
  assert (H : post_sales (shop : store float) (Some [rice_line 5]) =
              ((post_sales (shop : store float) (Some [rice_line 5])).1,
               Completed 1 250%float 50%float)).
  { vm_compute. reflexivity. }
  assert (Hrange : forall product_id p,
            products (shop : store float) !! product_id = Some p ->
            exact_range product_id [rice_line 5 : Item.t float] p).
  { intros pid p Hp. unfold shop, opening in Hp. simpl in Hp.
    apply lookup_singleton_Some in Hp as [<- <-]. vm_compute. discriminate. }
  split; [exact H|]. split; [exact Hrange|].
  apply (low_stock_after_sale (shop : store float) [rice_line 5] _ 1
           250%float 50%float H Hrange 1 (with_stock 5 rice)).
  exists rice. split_and!; [reflexivity | reflexivity | simpl; lia].
Defined.

Lemma unchecked_variant_sells_anything_witness :
  ([rice_line 11; ghost_line] <> [] /\
   recordable_unchecked [rice_line 11 : Item.t float; ghost_line] /\
   exact_range 1 [rice_line 11 : Item.t float; ghost_line] rice) /\
  exists db',
    post_sales_unchecked (shop : store float) (Some [rice_line 11; ghost_line]) =
      (db', Completed 1 (lines_total [rice_line 11; ghost_line])
                        (lines_profit [rice_line 11; ghost_line])) /\
    products db' !! 1 = Some (with_stock (-1) rice) /\
    sale_items db' = rows_of 1 1 [rice_line 11; ghost_line].
Proof.
  assert (H : [rice_line 11; ghost_line] <> ([] : list (Item.t float))) by done.
  assert (Hr : recordable_unchecked [rice_line 11 : Item.t float; ghost_line]).
  { split; vm_compute; reflexivity. }
  assert (Hrange : exact_range 1 [rice_line 11 : Item.t float; ghost_line] rice).
  { vm_compute. discriminate. }
  split; [by split_and!|].
  destruct (proj1 (unchecked_variant_sells_anything (shop : store float)
                     [rice_line 11; ghost_line] H) Hr)
    as (db' & Hres & _ & Hstock & _ & Hrows).
  exists db'. split_and!; [exact Hres | | exact Hrows].
  exact (Hstock 1 rice eq_refl Hrange).
Defined.

Lemma unchecked_variant_reconciles_witness :
  ledger_wf (shop : store float) /\
  Sale.mk 1 550%float 110%float
    ∈ sales (post_sales_unchecked (shop : store float) (Some [rice_line 11])).1 /\
  550%float =
    rows_total (items_of_sale
                  (post_sales_unchecked (shop : store float)
                                        (Some [rice_line 11])).1 1) /\
  110%float =
    rows_profit (items_of_sale
                   (post_sales_unchecked (shop : store float)
                                         (Some [rice_line 11])).1 1).
Proof.
  assert (Hwf : ledger_wf (shop : store float)) by apply opening_ledger_wf.
  split; [exact Hwf|].
  assert (Hres : post_sales_unchecked (shop : store float) (Some [rice_line 11]) =
                 ((post_sales_unchecked (shop : store float)
                                        (Some [rice_line 11])).1,
                  Completed 1 550%float 110%float)).
  { vm_compute. reflexivity. }
  exact (unchecked_variant_reconciles (shop : store float) [rice_line 11] _ 1
           550%float 110%float Hwf Hres).
Defined.

Lemma variants_write_alike_witness :
  post_sales (shop : store float) (Some [loose_rice_line]) =
    ((post_sales (shop : store float) (Some [loose_rice_line])).1,
     Completed 1 (lines_total [loose_rice_line]) (lines_net [loose_rice_line])) /\
  post_sales_unchecked (shop : store float) (Some [loose_rice_line]) =
    ((post_sales_unchecked (shop : store float) (Some [loose_rice_line])).1,
     Completed 1 (lines_total [loose_rice_line])
                 (lines_profit [loose_rice_line])) /\
  products (post_sales (shop : store float) (Some [loose_rice_line])).1 =
    products (post_sales_unchecked (shop : store float) (Some [loose_rice_line])).1 /\
  sale_items (post_sales (shop : store float) (Some [loose_rice_line])).1 =
    sale_items (post_sales_unchecked (shop : store float)
                                     (Some [loose_rice_line])).1.
Proof.
  assert (H1 : post_sales (shop : store float) (Some [loose_rice_line]) =
    ((post_sales (shop : store float) (Some [loose_rice_line])).1,
     Completed 1 (lines_total [loose_rice_line]) (lines_net [loose_rice_line])))
    by (vm_compute; reflexivity).
  assert (H2 : post_sales_unchecked (shop : store float) (Some [loose_rice_line]) =
    ((post_sales_unchecked (shop : store float) (Some [loose_rice_line])).1,
     Completed 1 (lines_total [loose_rice_line])
                 (lines_profit [loose_rice_line])))
    by (vm_compute; reflexivity).
  destruct (variants_write_alike (shop : store float) [loose_rice_line]
              _ _ _ _ _ _ _ _ H1 H2) as (Hp & Hi & _).
  by split_and!.
Defined.


Lemma product_guard_witness :
  (incomplete free_body /\
   ~ incomplete null_stock_body /\ ProductBody.stock null_stock_body = Null /\
   ~ incomplete sugar_body /\ ProductBody.stock sugar_body <> Null) /\
  add_product shop_db free_body = (shop_db, ProductRefused 400 MissingFields) /\
  add_product shop_db null_stock_body =
    (shop_db, ProductRefused 500 ConstraintFailed) /\
  exists db', add_product shop_db sugar_body = (db', ProductAdded 2).
Proof.
  assert (H1 : incomplete free_body).
  { right; right; left. right; right. exists 0%float. split; reflexivity. }
  assert (Hfull : forall body : ProductBody.t float,
            ProductBody.name body = Value "Sugar 1kg"%string ->
            ProductBody.category body = Value "Groceries"%string ->
            ProductBody.cost body = Value 35%float ->
            ProductBody.price body = Value 45%float ->
            ProductBody.stock body <> Undefined ->
            ~ incomplete body).
  { intros body Hn Hc Hco Hpr Hst [[H|[H|H]] | [[H|[H|H]] | [[H|[H|(x & H & Hx)]]
      | [[H|[H|(x & H & Hx)]] | H]]]]; try congruence.
    - rewrite Hco in H. injection H as <-. vm_compute in Hx. discriminate Hx.
    - rewrite Hpr in H. injection H as <-. vm_compute in Hx. discriminate Hx. }
  assert (H2 : ~ incomplete null_stock_body) by by apply Hfull.
  assert (H3 : ~ incomplete sugar_body) by by apply Hfull.
  assert (H4 : ProductBody.stock sugar_body <> Null) by done.
  split; [by split_and!|].
  destruct (product_guard shop_db free_body) as (Ha & _ & _).
  destruct (product_guard shop_db null_stock_body) as (_ & Hb & _).
  destruct (product_guard shop_db sugar_body) as (_ & _ & Hc).
  split_and!; [exact (Ha H1) | exact (Hb H2 eq_refl) | exact (Hc H3 H4)].
Defined.

Lemma product_added_read_back_witness :
  (catalogue_wf shop_db /\
   add_product shop_db sugar_body =
     ((add_product shop_db sugar_body).1, ProductAdded 2)) /\
  products (tables shop_db) !! 2 = None /\
  exists p,
    get_product (add_product shop_db sugar_body).1 2 = ProductFound 2 p /\
    Product.barcode p = Some "SUGAR001"%string /\
    Product.min_stock p = 15.
Proof.
  assert (H : add_product shop_db sugar_body =
              ((add_product shop_db sugar_body).1, ProductAdded 2))
    by (vm_compute; reflexivity).
  split; [split; [exact shop_db_wf | exact H]|].
  destruct (product_added_read_back shop_db sugar_body _ 2 shop_db_wf H)
    as (Hfresh & (p & Hp & _ & _ & _ & _ & _ & Hbar & Hmin) & _).
  split; [exact Hfresh|]. exists p. split_and!; [exact Hp | exact Hbar | exact Hmin].
Defined.

Lemma earlier_guard_accepts_zero_witness :
  add_product_earlier shop_db free_body <> add_product shop_db free_body /\
  add_product shop_db free_body = (shop_db, ProductRefused 400 MissingFields) /\
  exists db', add_product_earlier shop_db free_body = (db', ProductAdded 2).
Proof.
  assert (H : add_product_earlier shop_db free_body <>
              add_product shop_db free_body).
  { intros E. apply (f_equal snd) in E. vm_compute in E. discriminate E. }
  split; [exact H|].
  destruct (proj2 (earlier_guard_accepts_zero shop_db free_body) H)
    as (H400 & _ & _ & _ & Hadd).
  split; [exact H400|]. apply Hadd.
  intros [[?|(x & [= <-] & Hx)]|[[?|(x & [= <-] & Hx)]|?]]; try done;
    vm_compute in Hx; discriminate Hx.
Defined.

Lemma product_update_witness :
  products (tables shop_db) !! 1 = Some rice /\
  (update_product shop_db 1 repriced_body).2 = ProductUpdated /\
  exists p',
    get_product (update_product shop_db 1 repriced_body).1 1 = ProductFound 1 p' /\
    Product.name p' = "Rice 1kg"%string /\
    Product.price p' = 55%float /\
    Product.stock p' = 25 /\
    Product.min_stock p' = 5 /\
    Product.barcode p' = Some "RICE001"%string.
Proof.
  assert (H : products (tables shop_db) !! 1 = Some rice) by reflexivity.
  split; [exact H|].
  destruct (proj2 (product_update shop_db 1 repriced_body) rice H)
    as (H1 & (p' & Hp' & Hn & _ & _ & Hpr & Hst & Hms & Hb) & _).
  split; [exact H1|]. exists p'.
  split_and!; [exact Hp' | exact Hn | | exact Hst | exact Hms | exact Hb].
  apply (proj1 Hpr); reflexivity.
Defined.

Lemma product_delete_witness :
  is_Some (products (tables shop_db) !! 1) /\
  (delete_product shop_db 1).2 = ProductDeleted /\
  get_product (delete_product shop_db 1).1 1 = ProductRefused 404 ProductMissing /\
  exists e,
    post_sales (tables (delete_product shop_db 1).1) (Some [rice_line 1]) =
      (tables (delete_product shop_db 1).1, Failed 400 e).
Proof.
  assert (H : is_Some (products (tables shop_db) !! 1)) by (by exists rice).
  split; [exact H|].
  destruct (proj2 (product_delete shop_db 1) H)
    as (H1 & H2 & _ & _ & _ & _ & H7).
  split_and!; [done | done |].
  apply (H7 [rice_line 1] (rice_line 1)); [by left | done].
Defined.

Lemma product_keys_never_reused_witness :
  catalogue_wf shop_db /\
  added_ids (serve_all shop_db
               [AddProduct sugar_body; DeleteProduct 2; AddProduct sugar_body]).2 =
    [2; 3] /\
  StronglySorted Z.lt
    (added_ids (serve_all shop_db
                  [AddProduct sugar_body; DeleteProduct 2; AddProduct sugar_body]).2).
Proof.
  split; [exact shop_db_wf|]. split; [vm_compute; reflexivity|].
  exact (proj2 (proj2 (proj2
    (product_keys_never_reused shop_db
       [AddProduct sugar_body; DeleteProduct 2; AddProduct sugar_body]
       shop_db_wf)))).
Defined.

Lemma ledger_append_only_witness :
  ledger_wf (tables (serve shop_db (PostSale (Some [rice_line 3]))).1) /\
  forall id,
    id <= 1 ->
    get_sale (tables (serve_all (serve shop_db (PostSale (Some [rice_line 3]))).1
                        [DeleteProduct 1; PostSale (Some [rice_line 1])]).1) id =
    get_sale (tables (serve shop_db (PostSale (Some [rice_line 3]))).1) id.
Proof.
  assert (Hwf : ledger_wf
                  (tables (serve shop_db (PostSale (Some [rice_line 3]))).1)).
  { change (ledger_wf (post_sales (shop : store float) (Some [rice_line 3])).1).
    apply post_sales_ledger_wf, opening_ledger_wf. }
  split; [exact Hwf|].
  exact (proj2 (proj2 (proj2
    (ledger_append_only (serve shop_db (PostSale (Some [rice_line 3]))).1
       [DeleteProduct 1; PostSale (Some [rice_line 1])])) Hwf)).
Defined.


Lemma stats_counts_witness :
  catalogue_wf shop_db /\
  stats_sales_count
    (tables (serve_all shop_db
               [PostSale (Some [rice_line 3]); PostSale (Some [rice_line 11]);
                AddProduct sugar_body; DeleteProduct 1]).1) =
    (stats_sales_count (tables shop_db)
     + length (completed
                 (serve_all shop_db
                    [PostSale (Some [rice_line 3]); PostSale (Some [rice_line 11]);
                     AddProduct sugar_body; DeleteProduct 1]).2))%nat /\
  (stats_total_products
     (tables (serve_all shop_db
                [PostSale (Some [rice_line 3]); PostSale (Some [rice_line 11]);
                 AddProduct sugar_body; DeleteProduct 1]).1)
   + deleted_count
       (serve_all shop_db
          [PostSale (Some [rice_line 3]); PostSale (Some [rice_line 11]);
           AddProduct sugar_body; DeleteProduct 1]).2)%nat =
    (stats_total_products (tables shop_db)
     + length (added_ids
                 (serve_all shop_db
                    [PostSale (Some [rice_line 3]); PostSale (Some [rice_line 11]);
                     AddProduct sugar_body; DeleteProduct 1]).2))%nat.
Proof.
  split; [exact shop_db_wf|].
  exact (stats_counts shop_db
           [PostSale (Some [rice_line 3]); PostSale (Some [rice_line 11]);
            AddProduct sugar_body; DeleteProduct 1] shop_db_wf).
Defined.

Lemma extracted_words_witness :
  filter kept (split_spaces (ascii_lower (units "How much is the  Rice 1kg")))
    <> [] /\
  split_spaces (extractProductName ascii_lower (units "How much is the  Rice 1kg")) =
    [units "rice"; units "1kg"].
Proof.
  assert (H : filter kept
                (split_spaces (ascii_lower (units "How much is the  Rice 1kg")))
              <> []) by (vm_compute; discriminate).
  split; [exact H|].
  rewrite (proj1 (extracted_words ascii_lower
                    (units "How much is the  Rice 1kg")) H).
  vm_compute. reflexivity.
Defined.

Lemma low_stock_phrase_asks_for_a_product_witness :
  ascii_lower (ascii_lower (units "Show low stock items")) =
    ascii_lower (units "Show low stock items") /\
  includes (ascii_lower (units "Show low stock items")) (units "low stock") = true /\
  exists productMatch,
    resolve ascii_lower (units "Show low stock items") = StockQuery productMatch /\
    productMatch <> [].
Proof.
  assert (Hidem : ascii_lower (ascii_lower (units "Show low stock items")) =
                  ascii_lower (units "Show low stock items"))
    by (vm_compute; reflexivity).
  assert (Hsays : includes (ascii_lower (units "Show low stock items"))
                           (units "low stock") = true)
    by (vm_compute; reflexivity).
  split; [exact Hidem|]. split; [exact Hsays|].
  exact (proj1 (low_stock_phrase_asks_for_a_product ascii_lower
                  (units "Show low stock items") Hidem) (or_introl Hsays)).
Defined.
